(** * The QA checker [scripts/qa_today_only_check.py]

    A shallow embedding of the checker and the properties of its rule
    evaluators and of its report.

    Python text is a sequence of Unicode code points, so a character is a
    number and a string a list of them.  The file system, the notebook
    reader, the tabular reader and the clock are the inputs of the program
    and are gathered in a record [Env]. *)

From Stdlib Require Import String Ascii.
From Stdlib Require Import List Bool Arith NArith Lia.
From Stdlib Require Import DecimalString.
Import ListNotations.

(** ** Characters and strings *)

Definition char := N.
Definition str := list char.

(** A Python literal made of ASCII characters. *)
Definition lit (s : string) : str := map N_of_ascii (list_ascii_of_string s).

Arguments lit : simpl never.

Definition char_eqb (a b : char) : bool := N.eqb a b.

Fixpoint str_eqb (a b : str) : bool :=
  match a, b with
  | [], [] => true
  | x :: a', y :: b' => char_eqb x y && str_eqb a' b'
  | _, _ => false
  end.

(** [x in xs] for a list or a set of strings. *)
Definition str_mem (x : str) (xs : list str) : bool := existsb (str_eqb x) xs.

(** [str.isspace] on one character: the white space of the Unicode
    database, which is also what [strip()], [split()] and the regular
    expression class [\s] use. *)
Definition is_space (c : char) : bool :=
  ((9 <=? c) && (c <=? 13) || (28 <=? c) && (c <=? 32) || (c =? 133)
   || (c =? 160) || (c =? 5760) || (8192 <=? c) && (c <=? 8202)
   || (c =? 8232) || (c =? 8233) || (c =? 8239) || (c =? 8287)
   || (c =? 12288))%N.

(** The line boundaries of [str.splitlines]. *)
Definition is_linebreak (c : char) : bool :=
  ((10 <=? c) && (c <=? 13) || (28 <=? c) && (c <=? 30) || (c =? 133)
   || (c =? 8232) || (c =? 8233))%N.

Definition LF : char := 10%N.
Definition CR : char := 13%N.
Definition SP : char := 32%N.

Fixpoint lstrip (s : str) : str :=
  match s with
  | [] => []
  | c :: s' => if is_space c then lstrip s' else s
  end.

Definition rstrip (s : str) : str := rev (lstrip (rev s)).

(** [s.strip()] *)
Definition strip (s : str) : str := rstrip (lstrip s).

(** [s.startswith(p)] *)
Fixpoint startswith (p s : str) : bool :=
  match p, s with
  | [], _ => true
  | _ :: _, [] => false
  | x :: p', y :: s' => char_eqb x y && startswith p' s'
  end.

(** [w in s] for strings: [w] occurs in [s] as a contiguous run. *)
Fixpoint str_in (w s : str) : bool :=
  startswith w s ||
  match s with
  | [] => false
  | _ :: s' => str_in w s'
  end.

(** [s.split(sep)[0]] for a non-empty [sep]: the text before the leftmost
    occurrence of [sep], the whole of [s] when there is none. *)
Fixpoint split_head (sep s : str) : str :=
  if startswith sep s then []
  else match s with
       | [] => []
       | c :: s' => c :: split_head sep s'
       end.

(** [s.split()]: the maximal runs of characters that are not white space.
    [cur] holds the run being read, last character first. *)
Fixpoint split_ws_from (cur s : str) : list str :=
  match s with
  | [] => match cur with [] => [] | _ => [rev cur] end
  | c :: s' =>
      if is_space c
      then match cur with
           | [] => split_ws_from [] s'
           | _ => rev cur :: split_ws_from [] s'
           end
      else split_ws_from (c :: cur) s'
  end.

Definition split_ws (s : str) : list str := split_ws_from [] s.

(** [s.splitlines()]: a carriage return followed by a line feed is one
    boundary, and no empty line is reported after a final boundary. *)
Fixpoint splitlines_from (cur s : str) : list str :=
  match s with
  | [] => match cur with [] => [] | _ => [rev cur] end
  | c :: s' =>
      if is_linebreak c
      then match s' with
           | d :: s'' =>
               if char_eqb c CR && char_eqb d LF
               then rev cur :: splitlines_from [] s''
               else rev cur :: splitlines_from [] s'
           | [] => rev cur :: splitlines_from [] s'
           end
      else splitlines_from (c :: cur) s'
  end.

Definition splitlines (s : str) : list str := splitlines_from [] s.

(** [sep.join(xs)] *)
Fixpoint join (sep : str) (xs : list str) : str :=
  match xs with
  | [] => []
  | [x] => x
  | x :: xs' => x ++ sep ++ join sep xs'
  end.

(** [s.ljust(w)] *)
Definition ljust (s : str) (w : nat) : str :=
  s ++ repeat SP (w - length s).

(** [str(n)] for a natural number. *)
Definition str_of_nat (n : nat) : str :=
  lit (NilEmpty.string_of_uint (Nat.to_uint n)).

Definition str_of_N (n : N) : str :=
  lit (NilEmpty.string_of_uint (N.to_uint n)).

(** [max(len(x) for x in xs)]; Python raises [ValueError] on an empty
    sequence, which the callers below handle before they use it. *)
Definition max_len (xs : list str) : nat :=
  fold_right Nat.max 0 (map (@length char) xs).

(** The order of [sorted] on strings: code point by code point. *)
Fixpoint str_leb (a b : str) : bool :=
  match a, b with
  | [], _ => true
  | _ :: _, [] => false
  | x :: a', y :: b' =>
      if N.ltb x y then true
      else if N.ltb y x then false
      else str_leb a' b'
  end.

Fixpoint insert_sorted (x : str) (xs : list str) : list str :=
  match xs with
  | [] => [x]
  | y :: ys => if str_leb x y then x :: xs else y :: insert_sorted x ys
  end.

(** [sorted(xs)] *)
Definition sorted (xs : list str) : list str :=
  fold_right insert_sorted [] xs.

(** A Python set of strings built by a comprehension: the elements in the
    order the comprehension meets them, each kept once. *)
Fixpoint set_of (xs : list str) : list str :=
  match xs with
  | [] => []
  | x :: xs' => if str_mem x xs' then set_of xs' else x :: set_of xs'
  end.

(** ** Case tables

    [str.lower] and the comparison of a pattern character with a text
    character under [re.IGNORECASE] read the Unicode database of the
    interpreter.  They are an interface of the embedding; the one law used
    is the value of [lower] on ASCII text. *)

Definition is_ascii (c : char) : bool := (c <? 128)%N.

Definition ascii_lower (c : char) : char :=
  if ((65 <=? c) && (c <=? 90))%N then (c + 32)%N else c.

Class CaseTables := {
  lower : str -> str;
  ci_eqb : char -> char -> bool;
  lower_ascii : forall s, forallb is_ascii s = true -> lower s = map ascii_lower s
}.

(** The tables restricted to ASCII letters; exact on ASCII text. *)
Definition ascii_tables : CaseTables :=
  {| lower := map ascii_lower;
     ci_eqb := fun p c => char_eqb (ascii_lower p) (ascii_lower c);
     lower_ascii := fun s _ => eq_refl |}.

(** ** Regular expressions

    The patterns of the checker use literals, [.], [\s], bracket classes,
    concatenation, [|], [*] and [?]; none has an anchor, a group reference
    or a look-around, so whether [re.search] finds a match depends only on
    the language of the pattern.  [re.MULTILINE] changes the anchors alone
    and has no effect on them. *)

Inductive regex : Type :=
| Void
| Eps
| Lit (p : char)
| Dot
| Space
| OneOf (ps : list char)
| Cat (r1 r2 : regex)
| Alt (r1 r2 : regex)
| Star (r : regex).

(** [r?] *)
Definition Opt (r : regex) : regex := Alt r Eps.

(** A run of literal characters. *)
Fixpoint lits (w : str) : regex :=
  match w with
  | [] => Eps
  | c :: w' => Cat (Lit c) (lits w')
  end.

Fixpoint nullable (r : regex) : bool :=
  match r with
  | Void | Lit _ | Dot | Space | OneOf _ => false
  | Eps | Star _ => true
  | Cat r1 r2 => nullable r1 && nullable r2
  | Alt r1 r2 => nullable r1 || nullable r2
  end.

Section Engine.

(** How a pattern character is compared with a text character:
    [char_eqb] without flags, [ci_eqb] under [re.IGNORECASE]. *)
Variable eqc : char -> char -> bool.

(** What is left of [r] to match once [c] has been read. *)
Fixpoint deriv (c : char) (r : regex) : regex :=
  match r with
  | Void | Eps => Void
  | Lit p => if eqc p c then Eps else Void
  | Dot => if char_eqb c LF then Void else Eps
  | Space => if is_space c then Eps else Void
  | OneOf ps => if existsb (fun p => eqc p c) ps then Eps else Void
  | Cat r1 r2 =>
      if nullable r1
      then Alt (Cat (deriv c r1) r2) (deriv c r2)
      else Cat (deriv c r1) r2
  | Alt r1 r2 => Alt (deriv c r1) (deriv c r2)
  | Star r1 => Cat (deriv c r1) (Star r1)
  end.

(** The whole of [s] matches [r]. *)
Fixpoint fullmatch (r : regex) (s : str) : bool :=
  match s with
  | [] => nullable r
  | c :: s' => fullmatch (deriv c r) s'
  end.

(** [re.match(r, s) is not None]: a match that starts where [s] starts. *)
Fixpoint re_match (r : regex) (s : str) : bool :=
  nullable r ||
  match s with
  | [] => false
  | c :: s' => re_match (deriv c r) s'
  end.

(** [re.search(r, s) is not None]: a match that starts anywhere. *)
Fixpoint re_search (r : regex) (s : str) : bool :=
  re_match r s ||
  match s with
  | [] => false
  | _ :: s' => re_search r s'
  end.

(** The language of a pattern. *)
Inductive Matches : regex -> str -> Prop :=
| MEps : Matches Eps []
| MLit p c : eqc p c = true -> Matches (Lit p) [c]
| MDot c : char_eqb c LF = false -> Matches Dot [c]
| MSpace c : is_space c = true -> Matches Space [c]
| MOneOf ps c :
    existsb (fun p => eqc p c) ps = true -> Matches (OneOf ps) [c]
| MCat r1 r2 s1 s2 :
    Matches r1 s1 -> Matches r2 s2 -> Matches (Cat r1 r2) (s1 ++ s2)
| MAltL r1 r2 s : Matches r1 s -> Matches (Alt r1 r2) s
| MAltR r1 r2 s : Matches r2 s -> Matches (Alt r1 r2) s
| MStarNil r : Matches (Star r) []
| MStarApp r s1 s2 :
    Matches r s1 -> Matches (Star r) s2 -> Matches (Star r) (s1 ++ s2).

End Engine.

(** ** Exceptions *)

Inductive exc (A : Type) : Type :=
| Ok (a : A)
| Raise (msg : str).

Arguments Ok {A} a.
Arguments Raise {A} msg.

Definition bind {A B : Type} (m : exc A) (k : A -> exc B) : exc B :=
  match m with
  | Ok a => k a
  | Raise e => Raise e
  end.

Notation "x <- m ;; k" := (bind m (fun x => k))
  (at level 61, m at next level, right associativity).

(** [try: body / except Exception as e: handler(e)] *)
Definition try_except {A : Type} (body : exc A) (handler : str -> exc A) : exc A :=
  match body with
  | Ok a => Ok a
  | Raise e => handler e
  end.

(** [max(xs)]: [ValueError] on an empty sequence. *)
Definition py_max (xs : list nat) : exc nat :=
  match xs with
  | [] => Raise (lit "max() arg is an empty sequence")
  | x :: xs' => Ok (fold_left Nat.max xs' x)
  end.

(** ** Data model *)

Inductive Status : Type := PASS | FAIL | WARN.

Definition status_text (s : Status) : str :=
  match s with
  | PASS => lit "PASS"
  | FAIL => lit "FAIL"
  | WARN => lit "WARN"
  end.

Definition status_eqb (a b : Status) : bool :=
  match a, b with
  | PASS, PASS | FAIL, FAIL | WARN, WARN => true
  | _, _ => false
  end.

(** A finding is the tuple [(label, status, detail)]. *)
Definition Finding : Type := str * Status * str.

Definition f_label (r : Finding) : str := fst (fst r).
Definition f_status (r : Finding) : Status := snd (fst r).
Definition f_detail (r : Finding) : str := snd r.

(** An output record; of its [data] mapping only the keys are read. *)
Record Output : Type := { data : option (list (str * str)) }.

Record Cell : Type := {
  cell_type : str;
  source : option str;
  outputs : option (list Output)
}.

Record Notebook : Type := { cells : list Cell }.

Definition Path : Type := str.

Inductive encoding : Type := UTF8 | LATIN1.

(** What the program reads from its surroundings: whether a path exists,
    [Path.read_text] under an encoding, [nbformat.read(path, as_version=4)],
    [pd.read_csv(path, sep=...)] reduced to the shape of the table it
    returns, and the time of the report as [strftime] prints it.  A call
    that raises returns [Raise] with [str(e)].  [nbformat] and [pd] are
    [None] when the optional import failed. *)
Record Env : Type := {
  path_exists : Path -> bool;
  read_text : Path -> encoding -> exc str;
  nbformat : option (Path -> exc Notebook);
  pd : option (Path -> str -> exc (N * N));
  now : str
}.

(** [root / rel] *)
Definition joinpath (root rel : Path) : Path := root ++ lit "/" ++ rel.

(** [x or ""] and [x or []] *)
Definition or_empty (x : option str) : str :=
  match x with Some s => s | None => [] end.

Definition or_nil {A : Type} (x : option (list A)) : list A :=
  match x with Some l => l | None => [] end.

(** [k in d] for a mapping. *)
Definition key_in (k : str) (d : list (str * str)) : bool :=
  str_mem k (map fst d).

(** ** Pattern catalog *)

Definition REQUIRED_FILES : list str :=
  [ lit "notebooks/01_problem_framing.ipynb";
    lit "notebooks/02_data_understanding.ipynb";
    lit "data/winequality-red.csv";
    lit "data/winequality-white.csv";
    lit "README.md";
    lit "requirements.txt";
    lit ".gitignore" ].

(** A pattern: the text written in the source, which the messages quote,
    and the expression it denotes. *)
Record Pattern : Type := { pat_src : str; pat_re : regex }.

Definition GITIGNORE_REQUIRED_PATTERNS : list Pattern :=
  [ {| pat_src := lit "\.ipynb_checkpoints/";
       pat_re := lits (lit ".ipynb_checkpoints/") |};
    {| pat_src := lit "venv/"; pat_re := lits (lit "venv/") |};
    {| pat_src := lit "__pycache__/"; pat_re := lits (lit "__pycache__/") |};
    {| pat_src := lit "results/"; pat_re := lits (lit "results/") |};
    {| pat_src := lit "notebooks/03_.*";
       pat_re := Cat (lits (lit "notebooks/03_")) (Star Dot) |};
    {| pat_src := lit "notebooks/04_.*";
       pat_re := Cat (lits (lit "notebooks/04_")) (Star Dot) |};
    {| pat_src := lit "notebooks/05_.*";
       pat_re := Cat (lits (lit "notebooks/05_")) (Star Dot) |} ].

Definition REQUIREMENTS_MIN : list str :=
  [ lit "pandas"; lit "numpy"; lit "scikit-learn"; lit "matplotlib";
    lit "seaborn" ].

Definition SKLEARN_CLASS_NAMES : list str :=
  [ lit "LogisticRegression"; lit "RandomForest";
    lit "RandomForestClassifier"; lit "GradientBoosting";
    lit "GradientBoostingClassifier"; lit "SVC";
    lit "KNeighborsClassifier"; lit "XGBClassifier";
    lit "DecisionTreeClassifier"; lit "GaussianNB"; lit "BernoulliNB";
    lit "MultinomialNB"; lit "LinearSVC";
    lit "LinearDiscriminantAnalysis";
    lit "QuadraticDiscriminantAnalysis" ].

(** ** Text loading and the file evaluators *)

Definition load_text (env : Env) (path : Path) : exc str :=
  try_except (read_text env path UTF8)
    (fun _ => try_except (read_text env path LATIN1)
                (fun _ => Ok [])).

Definition check_files_exist (env : Env) (root : Path) : list Finding :=
  fold_left
    (fun results rel =>
       let p := joinpath root rel in
       let ok := path_exists env p in
       results ++ [ (lit "Exists: " ++ rel,
                     if ok then PASS else FAIL,
                     if ok then [] else lit "Missing " ++ rel) ])
    REQUIRED_FILES [].

Definition check_gitignore (env : Env) (root : Path) : exc (list Finding) :=
  let p := joinpath root (lit ".gitignore") in
  if negb (path_exists env p)
  then Ok [ (lit "gitignore present & includes rules", FAIL,
             lit ".gitignore not found") ]
  else
    text <- load_text env p ;;
    let missing :=
      filter (fun pat => negb (re_search char_eqb (pat_re pat) text))
             GITIGNORE_REQUIRED_PATTERNS in
    match missing with
    | _ :: _ =>
        Ok [ (lit "gitignore includes today-only rules", WARN,
              lit "Add patterns: " ++ join (lit ", ") (map pat_src missing)) ]
    | [] => Ok [ (lit "gitignore includes today-only rules", PASS, []) ]
    end.

Section WithCaseTables.

Context {tables : CaseTables}.

(** The set [found] of [check_requirements]. *)
Definition declared_names (text : str) : list str :=
  set_of
    (map (fun line => lower (split_head (lit "==") (strip line)))
         (filter (fun line =>
                    negb (str_eqb (strip line) [])
                    && negb (startswith (lit "#") (strip line)))
                 (splitlines text))).

Definition check_requirements (env : Env) (root : Path) : exc (list Finding) :=
  let p := joinpath root (lit "requirements.txt") in
  if negb (path_exists env p)
  then Ok [ (lit "requirements.txt present", FAIL,
             lit "requirements.txt not found") ]
  else
    text <- load_text env p ;;
    let found := declared_names text in
    let missing :=
      set_of (map lower
                (filter (fun pkg => negb (str_mem (lower pkg) found))
                        REQUIREMENTS_MIN)) in
    match missing with
    | _ :: _ =>
        Ok [ (lit "requirements includes minimal deps", WARN,
              lit "Missing: " ++ join (lit ", ") (sorted missing)) ]
    | [] => Ok [ (lit "requirements includes minimal deps", PASS, []) ]
    end.

End WithCaseTables.

(** ** Document accessor *)

Definition load_notebook (env : Env) (path : Path) : exc (option Notebook * str) :=
  match nbformat env with
  | None => Ok (None, lit "nbformat not installed (pip install nbformat)")
  | Some read =>
      try_except (nb <- read path ;; Ok (Some nb, []))
                 (fun e => Ok (None, e))
  end.

Definition nb_all_cells (nb : Notebook) : list Cell := cells nb.

Definition nb_markdown_cells (nb : Notebook) : list Cell :=
  filter (fun cell => str_eqb (cell_type cell) (lit "markdown")) (cells nb).

Definition nb_code_cells (nb : Notebook) : list Cell :=
  filter (fun cell => str_eqb (cell_type cell) (lit "code")) (cells nb).

(** The loop of [has_outputs], which returns at the first code cell that
    has an output. *)
Fixpoint has_outputs_in (cs : list Cell) : bool :=
  match cs with
  | [] => false
  | cell :: cs' =>
      let outs := or_nil (outputs cell) in
      if 0 <? List.length outs then true else has_outputs_in cs'
  end.

Definition has_outputs (nb : Notebook) : bool :=
  has_outputs_in (nb_code_cells nb).

Definition is_image_output (out : Output) : bool :=
  let d := or_nil (data out) in
  key_in (lit "image/png") d || key_in (lit "image/jpeg") d
  || key_in (lit "image/svg+xml") d.

Definition count_image_outputs (nb : Notebook) : nat :=
  fold_left
    (fun cnt cell =>
       fold_left (fun cnt out => if is_image_output out then cnt + 1 else cnt)
                 (or_nil (outputs cell)) cnt)
    (nb_code_cells nb) 0.

(** [found.add(x)] *)
Definition set_add (x : str) (s : list str) : list str :=
  if str_mem x s then s else s ++ [x].

(** [repr] of a string of printable ASCII characters, and of a list of
    them; it is applied to the patterns of the catalog only. *)
Definition SQ : char := 39%N.
Definition DQ : char := 34%N.
Definition BSL : char := 92%N.

Definition repr_str (s : str) : str :=
  let q := if str_in [SQ] s && negb (str_in [DQ] s) then DQ else SQ in
  [q] ++ flat_map (fun c => if char_eqb c BSL then [BSL; BSL]
                            else if char_eqb c q then [BSL; q]
                            else [c]) s ++ [q].

Definition repr_list (xs : list str) : str :=
  lit "[" ++ join (lit ", ") (map repr_str xs) ++ lit "]".

Definition seq (rs : list regex) : regex := fold_right Cat Eps rs.

Definition word (s : string) : regex := lits (lit s).

Section Documents.

Context {tables : CaseTables}.

Definition find_strings_in_nb (nb : Notebook) (patterns : list Pattern)
    (search_in : list str) : list str :=
  fold_left
    (fun found cell =>
       if negb (str_mem (cell_type cell) search_in) then found
       else
         let src := or_empty (source cell) in
         fold_left
           (fun found pat =>
              if re_search ci_eqb (pat_re pat) src
              then set_add (pat_src pat) found
              else found)
           patterns found)
    (nb_all_cells nb) [].

Definition not_found (patterns : list Pattern) (found : list str) : list str :=
  map pat_src (filter (fun m => negb (str_mem (pat_src m) found)) patterns).

Definition must_text : list Pattern :=
  [ {| pat_src := lit "Wine Classification";
       pat_re := word "Wine Classification" |};
    {| pat_src := lit "Problem Framing"; pat_re := word "Problem Framing" |};
    {| pat_src := lit "UCI.*Wine Quality|Wine Quality.*UCI";
       pat_re := Alt (seq [word "UCI"; Star Dot; word "Wine Quality"])
                     (seq [word "Wine Quality"; Star Dot; word "UCI"]) |};
    {| pat_src := lit "red\s*vs\.?\s*white|red.*white";
       pat_re := Alt (seq [word "red"; Star Space; word "vs"; Opt (word ".");
                           Star Space; word "white"])
                     (seq [word "red"; Star Dot; word "white"]) |};
    {| pat_src := lit "stakeholder|impact|ethic|sustainab";
       pat_re := Alt (word "stakeholder")
                     (Alt (word "impact")
                          (Alt (word "ethic") (word "sustainab"))) |} ].

Definition repro_hints : list Pattern :=
  [ {| pat_src := lit "__version__"; pat_re := word "__version__" |};
    {| pat_src := lit "random_state\s*=\s*42";
       pat_re := seq [word "random_state"; Star Space; word "=";
                      Star Space; word "42"] |} ].

Definition check_nb01 (env : Env) (root : Path) : exc (list Finding) :=
  let path := joinpath root (lit "notebooks/01_problem_framing.ipynb") in
  loaded <- load_notebook env path ;;
  match loaded with
  | (None, err) =>
      Ok [ (lit "Notebook 01 loads", FAIL, lit "Cannot open: " ++ err) ]
  | (Some nb, _) =>
      let results := [ (lit "Notebook 01 loads", PASS, []) ] in
      let found :=
        find_strings_in_nb nb must_text [lit "markdown"; lit "code"] in
      let missing := not_found must_text found in
      let results :=
        match missing with
        | _ :: _ =>
            results ++ [ (lit "NB01: Problem framing content present", WARN,
                          lit "Consider adding: " ++ repr_list missing) ]
        | [] =>
            results ++ [ (lit "NB01: Problem framing content present", PASS, []) ]
        end in
      let found2 := find_strings_in_nb nb repro_hints [lit "code"] in
      let results :=
        match found2 with
        | [] =>
            results ++ [ (lit "NB01: Repro cell (versions/seed)", WARN,
                          lit "Add a cell that prints pandas/sklearn versions and sets random_state=42 where relevant.") ]
        | _ :: _ =>
            results ++ [ (lit "NB01: Repro cell (versions/seed)", PASS, []) ]
        end in
      let results :=
        if has_outputs nb
        then results ++ [ (lit "NB01: Saved with outputs", PASS, []) ]
        else results ++ [ (lit "NB01: Saved with outputs", WARN,
                           lit "Execute and save so GitHub renders outputs.") ] in
      Ok results
  end.

End Documents.

Definition must_code : list Pattern :=
  [ {| pat_src := lit "read_csv"; pat_re := word "read_csv" |};
    {| pat_src := lit "sep\s*=\s*[" ++ [BSL; DQ] ++ lit "']\;[" ++ [BSL; DQ]
                  ++ lit "']";
       pat_re := seq [word "sep"; Star Space; word "="; Star Space;
                      OneOf [DQ; SQ]; word ";"; OneOf [DQ; SQ]] |};
    {| pat_src := lit "(?:\['type'\]|type)\s*=";
       pat_re := seq [Alt (word "['type']") (word "type"); Star Space;
                      word "="] |};
    {| pat_src := lit "concat\("; pat_re := word "concat(" |} ].

Definition class_vis_hints : list Pattern :=
  [ {| pat_src := lit "value_counts\("; pat_re := word "value_counts(" |};
    {| pat_src := lit "countplot"; pat_re := word "countplot" |};
    {| pat_src := lit "barh?\(";
       pat_re := seq [word "bar"; Opt (word "h"); word "("] |};
    {| pat_src := lit "plot\("; pat_re := word "plot(" |};
    {| pat_src := lit "hist\("; pat_re := word "hist(" |} ].

(** The pattern [\.fit\s*\(] of the training scan. *)
Definition fit_re : regex := seq [word ".fit"; Star Space; word "("].

Definition interp_words : list str :=
  [ lit "interpretation"; lit "insight"; lit "insights" ].

(** [any(w in text for w in [...])] *)
Definition has_interp_word (text : str) : bool :=
  existsb (fun w => str_in w text) interp_words.

(** The loop over [SKLEARN_CLASS_NAMES], which stops at the first name
    that occurs. *)
Fixpoint scan_class_names (names : list str) (code_text : str) (trained : bool) : bool :=
  match names with
  | [] => trained
  | name :: names' =>
      if str_in name code_text then true
      else scan_class_names names' code_text trained
  end.

(** The text scanned for training: the sources of the code cells, joined
    by line feeds. *)
Definition code_text_of (nb : Notebook) : str :=
  join [LF] (map (fun cell => or_empty (source cell)) (nb_code_cells nb)).

Definition trained_in (code_text : str) : bool :=
  let trained := false in
  let trained := if re_search char_eqb fit_re code_text then true else trained in
  scan_class_names SKLEARN_CLASS_NAMES code_text trained.

Section Document2.

Context {tables : CaseTables}.

(** The counter [interp_markdowns] after both loops. *)
Definition interp_markdowns_of (nb : Notebook) : nat :=
  let n :=
    fold_left
      (fun n cell =>
         let text := lower (or_empty (source cell)) in
         if has_interp_word text
         then if 20 <=? List.length (split_ws text) then n + 1 else n
         else n)
      (nb_markdown_cells nb) 0 in
  fold_left
    (fun n cell =>
       let src := lower (or_empty (source cell)) in
       if has_interp_word src then n + 1 else n)
    (nb_code_cells nb) n.

(** The body of [check_nb02] once the notebook is loaded. *)
Definition check_nb02_loaded (nb : Notebook) : list Finding :=
  let results := [ (lit "Notebook 02 loads", PASS, []) ] in
  let found_code := find_strings_in_nb nb must_code [lit "code"] in
  let missing := not_found must_code found_code in
  let results :=
    match missing with
    | _ :: _ =>
        results ++ [ (lit "NB02: Data load + label (0/1) + concat", WARN,
                      lit "Missing patterns: " ++ repr_list missing) ]
    | [] =>
        results ++ [ (lit "NB02: Data load + label (0/1) + concat", PASS, []) ]
    end in
  let found_vis := find_strings_in_nb nb class_vis_hints [lit "code"] in
  let img_count := count_image_outputs nb in
  let results :=
    if match found_vis with [] => true | _ => false end || (img_count <? 1)
    then results ++ [ (lit "NB02: Class balance figure + output", WARN,
                       lit "Add a bar/plot of class counts and ensure outputs are saved.") ]
    else results ++ [ (lit "NB02: Class balance figure + output", PASS,
                       lit "Detected " ++ str_of_nat img_count
                       ++ lit " image outputs.") ] in
  let results :=
    if 2 <=? img_count
    then results ++ [ (lit "NB02: >=2 feature visuals present", PASS,
                       lit "Detected " ++ str_of_nat img_count
                       ++ lit " image outputs.") ]
    else results ++ [ (lit "NB02: >=2 feature visuals present", WARN,
                       lit "Add at least two feature plots (e.g., boxplots/hist by class).") ] in
  let interp_markdowns := interp_markdowns_of nb in
  let results :=
    if 2 <=? interp_markdowns
    then results ++ [ (lit "NB02: Figure interpretations present", PASS,
                       str_of_nat interp_markdowns
                       ++ lit " interpretation notes found.") ]
    else results ++ [ (lit "NB02: Figure interpretations present", WARN,
                       lit "Add 2" ++ [8211%N]
                       ++ lit "3 line interpretations under figures (use the word 'Interpretation' to pass this check).") ] in
  let code_text := code_text_of nb in
  let trained := trained_in code_text in
  let results :=
    if trained
    then results ++ [ (lit "NB02: No model training appears", FAIL,
                       lit "Detected model training patterns ('.fit(' or classifier names). Move training to Notebook 03.") ]
    else results ++ [ (lit "NB02: No model training appears", PASS, []) ] in
  let results :=
    if has_outputs nb
    then results ++ [ (lit "NB02: Saved with outputs", PASS, []) ]
    else results ++ [ (lit "NB02: Saved with outputs", FAIL,
                       lit "Run all cells and save notebook with outputs so GitHub renders figures.") ] in
  results.

Definition check_nb02 (env : Env) (root : Path) : exc (list Finding) :=
  let path := joinpath root (lit "notebooks/02_data_understanding.ipynb") in
  loaded <- load_notebook env path ;;
  match loaded with
  | (None, err) =>
      Ok [ (lit "Notebook 02 loads", FAIL, lit "Cannot open: " ++ err) ]
  | (Some nb, _) => Ok (check_nb02_loaded nb)
  end.

End Document2.

(** ** Tabular shapes *)

(** [repr] of a shape, a pair of integers. *)
Definition repr_shape (sh : N * N) : str :=
  lit "(" ++ str_of_N (fst sh) ++ lit ", " ++ str_of_N (snd sh) ++ lit ")".

Definition check_data_shapes (env : Env) (root : Path) : exc (list Finding) :=
  match pd env with
  | None =>
      Ok [ (lit "Data shapes (red/white)", WARN,
            lit "pandas not available; cannot verify shapes") ]
  | Some read_csv =>
      let results := [] in
      let red_p := joinpath root (lit "data/winequality-red.csv") in
      let white_p := joinpath root (lit "data/winequality-white.csv") in
      try_except
        (red <- read_csv red_p (lit ";") ;;
         white <- read_csv white_p (lit ";") ;;
         let ok_red :=
           ((1500 <=? fst red) && (fst red <=? 1700)
            && ((11 <=? snd red) && (snd red <=? 13)))%N in
         let ok_white :=
           ((4700 <=? fst white) && (fst white <=? 5100)
            && ((11 <=? snd white) && (snd white <=? 13)))%N in
         let status := if ok_red && ok_white then PASS else WARN in
         let msg := lit "red=" ++ repr_shape red ++ lit ", white="
                    ++ repr_shape white in
         Ok (results ++ [ (lit "Data shapes (approx UCI)", status, msg) ]))
        (fun e =>
           Ok (results ++ [ (lit "Data shapes (approx UCI)", FAIL,
                             lit "Error reading CSVs: " ++ e) ]))
  end.

(** ** Aggregation and the entry point *)

(** One turn of the loop of [summarize]: the counters and the line of
    one finding. *)
Definition summarize_step (max_label max_status : nat)
    (acc : list str * nat * nat) (r : Finding) : list str * nat * nat :=
  let '(lines, failures, warnings) := acc in
  let '(label, status, detail) := r in
  let '(failures, warnings) :=
    if status_eqb status FAIL then (failures + 1, warnings)
    else if status_eqb status WARN then (failures, warnings + 1)
    else (failures, warnings) in
  (lines ++ [ ljust label max_label ++ lit "  "
              ++ ljust (status_text status) max_status ++ lit "  "
              ++ detail ],
   failures, warnings).

Definition summarize (env : Env) (results : list Finding) : exc (str * nat) :=
  max_label <- py_max (map (fun r => List.length (f_label r)) results) ;;
  max_status <-
    py_max (map (fun r => List.length (status_text (f_status r))) results) ;;
  let '(lines, failures, warnings) :=
    fold_left (summarize_step max_label max_status) results ([], 0, 0) in
  let header := lit "QA Report " ++ [8212%N] ++ lit " " ++ now env in
  let sep := repeat 45%N (List.length header) in
  let body := join [LF] lines in
  let footer := [LF] ++ lit "Summary: " ++ str_of_nat failures ++ lit " FAIL, "
                ++ str_of_nat warnings ++ lit " WARN" ++ [LF] in
  Ok (header ++ [LF] ++ sep ++ [LF] ++ body ++ footer, failures).

Section Main.

Context {tables : CaseTables}.

(** The findings of the six evaluators, in the order [main] runs them. *)
Definition all_findings (env : Env) (root : Path) : exc (list Finding) :=
  let results := [] in
  let results := results ++ check_files_exist env root in
  r <- check_gitignore env root ;;
  let results := results ++ r in
  r <- check_requirements env root ;;
  let results := results ++ r in
  r <- check_nb01 env root ;;
  let results := results ++ r in
  r <- check_nb02 env root ;;
  let results := results ++ r in
  r <- check_data_shapes env root ;;
  let results := results ++ r in
  Ok results.

(** [main]: what is printed and the exit status. *)
Definition main (env : Env) (root : Path) : exc (str * nat) :=
  results <- all_findings env root ;;
  summary <- summarize env results ;;
  let '(report, failures) := summary in
  Ok (report, if 0 <? failures then 1 else 0).

End Main.

(** * Vocabulary of the properties *)

(** ** Occurrences *)

(** [w] occurs in [s]. *)
Definition occurs (w s : str) : Prop := exists a b, s = a ++ w ++ b.

(** What the training scan looks for in the code text. *)
Definition fit_marker_in (t : str) : Prop :=
  exists ws, forallb is_space ws = true /\ occurs (lit ".fit" ++ ws ++ lit "(") t.

Definition class_name_in (t : str) : Prop :=
  exists name, In name SKLEARN_CLASS_NAMES /\ occurs name t.

(** ** Findings *)

(** The severity of a finding, and how many findings have a severity. *)
Definition is_fail (r : Finding) : bool := status_eqb (f_status r) FAIL.
Definition is_warn (r : Finding) : bool := status_eqb (f_status r) WARN.

Definition count_status (st : Status) (rs : list Finding) : nat :=
  List.length (filter (fun r => status_eqb (f_status r) st) rs).

(** The finding for one required path. *)
Definition artifact_finding (env : Env) (root : Path) (rel : str) : Finding :=
  if path_exists env (joinpath root rel)
  then (lit "Exists: " ++ rel, PASS, [])
  else (lit "Exists: " ++ rel, FAIL, lit "Missing " ++ rel).

(** The seven findings of document 2, each as a function of what its
    test reads. *)
Definition nb02_loads : Finding := (lit "Notebook 02 loads", PASS, []).

Definition nb02_markers (missing : list str) : Finding :=
  match missing with
  | _ :: _ => (lit "NB02: Data load + label (0/1) + concat", WARN,
               lit "Missing patterns: " ++ repr_list missing)
  | [] => (lit "NB02: Data load + label (0/1) + concat", PASS, [])
  end.

Definition nb02_class_balance (found_vis : list str) (img_count : nat) : Finding :=
  if match found_vis with [] => true | _ => false end || (img_count <? 1)
  then (lit "NB02: Class balance figure + output", WARN,
        lit "Add a bar/plot of class counts and ensure outputs are saved.")
  else (lit "NB02: Class balance figure + output", PASS,
        lit "Detected " ++ str_of_nat img_count ++ lit " image outputs.").

Definition nb02_richness (img_count : nat) : Finding :=
  if 2 <=? img_count
  then (lit "NB02: >=2 feature visuals present", PASS,
        lit "Detected " ++ str_of_nat img_count ++ lit " image outputs.")
  else (lit "NB02: >=2 feature visuals present", WARN,
        lit "Add at least two feature plots (e.g., boxplots/hist by class).").

Definition nb02_interpretations (n : nat) : Finding :=
  if 2 <=? n
  then (lit "NB02: Figure interpretations present", PASS,
        str_of_nat n ++ lit " interpretation notes found.")
  else (lit "NB02: Figure interpretations present", WARN,
        lit "Add 2" ++ [8211%N]
        ++ lit "3 line interpretations under figures (use the word 'Interpretation' to pass this check).").

Definition nb02_no_training (trained : bool) : Finding :=
  if trained
  then (lit "NB02: No model training appears", FAIL,
        lit "Detected model training patterns ('.fit(' or classifier names). Move training to Notebook 03.")
  else (lit "NB02: No model training appears", PASS, []).

Definition nb02_saved (saved : bool) : Finding :=
  if saved
  then (lit "NB02: Saved with outputs", PASS, [])
  else (lit "NB02: Saved with outputs", FAIL,
        lit "Run all cells and save notebook with outputs so GitHub renders figures.").

(** ** Outputs and notes of a notebook *)

(** The media types that make an output an image. *)
Definition image_types : list str :=
  [ lit "image/png"; lit "image/jpeg"; lit "image/svg+xml" ].

(** The output records of the code cells, in document order. *)
Definition code_outputs (nb : Notebook) : list Output :=
  flat_map (fun cell => or_nil (outputs cell)) (nb_code_cells nb).

Section Notes.

Context {tables : CaseTables}.

(** A markdown cell that counts as an interpretation note: a keyword
    occurs in its lower-cased source, which has at least 20 words. *)
Definition markdown_note (cell : Cell) : bool :=
  has_interp_word (lower (or_empty (source cell)))
  && (20 <=? List.length (split_ws (lower (or_empty (source cell))))).

(** A code cell that counts: a keyword occurs in its lower-cased source. *)
Definition code_note (cell : Cell) : bool :=
  has_interp_word (lower (or_empty (source cell))).

End Notes.

(** ** Text files *)

(** The text [load_text] hands to its caller. *)
Definition loaded_text (env : Env) (p : Path) : str :=
  match read_text env p UTF8 with
  | Ok s => s
  | Raise _ =>
      match read_text env p LATIN1 with
      | Ok s => s
      | Raise _ => []
      end
  end.

(** The literal text of a pattern. *)
Fixpoint literal_of (r : regex) : str :=
  match r with
  | Lit p => [p]
  | Cat r1 r2 => literal_of r1 ++ literal_of r2
  | _ => []
  end.

(** [re.search(pat, text, re.MULTILINE) is None] *)
Definition unmatched (text : str) (pat : Pattern) : bool :=
  negb (re_search char_eqb (pat_re pat) text).

(** No string occurs twice in [l]. *)
Fixpoint str_nodupb (l : list str) : bool :=
  match l with
  | [] => true
  | x :: l' => negb (str_mem x l') && str_nodupb l'
  end.

(** The minimal dependencies in the order [sorted] gives them. *)
Definition REQUIREMENTS_SORTED : list str :=
  [ lit "matplotlib"; lit "numpy"; lit "pandas"; lit "scikit-learn";
    lit "seaborn" ].

Definition EQ : char := 61%N.
Definition HASH : char := 35%N.

(** A line lists [dep] when, stripped, it is [dep] in some letter case,
    alone or followed by "==" and a version. *)
Definition lists_dependency (text dep : str) : Prop :=
  exists line name rest,
    In line (splitlines text)
    /\ strip line = name ++ rest
    /\ map ascii_lower name = dep
    /\ (rest = [] \/ exists version, rest = lit "==" ++ version).

(** A name that can be told from a comment and from a pin: ASCII, without
    "=", and not starting with "#". *)
Definition plain_dep (dep : str) : bool :=
  forallb is_ascii dep && negb (existsb (char_eqb EQ) dep)
  && match dep with
     | c :: _ => negb (char_eqb c HASH)
     | [] => false
     end.

(** ** Shapes and the report *)

(** The tolerance bands of the two tables, rows first. *)
Definition in_red_band (sh : N * N) : Prop :=
  (1500 <= fst sh /\ fst sh <= 1700 /\ 11 <= snd sh /\ snd sh <= 13)%N.

Definition in_white_band (sh : N * N) : Prop :=
  (4700 <= fst sh /\ fst sh <= 5100 /\ 11 <= snd sh /\ snd sh <= 13)%N.

(** The line of one finding in a table whose columns are [wl] and [ws]
    wide. *)
Definition report_line (wl ws : nat) (r : Finding) : str :=
  ljust (f_label r) wl ++ lit "  " ++ ljust (status_text (f_status r)) ws
  ++ lit "  " ++ f_detail r.

(** The first line of the report. *)
Definition report_header (env : Env) : str :=
  lit "QA Report " ++ [8212%N] ++ lit " " ++ now env.

(** ** Sample inputs *)

Definition code_cell (src : str) (outs : list Output) : Cell :=
  {| cell_type := lit "code"; source := Some src; outputs := Some outs |}.

Definition markdown_cell (src : str) : Cell :=
  {| cell_type := lit "markdown"; source := Some src; outputs := None |}.

Definition png_output : Output :=
  {| data := Some [ (lit "image/png", lit "iVBORw0KGgo=");
                    (lit "text/plain", lit "<Figure size 640x480>") ] |}.

Definition svg_output : Output :=
  {| data := Some [ (lit "image/svg+xml", lit "<svg/>") ] |}.

Definition text_output : Output :=
  {| data := Some [ (lit "text/plain", lit "(6497, 13)") ] |}.

Definition stream_output : Output := {| data := None |}.

(** An environment in which every path exists, text files hold [text],
    both notebooks are [nb] and both tables have the given shapes. *)
Definition sample_env (text : str) (nb : Notebook) (red white : N * N) : Env :=
  {| path_exists := fun _ => true;
     read_text := fun _ _ => Ok text;
     nbformat := Some (fun _ => Ok nb);
     pd := Some (fun p _ =>
                   if str_in (lit "red") p then Ok red else Ok white);
     now := lit "2025-01-15 09:30:00" |}.

(** An environment in which every path exists and no text can be read. *)
Definition unreadable_env : Env :=
  {| path_exists := fun _ => true;
     read_text := fun _ _ => Raise (lit "[Errno 21] Is a directory");
     nbformat := None;
     pd := None;
     now := lit "2025-01-15 09:30:00" |}.

(** The environment of [sample_env] after the white-wine table has been
    deleted. *)
Definition env_without_white (text : str) (nb : Notebook) : Env :=
  {| path_exists := fun p => negb (str_in (lit "winequality-white") p);
     read_text := fun _ _ => Ok text;
     nbformat := Some (fun _ => Ok nb);
     pd := Some (fun p _ =>
                   if str_in (lit "winequality-white") p
                   then Raise (lit "[Errno 2] No such file or directory")
                   else Ok (1599, 12)%N);
     now := lit "2025-01-15 09:30:00" |}.

Definition gitignore_full : str :=
  join [LF] [ lit ".ipynb_checkpoints/"; lit "venv/"; lit "__pycache__/";
              lit "results/"; lit "notebooks/03_*"; lit "notebooks/04_*";
              lit "notebooks/05_*" ].

Definition gitignore_without_results : str :=
  join [LF] [ lit ".ipynb_checkpoints/"; lit "venv/"; lit "__pycache__/";
              lit "notebooks/03_*"; lit "notebooks/04_*";
              lit "notebooks/05_*" ].

(** All five dependencies, in mixed letter case, some pinned; a comment
    and a blank line. *)
Definition manifest_full : str :=
  join [LF] [ lit "# minimal stack"; lit "Pandas==2.1.0"; lit "NUMPY";
              []; lit "  scikit-learn==1.3.2  "; lit "matplotlib";
              lit "Seaborn==0.13" ].

(** All five dependencies, with a lower bound on one and a blank before
    the pin of another. *)
Definition manifest_other_pins : str :=
  join [LF] [ lit "pandas>=2.0"; lit "numpy ==1.26"; lit "scikit-learn==1.3.2";
              lit "matplotlib"; lit "seaborn" ].

(** The same without numpy and seaborn, and with an unrelated package. *)
Definition manifest_partial : str :=
  join [LF] [ lit "pandas==2.1.0"; lit "scikit-learn"; lit "Matplotlib";
              lit "jupyter" ].

(** A code cell that calls [fit] with a blank before the parenthesis. *)
Definition nb_fit_spaced : Notebook :=
  {| cells := [ code_cell (lit "model.fit (X, y)") [text_output] ] |}.

Definition nb_two_images : Notebook :=
  {| cells :=
       [ markdown_cell (lit "# Data understanding");
         code_cell (lit "df['type'].value_counts().plot(kind='bar')")
                   [text_output; png_output];
         code_cell (lit "print('Insight: whites dominate')") [stream_output];
         code_cell (lit "sns.boxplot(data=df)") [svg_output];
         markdown_cell (lit "Interpretation: short") ] |}.

(** One long markdown note, one short one that does not count, and one
    note printed by a code cell. *)
Definition nb_notes : Notebook :=
  {| cells :=
       [ markdown_cell (lit "Interpretation: the red wines show a higher volatile acidity than the white wines, while the white wines carry more residual sugar and far more total sulfur dioxide.");
         markdown_cell (lit "Insight: too short to count");
         code_cell (lit "print('INSIGHT: classes are imbalanced')") [stream_output] ] |}.

Definition nb_one_image : Notebook :=
  {| cells := [ code_cell (lit "df.hist()") [png_output; text_output] ] |}.

(** An image attached to a cell that is not a code cell. *)
Definition nb_image_on_markdown : Notebook :=
  {| cells := [ {| cell_type := lit "markdown";
                   source := Some (lit "![plot](plot.png)");
                   outputs := Some [png_output] |} ] |}.

Definition nb_no_image : Notebook :=
  {| cells := [ markdown_cell (lit "image/png");
                code_cell (lit "df.head()") [text_output] ] |}.

Definition sample_findings : list Finding :=
  [ (lit "Exists: README.md", PASS, []);
    (lit "gitignore includes today-only rules", WARN,
     lit "Add patterns: results/");
    (lit "Notebook 02 loads", FAIL, lit "Cannot open: bad JSON") ].

(** ** Further vocabulary: cells, patterns and the run as a whole *)

Section PatternSearch.

Context {tables : CaseTables}.

(** [pat] is searched in [cell] and found: the cell has one of the types
    [search_in] and [re.search(pat, src, re.IGNORECASE)] succeeds. *)
Definition cell_matches (search_in : list str) (pat : Pattern) (cell : Cell) : bool :=
  str_mem (cell_type cell) search_in
  && re_search ci_eqb (pat_re pat) (or_empty (source cell)).

(** Some cell of the notebook matches. *)
Definition found_in_nb (nb : Notebook) (search_in : list str) (pat : Pattern) : bool :=
  existsb (cell_matches search_in pat) (cells nb).

End PatternSearch.

(** The findings of document 1 once it is loaded, each as a function of
    what its test reads. *)
Definition nb01_loads : Finding := (lit "Notebook 01 loads", PASS, []).

Definition nb01_framing (missing : list str) : Finding :=
  match missing with
  | _ :: _ => (lit "NB01: Problem framing content present", WARN,
               lit "Consider adding: " ++ repr_list missing)
  | [] => (lit "NB01: Problem framing content present", PASS, [])
  end.

Definition nb01_repro (found2 : list str) : Finding :=
  match found2 with
  | [] => (lit "NB01: Repro cell (versions/seed)", WARN,
           lit "Add a cell that prints pandas/sklearn versions and sets random_state=42 where relevant.")
  | _ :: _ => (lit "NB01: Repro cell (versions/seed)", PASS, [])
  end.

Definition nb01_saved (saved : bool) : Finding :=
  if saved
  then (lit "NB01: Saved with outputs", PASS, [])
  else (lit "NB01: Saved with outputs", WARN,
        lit "Execute and save so GitHub renders outputs.").

(** The patterns of a list that no searched cell matches, by their source
    text and in the order of the list. *)
Definition unmatched_in {tables : CaseTables} (nb : Notebook)
    (search_in : list str) (pats : list Pattern) : list str :=
  map pat_src (filter (fun pat => negb (found_in_nb nb search_in pat)) pats).

(** A notebook with the four code markers of document 2, a class-count
    plot and its image. *)
Definition nb_markers : Notebook :=
  {| cells :=
       [ markdown_cell (lit "Wine Classification: Problem Framing");
         code_cell (lit "red = pd.READ_CSV('red.csv', sep = ';')") [];
         code_cell (lit "red['type'] = 0; df = pd.concat([red, white])") [];
         code_cell (lit "df['type'].value_counts().plot(kind='bar')")
                   [png_output] ] |}.

(** The notebook [load_notebook] delivers for a path, if any. *)
Definition notebook_at (env : Env) (path : Path) : option Notebook :=
  match nbformat env with
  | Some read =>
      match read path with
      | Ok nb => Some nb
      | Raise _ => None
      end
  | None => None
  end.

(** The tabular reader is missing, or it reads both tables. *)
Definition tables_readable (env : Env) (root : Path) : bool :=
  match pd env with
  | None => true
  | Some read_csv =>
      match read_csv (joinpath root (lit "data/winequality-red.csv")) (lit ";") with
      | Ok _ =>
          match read_csv (joinpath root (lit "data/winequality-white.csv")) (lit ";") with
          | Ok _ => true
          | Raise _ => false
          end
      | Raise _ => false
      end
  end.

(** Nothing that fails the run: every required path exists, both documents
    load, document 2 has no training code and has outputs, and the tables
    can be read. *)
Definition run_is_clean (env : Env) (root : Path) : bool :=
  forallb (fun rel => path_exists env (joinpath root rel)) REQUIRED_FILES
  && match notebook_at env (joinpath root (lit "notebooks/01_problem_framing.ipynb")) with
     | Some _ => true
     | None => false
     end
  && match notebook_at env (joinpath root (lit "notebooks/02_data_understanding.ipynb")) with
     | Some nb => negb (trained_in (code_text_of nb)) && has_outputs nb
     | None => false
     end
  && tables_readable env root.

(** An ignore file that holds [text], every path existing. *)
Definition env_with_text (text : str) : Env :=
  sample_env text nb_markers (1599, 12)%N (4898, 12)%N.

(** Only comments and blank lines. *)
Definition manifest_comments : str :=
  join [LF] [ lit "# pandas"; lit "   "; lit "  # numpy==1.26"; [] ].

(** A notebook of prose only. *)
Definition nb_prose : Notebook :=
  {| cells := [ markdown_cell (lit "model.fit(X, y) with a RandomForestClassifier");
                markdown_cell (lit "Insight: none yet") ] |}.

(** The notebook with cells added before and after its own. *)
Definition with_cells (pre post : list Cell) (nb : Notebook) : Notebook :=
  {| cells := pre ++ cells nb ++ post |}.

(** * Properties *)

(** ** Strings *)

Lemma char_eqb_eq (a b : char) : char_eqb a b = true <-> a = b.
Proof. apply N.eqb_eq. Qed.

Lemma char_eqb_refl (a : char) : char_eqb a a = true.
Proof. apply N.eqb_refl. Qed.

Lemma str_eqb_eq (a b : str) : str_eqb a b = true <-> a = b.
Proof.
  revert b; induction a as [|x a IH]; intros [|y b]; simpl;
    try (split; [discriminate | discriminate]); try tauto.
  rewrite andb_true_iff, char_eqb_eq, IH.
  split; [intros [-> ->]; reflexivity | intros H; inversion H; auto].
Qed.

Lemma str_eqb_refl (a : str) : str_eqb a a = true.
Proof. apply str_eqb_eq; reflexivity. Qed.

Lemma str_eqb_neq (a b : str) : str_eqb a b = false <-> a <> b.
Proof.
  rewrite <- str_eqb_eq. destruct (str_eqb a b); split; congruence.
Qed.

Lemma str_mem_In (x : str) (xs : list str) : str_mem x xs = true <-> In x xs.
Proof.
  unfold str_mem. rewrite existsb_exists. split.
  - intros [y [Hy E]]. apply str_eqb_eq in E. subst; assumption.
  - intros H. exists x. split; [assumption | apply str_eqb_refl].
Qed.

Lemma startswith_prefix (p s : str) :
  startswith p s = true <-> exists t, s = p ++ t.
Proof.
  revert s; induction p as [|x p IH]; intros s; simpl.
  - split; [intros _; exists s; reflexivity | reflexivity].
  - destruct s as [|y s].
    + split; [discriminate | intros [t H]; discriminate].
    + rewrite andb_true_iff, char_eqb_eq, IH. split.
      * intros [-> [t ->]]. exists t; reflexivity.
      * intros [t H]. inversion H. split; [reflexivity | exists t; reflexivity].
Qed.

Lemma str_in_occurs (w s : str) : str_in w s = true <-> occurs w s.
Proof.
  unfold occurs. induction s as [|c s IH]; simpl.
  - rewrite orb_false_r, startswith_prefix. split.
    + intros [t H]. exists [], t. assumption.
    + intros [a [b H]]. destruct a; simpl in H.
      * exists b; assumption.
      * discriminate.
  - rewrite orb_true_iff, startswith_prefix, IH. split.
    + intros [[t H] | [a [b H]]].
      * exists [], t. assumption.
      * exists (c :: a), b. simpl. rewrite H. reflexivity.
    + intros [a [b H]]. destruct a as [|d a]; simpl in H.
      * left. exists b; assumption.
      * right. inversion H. exists a, b. reflexivity.
Qed.

(** ** The regular expression engine decides the language *)

Section EngineFacts.

Variable eqc : char -> char -> bool.

Local Abbreviation M := (Matches eqc).

Lemma matches_void (s : str) : ~ M Void s.
Proof. intros H; inversion H. Qed.

Lemma matches_eps (s : str) : M Eps s <-> s = [].
Proof. split; [intros H; inversion H; reflexivity | intros ->; constructor]. Qed.

Lemma matches_cat (r1 r2 : regex) (s : str) :
  M (Cat r1 r2) s <-> exists s1 s2, s = s1 ++ s2 /\ M r1 s1 /\ M r2 s2.
Proof.
  split.
  - intros H; inversion H; subst. eauto.
  - intros [s1 [s2 [-> [H1 H2]]]]. constructor; assumption.
Qed.

Lemma matches_alt (r1 r2 : regex) (s : str) :
  M (Alt r1 r2) s <-> M r1 s \/ M r2 s.
Proof.
  split.
  - intros H; inversion H; subst; auto.
  - intros [H | H]; [apply MAltL | apply MAltR]; assumption.
Qed.

Lemma matches_star_cons (r : regex) (c : char) (s : str) :
  M (Star r) (c :: s) ->
  exists s1 s2, s = s1 ++ s2 /\ M r (c :: s1) /\ M (Star r) s2.
Proof.
  intros H. remember (Star r) as r0 eqn:Er. remember (c :: s) as t eqn:Et.
  revert c s Et.
  induction H as [| | | | | | | | |r' s1 s2 H1 _ H2 IH2]; try discriminate.
  - intros c s Et. inversion Er; subst r'. destruct s1 as [|d s1].
    + simpl in Et. apply (IH2 eq_refl c s Et).
    + simpl in Et. inversion Et; subst. exists s1, s2. auto.
Qed.

Lemma nullable_spec (r : regex) : nullable r = true <-> M r [].
Proof.
  induction r as [| | | | | |r1 IH1 r2 IH2|r1 IH1 r2 IH2|r IH]; simpl.
  - split; [discriminate | intros H; inversion H].
  - split; [constructor | reflexivity].
  - split; [discriminate | intros H; inversion H].
  - split; [discriminate | intros H; inversion H].
  - split; [discriminate | intros H; inversion H].
  - split; [discriminate | intros H; inversion H].
  - rewrite andb_true_iff, IH1, IH2, matches_cat. split.
    + intros [H1 H2]. exists [], []. auto.
    + intros [s1 [s2 [E [H1 H2]]]]. symmetry in E.
      apply app_eq_nil in E. destruct E; subst. auto.
  - rewrite orb_true_iff, IH1, IH2, matches_alt. tauto.
  - split; [constructor | reflexivity].
Qed.

Lemma deriv_spec (r : regex) (c : char) (s : str) :
  M (deriv eqc c r) s <-> M r (c :: s).
Proof.
  revert s.
  induction r as [| |p| | |ps|r1 IH1 r2 IH2|r1 IH1 r2 IH2|r IH]; intros s; simpl.
  - split; intros H; inversion H.
  - split; intros H; inversion H.
  - destruct (eqc p c) eqn:E.
    + rewrite matches_eps. split.
      * intros ->. constructor; assumption.
      * intros H; inversion H; reflexivity.
    + split; intros H; inversion H; congruence.
  - destruct (char_eqb c LF) eqn:E.
    + split; intros H; inversion H; congruence.
    + rewrite matches_eps. split.
      * intros ->. constructor; assumption.
      * intros H; inversion H; reflexivity.
  - destruct (is_space c) eqn:E.
    + rewrite matches_eps. split.
      * intros ->. constructor; assumption.
      * intros H; inversion H; reflexivity.
    + split; intros H; inversion H; congruence.
  - destruct (existsb (fun p => eqc p c) ps) eqn:E.
    + rewrite matches_eps. split.
      * intros ->. constructor; assumption.
      * intros H; inversion H; reflexivity.
    + split; intros H; inversion H; congruence.
  - assert (Hcat : M (Cat (deriv eqc c r1) r2) s <->
                   exists s1 s2, s = s1 ++ s2 /\ M r1 (c :: s1) /\ M r2 s2).
    { rewrite matches_cat. split; intros [s1 [s2 [E [H1 H2]]]];
        exists s1, s2; (split; [assumption | split; [apply IH1 | ]; assumption]). }
    rewrite (matches_cat r1 r2 (c :: s)).
    destruct (nullable r1) eqn:N.
    + rewrite matches_alt, Hcat, IH2. split.
      * intros [[s1 [s2 [E [H1 H2]]]] | H].
        -- exists (c :: s1), s2. subst; auto.
        -- exists [], (c :: s). split; [reflexivity | split; [|assumption]].
           apply nullable_spec; assumption.
      * intros [s1 [s2 [E [H1 H2]]]]. destruct s1 as [|d s1]; simpl in E.
        -- right. subst s2. assumption.
        -- left. inversion E; subst. exists s1, s2. auto.
    + rewrite Hcat. split.
      * intros [s1 [s2 [E [H1 H2]]]]. exists (c :: s1), s2. subst; auto.
      * intros [s1 [s2 [E [H1 H2]]]]. destruct s1 as [|d s1]; simpl in E.
        -- apply nullable_spec in H1. congruence.
        -- inversion E; subst. exists s1, s2. auto.
  - rewrite !matches_alt, IH1, IH2. tauto.
  - rewrite matches_cat. split.
    + intros [s1 [s2 [E [H1 H2]]]]. subst s.
      apply (MStarApp eqc r (c :: s1) s2); [apply IH|]; assumption.
    + intros H. apply matches_star_cons in H.
      destruct H as [s1 [s2 [E [H1 H2]]]].
      exists s1, s2. split; [assumption | split; [apply IH|]; assumption].
Qed.

Lemma fullmatch_spec (r : regex) (s : str) : fullmatch eqc r s = true <-> M r s.
Proof.
  revert r; induction s as [|c s IH]; intros r; simpl.
  - apply nullable_spec.
  - rewrite IH. apply deriv_spec.
Qed.

(** [re.match] succeeds exactly when a prefix of the text is in the
    language. *)
Lemma re_match_spec (r : regex) (s : str) :
  re_match eqc r s = true <-> exists m b, s = m ++ b /\ M r m.
Proof.
  revert r; induction s as [|c s IH]; intros r; simpl.
  - rewrite orb_false_r, nullable_spec. split.
    + intros H. exists [], []. auto.
    + intros [m [b [E H]]]. symmetry in E. apply app_eq_nil in E.
      destruct E; subst; assumption.
  - rewrite orb_true_iff, nullable_spec, IH. split.
    + intros [H | [m [b [E H]]]].
      * exists [], (c :: s). auto.
      * exists (c :: m), b. split; [subst; reflexivity | apply deriv_spec; assumption].
    + intros [m [b [E H]]]. destruct m as [|d m]; simpl in E.
      * left; assumption.
      * right. inversion E; subst. exists m, b.
        split; [reflexivity | apply deriv_spec; assumption].
Qed.

(** [re.search] succeeds exactly when some contiguous part of the text
    is in the language. *)
Lemma re_search_spec (r : regex) (s : str) :
  re_search eqc r s = true <-> exists a m b, s = a ++ m ++ b /\ M r m.
Proof.
  induction s as [|c s IH]; cbn [re_search].
  - rewrite orb_false_r, re_match_spec. split.
    + intros [m [b [E H]]]. exists [], m, b. auto.
    + intros [a [m [b [E H]]]]. destruct a; [|discriminate].
      exists m, b. auto.
  - rewrite orb_true_iff, re_match_spec, IH. split.
    + intros [[m [b [E H]]] | [a [m [b [E H]]]]].
      * exists [], m, b. auto.
      * exists (c :: a), m, b. subst; auto.
    + intros [a [m [b [E H]]]]. destruct a as [|d a]; simpl in E.
      * left. exists m, b. auto.
      * right. inversion E; subst. exists a, m, b. auto.
Qed.

End EngineFacts.

(** ** The languages of the patterns that are matched without flags *)

Lemma matches_lit (p : char) (s : str) :
  Matches char_eqb (Lit p) s <-> s = [p].
Proof.
  split.
  - intros H; inversion H as [|p' c Hc| | | | | | | |]; subst.
    apply char_eqb_eq in Hc. subst; reflexivity.
  - intros ->. constructor. apply char_eqb_refl.
Qed.

Lemma matches_lits (w m : str) : Matches char_eqb (lits w) m <-> m = w.
Proof.
  revert m; induction w as [|c w IH]; intros m; simpl.
  - apply matches_eps.
  - rewrite matches_cat. split.
    + intros [s1 [s2 [-> [H1 H2]]]]. apply matches_lit in H1. apply IH in H2.
      subst; reflexivity.
    + intros ->. exists [c], w. split; [reflexivity|].
      split; [apply matches_lit | apply IH]; reflexivity.
Qed.

Lemma matches_star_space (m : str) :
  Matches char_eqb (Star Space) m <-> forallb is_space m = true.
Proof.
  split.
  - intros H. remember (Star Space) as r eqn:Er.
    induction H as [| | | | | | | | |r' s1 s2 H1 _ H2 IH2]; try discriminate.
    + reflexivity.
    + inversion Er; subst r'. inversion H1 as [| | |c Hc| | | | | |]; subst.
      simpl. rewrite Hc. simpl. apply IH2. reflexivity.
  - induction m as [|c m IH]; simpl; intros H.
    + constructor.
    + apply andb_true_iff in H. destruct H as [Hc Hm].
      apply (MStarApp char_eqb Space [c] m); [constructor; assumption | apply IH; assumption].
Qed.

(** A literal pattern is found exactly when its text occurs. *)
Lemma search_lits (w s : str) :
  re_search char_eqb (lits w) s = true <-> occurs w s.
Proof.
  rewrite re_search_spec. unfold occurs. split.
  - intros [a [m [b [E H]]]]. apply matches_lits in H. subst. eauto.
  - intros [a [b E]]. exists a, w, b. split; [assumption | apply matches_lits; reflexivity].
Qed.

(** A trailing [.*] adds nothing to a search. *)
Lemma search_lits_dotstar (w s : str) :
  re_search char_eqb (Cat (lits w) (Star Dot)) s = true <-> occurs w s.
Proof.
  rewrite re_search_spec. unfold occurs. split.
  - intros [a [m [b [E H]]]]. apply matches_cat in H.
    destruct H as [s1 [s2 [-> [H1 _]]]]. apply matches_lits in H1. subst s1.
    exists a, (s2 ++ b). rewrite E, <- !app_assoc. reflexivity.
  - intros [a [b E]]. exists a, w, b. split; [assumption|].
    apply matches_cat. exists w, []. rewrite app_nil_r.
    split; [reflexivity | split; [apply matches_lits; reflexivity | constructor]].
Qed.

(** The language of [\.fit\s*\(]. *)
Lemma matches_fit_re (m : str) :
  Matches char_eqb fit_re m <->
  exists ws, forallb is_space ws = true /\ m = lit ".fit" ++ ws ++ lit "(".
Proof.
  unfold fit_re, seq, word. cbn [fold_right].
  rewrite matches_cat. split.
  - intros [s1 [s2 [-> [H1 H2]]]]. apply matches_lits in H1. subst s1.
    apply matches_cat in H2. destruct H2 as [ws [s3 [-> [Hw H3]]]].
    apply matches_star_space in Hw.
    apply matches_cat in H3. destruct H3 as [s4 [s5 [-> [H4 H5]]]].
    apply matches_lits in H4. apply matches_eps in H5. subst.
    exists ws. rewrite app_nil_r. auto.
  - intros [ws [Hw ->]]. exists (lit ".fit"), (ws ++ lit "(").
    split; [reflexivity | split; [apply matches_lits; reflexivity|]].
    apply matches_cat. exists ws, (lit "(").
    split; [reflexivity | split; [apply matches_star_space; assumption|]].
    apply matches_cat. exists (lit "("), []. rewrite app_nil_r.
    split; [reflexivity | split; [apply matches_lits; reflexivity | constructor]].
Qed.

Lemma search_fit_re (s : str) :
  re_search char_eqb fit_re s = true <->
  exists ws, forallb is_space ws = true /\ occurs (lit ".fit" ++ ws ++ lit "(") s.
Proof.
  rewrite re_search_spec. unfold occurs. split.
  - intros [a [m [b [E H]]]]. apply matches_fit_re in H.
    destruct H as [ws [Hw ->]]. exists ws. split; [assumption | eauto].
  - intros [ws [Hw [a [b E]]]]. exists a, (lit ".fit" ++ ws ++ lit "("), b.
    split; [assumption | apply matches_fit_re; eauto].
Qed.

Lemma scan_class_names_spec (names : list str) (t : str) (b : bool) :
  scan_class_names names t b = b || existsb (fun n => str_in n t) names.
Proof.
  induction names as [|n names IH]; simpl.
  - rewrite orb_false_r. reflexivity.
  - destruct (str_in n t); simpl.
    + rewrite orb_true_r. reflexivity.
    + apply IH.
Qed.

Lemma trained_in_spec (t : str) :
  trained_in t = true <-> fit_marker_in t \/ class_name_in t.
Proof.
  unfold trained_in, fit_marker_in, class_name_in.
  rewrite scan_class_names_spec, orb_true_iff, <- search_fit_re, existsb_exists.
  split.
  - intros [H | [n [Hn Ho]]].
    + left. destruct (re_search char_eqb fit_re t); [reflexivity | discriminate].
    + right. exists n. split; [assumption | apply str_in_occurs; assumption].
  - intros [H | [n [Hn Ho]]].
    + left. rewrite H. reflexivity.
    + right. exists n. split; [assumption | apply str_in_occurs; assumption].
Qed.

(** ** The findings of document 2, one by one *)

Section Document2Facts.

Context {tables : CaseTables}.

(** [check_nb02] on a loaded notebook appends seven findings, each the
    outcome of its own test. *)
Lemma check_nb02_loaded_findings (nb : Notebook) :
  check_nb02_loaded nb =
  [ nb02_loads;
    nb02_markers (not_found must_code (find_strings_in_nb nb must_code [lit "code"]));
    nb02_class_balance (find_strings_in_nb nb class_vis_hints [lit "code"])
                       (count_image_outputs nb);
    nb02_richness (count_image_outputs nb);
    nb02_interpretations (interp_markdowns_of nb);
    nb02_no_training (trained_in (code_text_of nb));
    nb02_saved (has_outputs nb) ].
Proof.
  unfold check_nb02_loaded, nb02_loads, nb02_markers, nb02_class_balance,
    nb02_richness, nb02_interpretations, nb02_no_training, nb02_saved.
  generalize (not_found must_code (find_strings_in_nb nb must_code [lit "code"])).
  generalize (find_strings_in_nb nb class_vis_hints [lit "code"]).
  generalize (count_image_outputs nb).
  generalize (interp_markdowns_of nb).
  generalize (trained_in (code_text_of nb)).
  generalize (has_outputs nb).
  intros saved trained n img vis missing.
  destruct missing; destruct vis; destruct (img <? 1); destruct (2 <=? img);
    destruct (2 <=? n); destruct trained; destruct saved; reflexivity.
Qed.

Lemma check_nb02_when_loaded (env : Env) (root : Path)
    (read : Path -> exc Notebook) (nb : Notebook) :
  nbformat env = Some read ->
  read (joinpath root (lit "notebooks/02_data_understanding.ipynb")) = Ok nb ->
  check_nb02 env root = Ok (check_nb02_loaded nb).
Proof.
  intros Hn Hr. unfold check_nb02, load_notebook. rewrite Hn, Hr. reflexivity.
Qed.

End Document2Facts.

(** ** Lists built by loops *)

Lemma fold_left_append {A B : Type} (f : A -> B) (l : list A) (acc : list B) :
  fold_left (fun results x => results ++ [f x]) l acc = acc ++ map f l.
Proof.
  revert acc; induction l as [|x l IH]; intros acc; simpl.
  - rewrite app_nil_r. reflexivity.
  - rewrite IH, <- app_assoc. reflexivity.
Qed.

Lemma fold_left_count {A : Type} (p : A -> bool) (l : list A) (n : nat) :
  fold_left (fun cnt x => if p x then cnt + 1 else cnt) l n
  = n + List.length (filter p l).
Proof.
  revert n; induction l as [|x l IH]; intros n; simpl.
  - lia.
  - rewrite IH. destruct (p x); simpl; lia.
Qed.

Lemma fold_left_same {A B : Type} (f g : A -> B -> A) (l : list B) (a : A) :
  (forall x y, f x y = g x y) -> fold_left f l a = fold_left g l a.
Proof.
  intros H. revert a; induction l as [|y l IH]; intros a; simpl; [reflexivity|].
  rewrite H. apply IH.
Qed.

Lemma filter_map_none {A B : Type} (f : A -> B) (p : B -> bool) (l : list A) :
  (forall x, In x l -> p (f x) = false) -> filter p (map f l) = [].
Proof.
  induction l as [|y l IH]; intros H; simpl; [reflexivity|].
  rewrite (H y (or_introl eq_refl)). apply IH.
  intros x Hx. apply H. right; assumption.
Qed.

(** Filtering the image of a duplicate-free list for a property that one
    element alone has leaves the image of that element. *)
Lemma filter_map_only {A B : Type} (f : A -> B) (p : B -> bool)
    (l : list A) (x0 : A) :
  NoDup l -> In x0 l -> p (f x0) = true ->
  (forall x, In x l -> x <> x0 -> p (f x) = false) ->
  filter p (map f l) = [f x0].
Proof.
  intros Hnd Hin Hp. induction l as [|y l IH]; intros Hothers; [destruct Hin|].
  inversion Hnd as [|y' l' Hy Hnd']; subst. simpl. destruct Hin as [-> | Hin].
  - rewrite Hp. f_equal. apply filter_map_none.
    intros x Hx. apply Hothers; [right; assumption|].
    intros ->. apply Hy; assumption.
  - rewrite (Hothers y).
    + apply IH; try assumption.
      intros x Hx Hne. apply Hothers; [right; assumption | assumption].
    + left; reflexivity.
    + intros ->. apply Hy; assumption.
Qed.

Lemma str_nodupb_NoDup (l : list str) : str_nodupb l = true -> NoDup l.
Proof.
  induction l as [|x l IH]; simpl; intros H; constructor;
    apply andb_true_iff in H; destruct H as [Hx Hl].
  - intros Hin. apply str_mem_In in Hin. rewrite Hin in Hx. discriminate.
  - apply IH; assumption.
Qed.

(** ** Artifact existence *)

Lemma check_files_exist_map (env : Env) (root : Path) :
  check_files_exist env root = map (artifact_finding env root) REQUIRED_FILES.
Proof.
  unfold check_files_exist.
  rewrite (fold_left_append
             (fun rel => (lit "Exists: " ++ rel,
                          if path_exists env (joinpath root rel) then PASS else FAIL,
                          if path_exists env (joinpath root rel) then []
                          else lit "Missing " ++ rel))).
  rewrite app_nil_l. apply map_ext. intros rel. unfold artifact_finding.
  destruct (path_exists env (joinpath root rel)); reflexivity.
Qed.

(** C3.  Artifact Existence yields one finding per required path, in
    catalog order: PASS when the path exists under the root, otherwise FAIL
    with the detail "Missing <path>".  When exactly one required path is
    absent, the FAIL findings are that single one and every other required
    path has its PASS finding. *)
Theorem C3_artifact_existence (env : Env) (root : Path) :
  check_files_exist env root = map (artifact_finding env root) REQUIRED_FILES
  /\ List.length (check_files_exist env root) = List.length REQUIRED_FILES
  /\ (forall i rel, nth_error REQUIRED_FILES i = Some rel ->
        nth_error (check_files_exist env root) i
        = Some (if path_exists env (joinpath root rel)
                then (lit "Exists: " ++ rel, PASS, [])
                else (lit "Exists: " ++ rel, FAIL, lit "Missing " ++ rel)))
  /\ (forall rel0,
        In rel0 REQUIRED_FILES ->
        path_exists env (joinpath root rel0) = false ->
        (forall rel, In rel REQUIRED_FILES -> rel <> rel0 ->
           path_exists env (joinpath root rel) = true) ->
        filter is_fail (check_files_exist env root)
        = [ (lit "Exists: " ++ rel0, FAIL, lit "Missing " ++ rel0) ]
        /\ (forall rel, In rel REQUIRED_FILES -> rel <> rel0 ->
              In (lit "Exists: " ++ rel, PASS, []) (check_files_exist env root)
              /\ ~ In (lit "Exists: " ++ rel, FAIL, lit "Missing " ++ rel)
                      (check_files_exist env root))).
Proof.
  rewrite check_files_exist_map. split; [reflexivity|].
  split; [apply length_map|]. split.
  - intros i rel H. rewrite nth_error_map, H. reflexivity.
  - intros rel0 Hin Habsent Hothers.
    assert (Hf0 : artifact_finding env root rel0
                  = (lit "Exists: " ++ rel0, FAIL, lit "Missing " ++ rel0)).
    { unfold artifact_finding. rewrite Habsent. reflexivity. }
    split.
    + rewrite <- Hf0. apply filter_map_only.
      * apply str_nodupb_NoDup. reflexivity.
      * assumption.
      * rewrite Hf0. reflexivity.
      * intros rel Hrel Hne. unfold artifact_finding.
        rewrite (Hothers rel Hrel Hne). reflexivity.
    + intros rel Hrel Hne. split.
      * apply in_map_iff. exists rel. split; [|assumption].
        unfold artifact_finding. rewrite (Hothers rel Hrel Hne). reflexivity.
      * intros H. apply in_map_iff in H. destruct H as [rel' [E Hrel']].
        unfold artifact_finding in E.
        destruct (path_exists env (joinpath root rel')) eqn:Ex; [discriminate|].
        assert (rel' = rel0).
        { destruct (str_eqb rel' rel0) eqn:Eq; [apply str_eqb_eq; assumption|].
          apply str_eqb_neq in Eq. rewrite (Hothers rel' Hrel' Eq) in Ex.
          discriminate. }
        subst rel'.
        assert (E1 : lit "Exists: " ++ rel0 = lit "Exists: " ++ rel) by congruence.
        apply app_inv_head in E1. congruence.
Qed.

(** ** Document 2: image outputs, interpretation notes, training scan *)

Lemma is_image_output_spec (out : Output) :
  is_image_output out = true <->
  exists k, In k image_types /\ In k (map fst (or_nil (data out))).
Proof.
  unfold is_image_output, key_in, image_types.
  rewrite !orb_true_iff, !str_mem_In. simpl. split.
  - intros [[H | H] | H]; eauto 6.
  - intros [k [[<- | [<- | [<- | []]]] H]]; auto.
Qed.

Lemma count_image_outputs_spec (nb : Notebook) :
  count_image_outputs nb = List.length (filter is_image_output (code_outputs nb)).
Proof.
  unfold count_image_outputs, code_outputs.
  assert (H : forall cs n,
             fold_left
               (fun cnt cell =>
                  fold_left (fun cnt out => if is_image_output out then cnt + 1 else cnt)
                            (or_nil (outputs cell)) cnt) cs n
             = n + List.length
                     (filter is_image_output
                        (flat_map (fun cell => or_nil (outputs cell)) cs))).
  { induction cs as [|cell cs IH]; intros n; simpl; [lia|].
    rewrite IH, fold_left_count, filter_app, length_app. lia. }
  apply H.
Qed.

Section NoteCount.

Context {tables : CaseTables}.

Lemma interp_markdowns_of_spec (nb : Notebook) :
  interp_markdowns_of nb
  = List.length (filter markdown_note (nb_markdown_cells nb))
    + List.length (filter code_note (nb_code_cells nb)).
Proof.
  unfold interp_markdowns_of.
  change (fold_left (fun n cell => if code_note cell then n + 1 else n)
            (nb_code_cells nb)
            (fold_left
               (fun n cell =>
                  if has_interp_word (lower (or_empty (source cell)))
                  then if 20 <=? List.length
                                   (split_ws (lower (or_empty (source cell))))
                       then n + 1 else n
                  else n)
               (nb_markdown_cells nb) 0)
          = List.length (filter markdown_note (nb_markdown_cells nb))
            + List.length (filter code_note (nb_code_cells nb))).
  rewrite fold_left_count. f_equal.
  rewrite (fold_left_same _
             (fun n cell => if markdown_note cell then n + 1 else n)).
  - rewrite fold_left_count. reflexivity.
  - intros n cell. unfold markdown_note.
    destruct (has_interp_word _); reflexivity.
Qed.

End NoteCount.

Lemma has_interp_word_spec (text : str) :
  has_interp_word text = true <->
  exists w, In w interp_words /\ occurs w text.
Proof.
  unfold has_interp_word. rewrite existsb_exists.
  split; intros [w [Hw H]]; exists w; (split; [assumption | apply str_in_occurs; assumption]).
Qed.

(** Lower-casing ASCII text leaves its white space, hence its words, where
    they are. *)
Lemma is_space_ascii_lower (c : char) : is_space (ascii_lower c) = is_space c.
Proof.
  unfold ascii_lower. destruct ((65 <=? c) && (c <=? 90))%N eqn:E; [|reflexivity].
  apply andb_true_iff in E. destruct E as [E1 E2].
  apply N.leb_le in E1, E2.
  assert (H : forall x, (33 <= x <= 132)%N -> is_space x = false).
  { intros x Hx. unfold is_space.
    rewrite !orb_false_iff, !andb_false_iff, !N.eqb_neq, !N.leb_gt. lia. }
  rewrite !H by lia. reflexivity.
Qed.

Lemma split_ws_from_map (f : char -> char) (cur s : str) :
  (forall c, is_space (f c) = is_space c) ->
  List.length (split_ws_from (map f cur) (map f s))
  = List.length (split_ws_from cur s).
Proof.
  intros Hf. revert cur; induction s as [|c s IH]; intros cur.
  - destruct cur; reflexivity.
  - cbn [map split_ws_from]. rewrite Hf. destruct (is_space c).
    + destruct cur; cbn [map]; [apply (IH [])|].
      cbn [List.length]. f_equal. apply (IH []).
    + apply (IH (c :: cur)).
Qed.

Lemma words_of_lower_ascii {T : CaseTables} (s : str) :
  forallb is_ascii s = true ->
  List.length (split_ws (lower s)) = List.length (split_ws s).
Proof.
  intros H. rewrite (lower_ascii s H). unfold split_ws.
  apply (split_ws_from_map ascii_lower [] s). apply is_space_ascii_lower.
Qed.

Lemma join_app_left (sep : str) (l1 l2 : list str) :
  exists y, join sep (l1 ++ l2) = join sep l1 ++ y.
Proof.
  induction l1 as [|a l1 IH].
  - exists (join sep l2). reflexivity.
  - destruct l1 as [|b l1].
    + destruct l2 as [|c l2].
      * exists []. cbn [app]. symmetry. apply app_nil_r.
      * exists (sep ++ join sep (c :: l2)). reflexivity.
    + destruct IH as [y IH]. exists y.
      change (join sep ((a :: b :: l1) ++ l2))
        with (a ++ sep ++ join sep ((b :: l1) ++ l2)).
      rewrite IH.
      change (join sep (a :: b :: l1)) with (a ++ sep ++ join sep (b :: l1)).
      rewrite <- !app_assoc. reflexivity.
Qed.

Lemma join_app_right (sep : str) (l0 l : list str) :
  exists x, join sep (l0 ++ l) = x ++ join sep l.
Proof.
  induction l0 as [|a l0 IH].
  - exists []. reflexivity.
  - destruct IH as [x IH]. destruct (l0 ++ l) as [|b m] eqn:E.
    + apply app_eq_nil in E. destruct E as [-> ->]. exists a.
      cbn [app join]. symmetry. apply app_nil_r.
    + exists (a ++ sep ++ x).
      change (join sep ((a :: l0) ++ l)) with (join sep (a :: (l0 ++ l))).
      rewrite E.
      change (join sep (a :: b :: m)) with (a ++ sep ++ join sep (b :: m)).
      rewrite IH, <- !app_assoc. reflexivity.
Qed.

Lemma occurs_extend (w x t y : str) : occurs w t -> occurs w (x ++ t ++ y).
Proof.
  intros [a [b ->]]. exists (x ++ a), (b ++ y). rewrite <- !app_assoc. reflexivity.
Qed.

(** The joined text holds each of its parts as a contiguous run. *)
Lemma join_member (sep : str) (xs : list str) (x : str) :
  In x xs -> exists a b, join sep xs = a ++ x ++ b.
Proof.
  intros H. apply in_split in H. destruct H as [l1 [l2 ->]].
  destruct (join_app_right sep l1 (x :: l2)) as [a Ha].
  destruct (join_app_left sep [x] l2) as [b Hb].
  exists a, b. rewrite Ha. change (x :: l2) with ([x] ++ l2). rewrite Hb.
  reflexivity.
Qed.

Lemma no_code_cells (nb : Notebook) :
  (forall cell, In cell (cells nb) -> cell_type cell <> lit "code") ->
  nb_code_cells nb = [].
Proof.
  intros H. unfold nb_code_cells. rewrite <- (map_id (cells nb)).
  apply (filter_map_none (fun x => x)). intros cell Hin.
  apply str_eqb_neq. apply H. assumption.
Qed.

(** ** Claims about document 2 *)

(** C1 (amended).  When document 2 loads, the sixth finding of
    [check_nb02] is the anti-scope-creep verdict on the scanned text: the
    sources of the cells whose type is "code", in document order, joined by
    line feeds.  It is FAIL when that text contains ".fit", any run of
    white space (possibly empty) and "(", or contains a cataloged
    classifier name; it is PASS when it contains neither.  In particular
    the literal ".fit(" gives FAIL, a code cell whose source holds a marker
    or a classifier name gives FAIL, and a document none of whose cells is
    a code cell gets PASS whatever its other cells say.  The verdict is a
    function of the scanned text alone: another notebook with the same
    scanned text gets the same verdict whatever its other findings are. *)
Theorem C1_training_scan (T : CaseTables) (env : Env) (root : Path)
    (read : Path -> exc Notebook) (nb : Notebook) :
  nbformat env = Some read ->
  read (joinpath root (lit "notebooks/02_data_understanding.ipynb")) = Ok nb ->
  let scanned :=
    join [LF]
      (map (fun cell => or_empty (source cell))
           (filter (fun cell => str_eqb (cell_type cell) (lit "code")) (cells nb))) in
  exists results,
    check_nb02 env root = Ok results
    /\ (fit_marker_in scanned \/ class_name_in scanned ->
        nth_error results 5
        = Some (lit "NB02: No model training appears", FAIL,
                lit "Detected model training patterns ('.fit(' or classifier names). Move training to Notebook 03."))
    /\ (~ fit_marker_in scanned -> ~ class_name_in scanned ->
        nth_error results 5
        = Some (lit "NB02: No model training appears", PASS, []))
    /\ (occurs (lit ".fit(") scanned ->
        option_map f_status (nth_error results 5) = Some FAIL)
    /\ (forall cell,
          In cell (cells nb) -> cell_type cell = lit "code" ->
          fit_marker_in (or_empty (source cell))
          \/ class_name_in (or_empty (source cell)) ->
          option_map f_status (nth_error results 5) = Some FAIL)
    /\ ((forall cell, In cell (cells nb) -> cell_type cell <> lit "code") ->
        nth_error results 5
        = Some (lit "NB02: No model training appears", PASS, []))
    /\ (forall nb',
          join [LF]
            (map (fun cell => or_empty (source cell))
                 (filter (fun cell => str_eqb (cell_type cell) (lit "code"))
                         (cells nb')))
          = scanned ->
          nth_error (check_nb02_loaded nb') 5 = nth_error results 5).
Proof.
  intros Hn Hr scanned.
  assert (Es : scanned = code_text_of nb) by reflexivity.
  exists (check_nb02_loaded nb).
  split; [apply (check_nb02_when_loaded env root read nb Hn Hr)|].
  rewrite check_nb02_loaded_findings. cbn [nth_error]. rewrite Es.
  assert (Hyes : fit_marker_in (code_text_of nb) \/ class_name_in (code_text_of nb) ->
                 trained_in (code_text_of nb) = true)
    by apply trained_in_spec.
  split; [|split; [|split; [|split; [|split]]]].
  - intros H. rewrite (Hyes H). reflexivity.
  - intros H1 H2. destruct (trained_in (code_text_of nb)) eqn:E; [|reflexivity].
    apply trained_in_spec in E. tauto.
  - intros H. rewrite Hyes; [reflexivity|]. left. exists []. split; [reflexivity|].
    assumption.
  - intros cell Hin Ht Hmark.
    assert (Hc : In (or_empty (source cell))
                    (map (fun cell => or_empty (source cell)) (nb_code_cells nb))).
    { apply (in_map (fun cell => or_empty (source cell))).
      apply filter_In. split; [assumption|]. apply str_eqb_eq. assumption. }
    destruct (join_member [LF] _ _ Hc) as [a [b Ej]].
    rewrite Hyes; [reflexivity|]. unfold code_text_of. rewrite Ej.
    destruct Hmark as [[ws [Hw Ho]] | [name [Hname Ho]]].
    + left. exists ws. split; [assumption | apply occurs_extend; assumption].
    + right. exists name. split; [assumption | apply occurs_extend; assumption].
  - intros Hnone. unfold code_text_of. rewrite (no_code_cells nb Hnone). reflexivity.
  - intros nb' E. rewrite check_nb02_loaded_findings. cbn [nth_error].
    assert (E' : code_text_of nb' = code_text_of nb) by exact E.
    rewrite E'. reflexivity.
Qed.

(** C1, the claim as worded fails: the code text "model.fit (X, y)" has
    neither the literal ".fit(" nor a classifier name, and the verdict is
    FAIL. *)
Lemma C1_fit_with_space_fails :
  str_in (lit ".fit(") (code_text_of nb_fit_spaced) = false
  /\ existsb (fun name => str_in name (code_text_of nb_fit_spaced))
             SKLEARN_CLASS_NAMES = false
  /\ option_map f_status
       (nth_error (@check_nb02_loaded ascii_tables nb_fit_spaced) 5)
     = Some FAIL.
Proof. vm_compute. repeat split. Qed.

Lemma C1_training_scan_witness :
  exists results,
    @check_nb02 ascii_tables
      (sample_env [] nb_two_images (1599, 12)%N (4898, 12)%N) (lit ".")
    = Ok results
    /\ nth_error results 5
       = Some (lit "NB02: No model training appears", PASS, []).
Proof.
  destruct (@C1_training_scan ascii_tables
              (sample_env [] nb_two_images (1599, 12)%N (4898, 12)%N) (lit ".")
              (fun _ => Ok nb_two_images) nb_two_images eq_refl eq_refl)
    as [results [H1 [_ [H3 _]]]].
  exists results. split; [exact H1|]. apply H3.
  - intros H. apply (or_introl (B := class_name_in (code_text_of nb_two_images))) in H.
    apply trained_in_spec in H. vm_compute in H. discriminate.
  - intros H. apply (or_intror (A := fit_marker_in (code_text_of nb_two_images))) in H.
    apply trained_in_spec in H. vm_compute in H. discriminate.
Defined.

(** C6.  When document 2 loads, [count_image_outputs] is the number of
    output records, taken over the cells whose type is "code" and over no
    other cell, whose media-type keys meet image/png, image/jpeg,
    image/svg+xml, and the fourth finding of [check_nb02] is PASS when that
    number is at least 2 and WARN when it is 0 or 1. *)
Theorem C6_richness (T : CaseTables) (env : Env) (root : Path)
    (read : Path -> exc Notebook) (nb : Notebook) :
  nbformat env = Some read ->
  read (joinpath root (lit "notebooks/02_data_understanding.ipynb")) = Ok nb ->
  let counted :=
    filter is_image_output
      (flat_map (fun cell => or_nil (outputs cell))
         (filter (fun cell => str_eqb (cell_type cell) (lit "code")) (cells nb))) in
  count_image_outputs nb = List.length counted
  /\ (forall out, In out counted <->
        exists cell, In cell (cells nb) /\ cell_type cell = lit "code"
          /\ In out (or_nil (outputs cell))
          /\ exists k, In k image_types /\ In k (map fst (or_nil (data out))))
  /\ ((forall cell, In cell (cells nb) -> cell_type cell <> lit "code") ->
      count_image_outputs nb = 0)
  /\ (forall out, is_image_output out = true <->
        exists k, In k image_types /\ In k (map fst (or_nil (data out))))
  /\ exists results,
       check_nb02 env root = Ok results
       /\ (2 <= count_image_outputs nb ->
           nth_error results 3
           = Some (lit "NB02: >=2 feature visuals present", PASS,
                   lit "Detected " ++ str_of_nat (count_image_outputs nb)
                   ++ lit " image outputs."))
       /\ (count_image_outputs nb = 0 \/ count_image_outputs nb = 1 ->
           nth_error results 3
           = Some (lit "NB02: >=2 feature visuals present", WARN,
                   lit "Add at least two feature plots (e.g., boxplots/hist by class)."))
       /\ (option_map f_status (nth_error results 3) = Some PASS <->
           2 <= count_image_outputs nb).
Proof.
  intros Hn Hr counted. split; [apply count_image_outputs_spec|].
  split.
  { intros out. unfold counted. rewrite filter_In, in_flat_map, is_image_output_spec.
    split.
    - intros [[cell [Hc Ho]] Hk]. apply filter_In in Hc. destruct Hc as [Hc Ht].
      apply str_eqb_eq in Ht. exists cell. auto.
    - intros [cell [Hc [Ht [Ho Hk]]]]. split; [|assumption].
      exists cell. split; [|assumption]. apply filter_In.
      split; [assumption | apply str_eqb_eq; assumption]. }
  split.
  { intros Hnone. unfold count_image_outputs. rewrite (no_code_cells nb Hnone).
    reflexivity. }
  split; [apply is_image_output_spec|].
  exists (check_nb02_loaded nb).
  split; [apply (check_nb02_when_loaded env root read nb Hn Hr)|].
  rewrite check_nb02_loaded_findings. cbn [nth_error]. unfold nb02_richness.
  destruct (2 <=? count_image_outputs nb) eqn:E.
  - apply Nat.leb_le in E. split; [intros _; reflexivity|].
    split; [intros [H | H]; lia|].
    split; [intros _; assumption | intros _; reflexivity].
  - apply Nat.leb_gt in E. split; [intros H; lia|].
    split; [intros _; reflexivity|].
    split; [cbn; discriminate | intros H; lia].
Qed.

Lemma C6_richness_witness :
  (count_image_outputs nb_no_image = 0
   /\ count_image_outputs nb_one_image = 1
   /\ count_image_outputs nb_two_images = 2
   /\ count_image_outputs nb_image_on_markdown = 0)
  /\ exists results,
       @check_nb02 ascii_tables
         (sample_env [] nb_two_images (1599, 12)%N (4898, 12)%N) (lit ".")
       = Ok results
       /\ option_map f_status (nth_error results 3) = Some PASS.
Proof.
  split; [repeat split|].
  destruct (@C6_richness ascii_tables
              (sample_env [] nb_two_images (1599, 12)%N (4898, 12)%N) (lit ".")
              (fun _ => Ok nb_two_images) nb_two_images eq_refl eq_refl)
    as [_ [_ [_ [_ [results [H1 [_ [_ H4]]]]]]]].
  exists results. split; [exact H1|]. apply H4. vm_compute. lia.
Defined.

(** C9.  When document 2 loads, the counter of interpretation notes is the
    number of cells of type "markdown" whose lower-cased source contains
    "interpretation" or "insight" and has at least 20 words, plus the number
    of cells of type "code" whose lower-cased source contains such a
    keyword, each list taken from the cells of the notebook; the
    fifth finding of [check_nb02] is PASS exactly when that sum is at least
    2, and WARN otherwise.  On ASCII text the lower-cased source has the
    words of the source. *)
Theorem C9_interpretation_notes (T : CaseTables) (env : Env) (root : Path)
    (read : Path -> exc Notebook) (nb : Notebook) :
  nbformat env = Some read ->
  read (joinpath root (lit "notebooks/02_data_understanding.ipynb")) = Ok nb ->
  let notes :=
    List.length
      (filter markdown_note
         (filter (fun cell => str_eqb (cell_type cell) (lit "markdown")) (cells nb)))
    + List.length
        (filter code_note
           (filter (fun cell => str_eqb (cell_type cell) (lit "code")) (cells nb))) in
  interp_markdowns_of nb = notes
  /\ (forall cell,
        In cell (filter markdown_note
                   (filter (fun cell => str_eqb (cell_type cell) (lit "markdown"))
                           (cells nb)))
        <-> In cell (cells nb) /\ cell_type cell = lit "markdown"
            /\ markdown_note cell = true)
  /\ (forall cell,
        In cell (filter code_note
                   (filter (fun cell => str_eqb (cell_type cell) (lit "code"))
                           (cells nb)))
        <-> In cell (cells nb) /\ cell_type cell = lit "code"
            /\ code_note cell = true)
  /\ (forall cell, markdown_note cell = true <->
        (exists w, In w [lit "interpretation"; lit "insight"; lit "insights"]
                   /\ occurs w (lower (or_empty (source cell))))
        /\ 20 <= List.length (split_ws (lower (or_empty (source cell)))))
  /\ (forall cell, code_note cell = true <->
        exists w, In w [lit "interpretation"; lit "insight"; lit "insights"]
                  /\ occurs w (lower (or_empty (source cell))))
  /\ (forall cell, forallb is_ascii (or_empty (source cell)) = true ->
        List.length (split_ws (lower (or_empty (source cell))))
        = List.length (split_ws (or_empty (source cell))))
  /\ exists results,
       check_nb02 env root = Ok results
       /\ (2 <= notes ->
           nth_error results 4
           = Some (lit "NB02: Figure interpretations present", PASS,
                   str_of_nat notes ++ lit " interpretation notes found."))
       /\ (notes < 2 ->
           option_map f_status (nth_error results 4) = Some WARN)
       /\ (option_map f_status (nth_error results 4) = Some PASS <-> 2 <= notes).
Proof.
  intros Hn Hr notes. split; [apply interp_markdowns_of_spec|].
  split.
  { intros cell. rewrite !filter_In, str_eqb_eq. tauto. }
  split.
  { intros cell. rewrite !filter_In, str_eqb_eq. tauto. }
  split.
  { intros cell. unfold markdown_note.
    rewrite andb_true_iff, has_interp_word_spec, Nat.leb_le. reflexivity. }
  split.
  { intros cell. unfold code_note. apply has_interp_word_spec. }
  split.
  { intros cell. apply words_of_lower_ascii. }
  exists (check_nb02_loaded nb).
  split; [apply (check_nb02_when_loaded env root read nb Hn Hr)|].
  rewrite check_nb02_loaded_findings. cbn [nth_error].
  rewrite interp_markdowns_of_spec.
  change (List.length (filter markdown_note (nb_markdown_cells nb))
          + List.length (filter code_note (nb_code_cells nb))) with notes.
  unfold nb02_interpretations.
  destruct (2 <=? notes) eqn:E.
  - apply Nat.leb_le in E. split; [intros _; reflexivity|].
    split; [intros H; lia|].
    split; [intros _; assumption | intros _; reflexivity].
  - apply Nat.leb_gt in E. split; [intros H; lia|].
    split; [intros _; reflexivity|].
    split; [cbn; discriminate | intros H; lia].
Qed.

Lemma C9_interpretation_notes_witness :
  @interp_markdowns_of ascii_tables nb_notes = 2
  /\ exists results,
       @check_nb02 ascii_tables
         (sample_env [] nb_notes (1599, 12)%N (4898, 12)%N) (lit ".")
       = Ok results
       /\ option_map f_status (nth_error results 4) = Some PASS.
Proof.
  split; [reflexivity|].
  destruct (@C9_interpretation_notes ascii_tables
              (sample_env [] nb_notes (1599, 12)%N (4898, 12)%N) (lit ".")
              (fun _ => Ok nb_notes) nb_notes eq_refl eq_refl)
    as [_ [_ [_ [_ [_ [_ [results [H1 [_ [_ H4]]]]]]]]]].
  exists results. split; [exact H1|]. apply H4. vm_compute. lia.
Defined.

(** ** Tabular shape *)

Lemma band_check (lo hi : N) (sh : N * N) :
  ((lo <=? fst sh) && (fst sh <=? hi) && ((11 <=? snd sh) && (snd sh <=? 13)))%N = true
  <-> (lo <= fst sh /\ fst sh <= hi /\ 11 <= snd sh /\ snd sh <= 13)%N.
Proof.
  rewrite !andb_true_iff, !N.leb_le. tauto.
Qed.

(** C8.  Without the tabular reader, Tabular Shape yields a single WARN.
    With it, both files are read with the delimiter ";"; when both reads
    succeed the finding is PASS if the red table has 1500 to 1700 rows and
    11 to 13 columns and the white table 4700 to 5100 rows and 11 to 13
    columns, and WARN otherwise, with both shapes in the detail in either
    case; when a read raises, the finding is FAIL and its detail carries the
    message of the error. *)
Theorem C8_tabular_shape (env : Env) (root : Path) :
  let red_p := joinpath root (lit "data/winequality-red.csv") in
  let white_p := joinpath root (lit "data/winequality-white.csv") in
  (pd env = None ->
   check_data_shapes env root
   = Ok [ (lit "Data shapes (red/white)", WARN,
           lit "pandas not available; cannot verify shapes") ])
  /\ (forall read_csv, pd env = Some read_csv ->
      (forall red white,
         read_csv red_p (lit ";") = Ok red ->
         read_csv white_p (lit ";") = Ok white ->
         (in_red_band red /\ in_white_band white ->
          check_data_shapes env root
          = Ok [ (lit "Data shapes (approx UCI)", PASS,
                  lit "red=" ++ repr_shape red ++ lit ", white="
                  ++ repr_shape white) ])
         /\ (~ (in_red_band red /\ in_white_band white) ->
             check_data_shapes env root
             = Ok [ (lit "Data shapes (approx UCI)", WARN,
                     lit "red=" ++ repr_shape red ++ lit ", white="
                     ++ repr_shape white) ]))
      /\ (forall e,
            read_csv red_p (lit ";") = Raise e ->
            check_data_shapes env root
            = Ok [ (lit "Data shapes (approx UCI)", FAIL,
                    lit "Error reading CSVs: " ++ e) ])
      /\ (forall red e,
            read_csv red_p (lit ";") = Ok red ->
            read_csv white_p (lit ";") = Raise e ->
            check_data_shapes env root
            = Ok [ (lit "Data shapes (approx UCI)", FAIL,
                    lit "Error reading CSVs: " ++ e) ])).
Proof.
  intros red_p white_p. unfold check_data_shapes. fold red_p white_p. split.
  - intros ->. reflexivity.
  - intros read_csv ->. split; [|split].
    + intros red white -> ->. cbn [bind try_except app].
      pose proof (band_check 1500 1700 red) as Hr.
      pose proof (band_check 4700 5100 white) as Hw.
      fold (in_red_band red) in Hr. fold (in_white_band white) in Hw.
      destruct ((1500 <=? fst red) && (fst red <=? 1700)
                && ((11 <=? snd red) && (snd red <=? 13)))%N;
        destruct ((4700 <=? fst white) && (fst white <=? 5100)
                  && ((11 <=? snd white) && (snd white <=? 13)))%N;
        cbn [andb]; split; intros H; try reflexivity.
      * exfalso. apply H. split; [apply Hr | apply Hw]; reflexivity.
      * destruct H as [_ H]. apply Hw in H. discriminate.
      * destruct H as [H _]. apply Hr in H. discriminate.
      * destruct H as [H _]. apply Hr in H. discriminate.
    + intros e ->. reflexivity.
    + intros red e -> ->. reflexivity.
Qed.

Lemma C8_tabular_shape_witness :
  check_data_shapes (sample_env [] nb_two_images (1599, 12)%N (4898, 12)%N)
                    (lit ".")
  = Ok [ (lit "Data shapes (approx UCI)", PASS,
          lit "red=(1599, 12), white=(4898, 12)") ]
  /\ check_data_shapes (sample_env [] nb_two_images (1599, 12)%N (4898, 14)%N)
                       (lit ".")
     = Ok [ (lit "Data shapes (approx UCI)", WARN,
             lit "red=(1599, 12), white=(4898, 14)") ].
Proof.
  split.
  - destruct (C8_tabular_shape
                (sample_env [] nb_two_images (1599, 12)%N (4898, 12)%N) (lit "."))
      as [_ H].
    destruct (H _ eq_refl) as [H1 _].
    destruct (H1 (1599, 12)%N (4898, 12)%N eq_refl eq_refl) as [Hpass _].
    apply Hpass. unfold in_red_band, in_white_band. cbn [fst snd]. lia.
  - destruct (C8_tabular_shape
                (sample_env [] nb_two_images (1599, 12)%N (4898, 14)%N) (lit "."))
      as [_ H].
    destruct (H _ eq_refl) as [H1 _].
    destruct (H1 (1599, 12)%N (4898, 14)%N eq_refl eq_refl) as [_ Hwarn].
    apply Hwarn. unfold in_red_band, in_white_band. cbn [fst snd]. lia.
Defined.

(** ** Text loading *)

Lemma load_text_total (env : Env) (p : Path) :
  load_text env p = Ok (loaded_text env p).
Proof.
  unfold load_text, loaded_text, try_except.
  destruct (read_text env p UTF8); [reflexivity|].
  destruct (read_text env p LATIN1); reflexivity.
Qed.

(** ** Ignore-rule coverage *)

(** Each required ignore pattern is found exactly when its literal text
    occurs in the file. *)
Lemma gitignore_pattern_search (pat : Pattern) (text : str) :
  In pat GITIGNORE_REQUIRED_PATTERNS ->
  (re_search char_eqb (pat_re pat) text = true
   <-> occurs (literal_of (pat_re pat)) text).
Proof.
  intros H. unfold GITIGNORE_REQUIRED_PATTERNS in H. cbn [In] in H.
  destruct H as [<- | [<- | [<- | [<- | [<- | [<- | [<- | []]]]]]]].
  - exact (search_lits (lit ".ipynb_checkpoints/") text).
  - exact (search_lits (lit "venv/") text).
  - exact (search_lits (lit "__pycache__/") text).
  - exact (search_lits (lit "results/") text).
  - exact (search_lits_dotstar (lit "notebooks/03_") text).
  - exact (search_lits_dotstar (lit "notebooks/04_") text).
  - exact (search_lits_dotstar (lit "notebooks/05_") text).
Qed.

Lemma gitignore_patterns_NoDup : NoDup GITIGNORE_REQUIRED_PATTERNS.
Proof.
  apply (NoDup_map_inv pat_src). apply str_nodupb_NoDup. reflexivity.
Qed.

Lemma check_gitignore_present (env : Env) (root : Path) :
  path_exists env (joinpath root (lit ".gitignore")) = true ->
  check_gitignore env root
  = Ok [ match filter (unmatched (loaded_text env (joinpath root (lit ".gitignore"))))
                      GITIGNORE_REQUIRED_PATTERNS with
         | [] => (lit "gitignore includes today-only rules", PASS, [])
         | missing =>
             (lit "gitignore includes today-only rules", WARN,
              lit "Add patterns: " ++ join (lit ", ") (map pat_src missing))
         end ].
Proof.
  intros H. unfold check_gitignore. rewrite H, load_text_total.
  cbn [negb bind]. fold (unmatched (loaded_text env (joinpath root (lit ".gitignore")))).
  destruct (filter _ GITIGNORE_REQUIRED_PATTERNS); reflexivity.
Qed.

(** C7.  Ignore-Rule Coverage yields one finding: FAIL when the ignore file
    is absent; otherwise WARN naming, in catalog order, exactly the catalog
    patterns that a search of the whole text does not match, when there is
    one; otherwise PASS.  A file in which the text of every required
    pattern occurs gets PASS, and a file that lacks one of them alone gets
    a WARN that names that pattern. *)
Theorem C7_ignore_rule_coverage (env : Env) (root : Path) :
  let p := joinpath root (lit ".gitignore") in
  let text := loaded_text env p in
  let missing := filter (unmatched text) GITIGNORE_REQUIRED_PATTERNS in
  (path_exists env p = false ->
   check_gitignore env root
   = Ok [ (lit "gitignore present & includes rules", FAIL,
           lit ".gitignore not found") ])
  /\ (path_exists env p = true ->
      (missing <> [] ->
       check_gitignore env root
       = Ok [ (lit "gitignore includes today-only rules", WARN,
               lit "Add patterns: " ++ join (lit ", ") (map pat_src missing)) ])
      /\ (missing = [] ->
          check_gitignore env root
          = Ok [ (lit "gitignore includes today-only rules", PASS, []) ])
      /\ ((forall pat, In pat GITIGNORE_REQUIRED_PATTERNS ->
             occurs (literal_of (pat_re pat)) text) ->
          check_gitignore env root
          = Ok [ (lit "gitignore includes today-only rules", PASS, []) ])
      /\ (forall pat0,
            In pat0 GITIGNORE_REQUIRED_PATTERNS ->
            ~ occurs (literal_of (pat_re pat0)) text ->
            (forall pat, In pat GITIGNORE_REQUIRED_PATTERNS -> pat <> pat0 ->
               occurs (literal_of (pat_re pat)) text) ->
            check_gitignore env root
            = Ok [ (lit "gitignore includes today-only rules", WARN,
                    lit "Add patterns: " ++ pat_src pat0) ]))
  /\ (forall pat, In pat missing <->
        In pat GITIGNORE_REQUIRED_PATTERNS
        /\ re_search char_eqb (pat_re pat) text = false).
Proof.
  intros p text missing. split; [|split].
  - intros H. unfold check_gitignore. fold p. rewrite H. reflexivity.
  - intros H. rewrite (check_gitignore_present env root H).
    fold p text missing. split; [|split; [|split]].
    + intros Hm. destruct missing; [congruence | reflexivity].
    + intros ->. reflexivity.
    + intros Hall.
      assert (E : missing = []).
      { unfold missing. rewrite <- (map_id GITIGNORE_REQUIRED_PATTERNS).
        apply filter_map_none. intros pat Hin. unfold unmatched.
        apply (gitignore_pattern_search pat text Hin) in Hall; [|assumption].
        rewrite Hall. reflexivity. }
      rewrite E. reflexivity.
    + intros pat0 Hin Hno Hothers.
      assert (E : missing = [pat0]).
      { unfold missing. rewrite <- (map_id GITIGNORE_REQUIRED_PATTERNS).
        apply (filter_map_only (fun x => x)).
        - apply gitignore_patterns_NoDup.
        - assumption.
        - unfold unmatched.
          destruct (re_search char_eqb (pat_re pat0) text) eqn:E; [|reflexivity].
          apply (gitignore_pattern_search pat0 text Hin) in E. contradiction.
        - intros pat Hpat Hne. unfold unmatched.
          apply (gitignore_pattern_search pat text Hpat) in Hothers; try assumption.
          rewrite Hothers. reflexivity. }
      rewrite E. reflexivity.
  - intros pat. unfold missing. rewrite filter_In. unfold unmatched.
    rewrite negb_true_iff. reflexivity.
Qed.

Lemma C7_ignore_rule_coverage_witness :
  check_gitignore (sample_env gitignore_full nb_two_images (1599, 12)%N (4898, 12)%N)
                  (lit ".")
  = Ok [ (lit "gitignore includes today-only rules", PASS, []) ]
  /\ check_gitignore
       (sample_env gitignore_without_results nb_two_images (1599, 12)%N (4898, 12)%N)
       (lit ".")
     = Ok [ (lit "gitignore includes today-only rules", WARN,
             lit "Add patterns: results/") ].
Proof.
  split.
  - destruct (C7_ignore_rule_coverage
                (sample_env gitignore_full nb_two_images (1599, 12)%N (4898, 12)%N)
                (lit ".")) as [_ [H _]].
    destruct (H eq_refl) as [_ [_ [Hall _]]]. apply Hall.
    intros pat Hin. apply str_in_occurs.
    unfold GITIGNORE_REQUIRED_PATTERNS in Hin. cbn [In] in Hin.
    destruct Hin as [<- | [<- | [<- | [<- | [<- | [<- | [<- | []]]]]]]];
      vm_compute; reflexivity.
  - destruct (C7_ignore_rule_coverage
                (sample_env gitignore_without_results nb_two_images
                            (1599, 12)%N (4898, 12)%N)
                (lit ".")) as [_ [H _]].
    destruct (H eq_refl) as [_ [_ [_ Hone]]].
    apply (Hone {| pat_src := lit "results/"; pat_re := lits (lit "results/") |}).
    + unfold GITIGNORE_REQUIRED_PATTERNS. cbn [In]. tauto.
    + intros Ho. apply str_in_occurs in Ho. vm_compute in Ho. discriminate.
    + intros pat Hin Hne. apply str_in_occurs.
      unfold GITIGNORE_REQUIRED_PATTERNS in Hin. cbn [In] in Hin.
      destruct Hin as [<- | [<- | [<- | [<- | [<- | [<- | [<- | []]]]]]]];
        try (vm_compute; reflexivity).
      exfalso. apply Hne. reflexivity.
Defined.

(** ** Dependency coverage *)

Lemma set_of_In (x : str) (xs : list str) : In x (set_of xs) <-> In x xs.
Proof.
  induction xs as [|y xs IH]; simpl; [reflexivity|].
  destruct (str_mem y xs) eqn:E.
  - rewrite IH. split; [auto|]. intros [<- | H]; [|assumption].
    apply str_mem_In; assumption.
  - simpl. rewrite IH. reflexivity.
Qed.

Lemma split_head_plain (tok : str) :
  ~ In EQ tok -> split_head (lit "==") tok = tok.
Proof.
  induction tok as [|c tok IH]; intros H; [reflexivity|].
  cbn [split_head].
  assert (Hc : char_eqb EQ c = false).
  { destruct (char_eqb EQ c) eqn:E; [|reflexivity].
    apply char_eqb_eq in E. exfalso. apply H. left; symmetry; assumption. }
  change (startswith (lit "==") (c :: tok))
    with (char_eqb EQ c && startswith [EQ] tok).
  rewrite Hc. cbn [andb]. f_equal. apply IH. intros Hin. apply H. right; assumption.
Qed.

Lemma split_head_pinned (tok rest : str) :
  ~ In EQ tok -> split_head (lit "==") (tok ++ lit "==" ++ rest) = tok.
Proof.
  induction tok as [|c tok IH]; intros H.
  - reflexivity.
  - cbn [app split_head].
    assert (Hc : char_eqb EQ c = false).
    { destruct (char_eqb EQ c) eqn:E; [|reflexivity].
      apply char_eqb_eq in E. exfalso. apply H. left; symmetry; assumption. }
    change (startswith (lit "==") (c :: tok ++ lit "==" ++ rest))
      with (char_eqb EQ c && startswith [EQ] (tok ++ lit "==" ++ rest)).
    rewrite Hc. cbn [andb]. f_equal. apply IH.
    intros Hin. apply H. right; assumption.
Qed.

Lemma ascii_lower_is_ascii (c : char) :
  is_ascii (ascii_lower c) = true -> is_ascii c = true.
Proof.
  unfold is_ascii, ascii_lower.
  destruct ((65 <=? c) && (c <=? 90))%N eqn:E.
  - apply andb_true_iff in E. destruct E as [_ E]. apply N.leb_le in E.
    intros _. apply N.ltb_lt. lia.
  - auto.
Qed.

Section Requirements.

Context {tables : CaseTables}.

Lemma lower_letter_case (name dep : str) :
  forallb is_ascii dep = true -> map ascii_lower name = dep -> lower name = dep.
Proof.
  intros Hd E. rewrite lower_ascii; [assumption|].
  subst dep. rewrite forallb_forall in *. intros c Hc.
  apply ascii_lower_is_ascii. apply Hd. apply in_map. assumption.
Qed.

(** The set [missing], once sorted, is the sublist of the sorted catalog
    made of the names that were not declared. *)
Lemma requirements_missing (found : list str) :
  let missing :=
    set_of (map lower
              (filter (fun pkg => negb (str_mem (lower pkg) found))
                      REQUIREMENTS_MIN)) in
  sorted missing
  = filter (fun pkg => negb (str_mem pkg found)) REQUIREMENTS_SORTED
  /\ (missing = [] <->
      filter (fun pkg => negb (str_mem pkg found)) REQUIREMENTS_SORTED = []).
Proof.
  unfold REQUIREMENTS_MIN, REQUIREMENTS_SORTED. cbn [filter].
  assert (L1 : lower (lit "pandas") = lit "pandas")
    by (apply lower_letter_case; reflexivity).
  assert (L2 : lower (lit "numpy") = lit "numpy")
    by (apply lower_letter_case; reflexivity).
  assert (L3 : lower (lit "scikit-learn") = lit "scikit-learn")
    by (apply lower_letter_case; reflexivity).
  assert (L4 : lower (lit "matplotlib") = lit "matplotlib")
    by (apply lower_letter_case; reflexivity).
  assert (L5 : lower (lit "seaborn") = lit "seaborn")
    by (apply lower_letter_case; reflexivity).
  rewrite L1, L2, L3, L4, L5.
  destruct (str_mem (lit "pandas") found);
    destruct (str_mem (lit "numpy") found);
    destruct (str_mem (lit "scikit-learn") found);
    destruct (str_mem (lit "matplotlib") found);
    destruct (str_mem (lit "seaborn") found);
    cbn [negb filter map]; rewrite ?L1, ?L2, ?L3, ?L4, ?L5;
    (split; [vm_compute; reflexivity
            | vm_compute; split; intros H; first [reflexivity | discriminate H]]).
Qed.

Lemma check_requirements_present (env : Env) (root : Path) :
  path_exists env (joinpath root (lit "requirements.txt")) = true ->
  check_requirements env root
  = Ok [ match filter (fun pkg =>
                         negb (str_mem pkg
                                 (declared_names
                                    (loaded_text env
                                       (joinpath root (lit "requirements.txt"))))))
                      REQUIREMENTS_SORTED with
         | [] => (lit "requirements includes minimal deps", PASS, [])
         | missing =>
             (lit "requirements includes minimal deps", WARN,
              lit "Missing: " ++ join (lit ", ") missing)
         end ].
Proof.
  intros H. unfold check_requirements. rewrite H, load_text_total.
  cbn [negb bind].
  destruct (requirements_missing
              (declared_names
                 (loaded_text env (joinpath root (lit "requirements.txt")))))
    as [Hs He].
  cbv zeta in Hs, He. rewrite <- Hs.
  destruct (set_of _) as [|m ms] eqn:E.
  - reflexivity.
  - destruct (sorted (m :: ms)) eqn:E2.
    + symmetry in Hs. apply He in Hs. discriminate.
    + reflexivity.
Qed.

End Requirements.

Section DeclaredNames.

Context {tables : CaseTables}.

Lemma declared_names_In (text name : str) :
  In name (declared_names text) <->
  exists line,
    In line (splitlines text)
    /\ strip line <> []
    /\ startswith (lit "#") (strip line) = false
    /\ name = lower (split_head (lit "==") (strip line)).
Proof.
  unfold declared_names. rewrite set_of_In, in_map_iff. split.
  - intros [line [E H]]. apply filter_In in H. destruct H as [Hin Hc].
    apply andb_true_iff in Hc. destruct Hc as [H1 H2].
    apply negb_true_iff in H1, H2. apply str_eqb_neq in H1.
    exists line. auto.
  - intros [line [Hin [H1 [H2 E]]]]. exists line. split; [auto|].
    apply filter_In. split; [assumption|].
    apply andb_true_iff. split; apply negb_true_iff;
      [apply str_eqb_neq|]; assumption.
Qed.

Lemma listed_is_declared (text dep : str) :
  plain_dep dep = true -> lists_dependency text dep ->
  In dep (declared_names text).
Proof.
  unfold plain_dep. intros Hp [line [name [rest [Hin [Hs [Hl Hr]]]]]].
  apply andb_true_iff in Hp. destruct Hp as [Hp Hhash].
  apply andb_true_iff in Hp. destruct Hp as [Hascii Heq].
  apply negb_true_iff in Heq.
  assert (Hno : ~ In EQ name).
  { intros H. apply (in_map ascii_lower) in H. rewrite Hl in H.
    change (ascii_lower EQ) with EQ in H.
    assert (existsb (char_eqb EQ) dep = true)
      by (apply existsb_exists; exists EQ; split; [assumption | apply char_eqb_refl]).
    congruence. }
  destruct name as [|c name']; [subst dep; discriminate|].
  destruct dep as [|c0 dep']; [discriminate|].
  apply negb_true_iff in Hhash. cbn [map] in Hl.
  apply declared_names_In. exists line. rewrite Hs.
  split; [assumption|]. split; [discriminate|]. split.
  - cbn [app]. change (startswith (lit "#") (c :: name' ++ rest))
      with (char_eqb HASH c && true).
    destruct (char_eqb HASH c) eqn:E; [|reflexivity].
    apply char_eqb_eq in E. subst c. inversion Hl as [[E1 E2]].
    change (ascii_lower HASH) with HASH in E1. subst c0.
    rewrite char_eqb_refl in Hhash. discriminate.
  - assert (Hsplit : split_head (lit "==") ((c :: name') ++ rest) = c :: name').
    { destruct Hr as [-> | [version ->]].
      - rewrite app_nil_r. apply split_head_plain. assumption.
      - apply split_head_pinned. assumption. }
    rewrite Hsplit. symmetry. apply lower_letter_case; assumption.
Qed.

Lemma catalog_plain : forallb plain_dep REQUIREMENTS_MIN = true.
Proof. reflexivity. Qed.

End DeclaredNames.

(** C2 (amended).  Dependency Coverage yields one finding.  An absent
    manifest gives FAIL.  For a manifest that exists, the declared names are, for each
    line that is neither blank nor a comment once stripped, the text
    before the pin separator "==" (the whole line when there is none) in
    lower case; the finding is PASS when every minimal dependency is among
    them and otherwise WARN naming, in sorted order, exactly the minimal
    dependencies that are not.  In particular a manifest that lists all
    five, in any letter case, pinned or not, gets PASS. *)
Theorem C2_dependency_coverage (T : CaseTables) (env : Env) (root : Path) :
  let p := joinpath root (lit "requirements.txt") in
  let text := loaded_text env p in
  let missing :=
    filter (fun pkg => negb (str_mem pkg (declared_names text)))
           REQUIREMENTS_SORTED in
  (path_exists env p = false ->
   check_requirements env root
   = Ok [ (lit "requirements.txt present", FAIL,
           lit "requirements.txt not found") ])
  /\ (path_exists env p = true ->
      (missing = [] ->
       check_requirements env root
       = Ok [ (lit "requirements includes minimal deps", PASS, []) ])
      /\ (missing <> [] ->
          check_requirements env root
          = Ok [ (lit "requirements includes minimal deps", WARN,
                  lit "Missing: " ++ join (lit ", ") missing) ])
      /\ ((forall dep, In dep REQUIREMENTS_MIN -> lists_dependency text dep) ->
          check_requirements env root
          = Ok [ (lit "requirements includes minimal deps", PASS, []) ]))
  /\ (forall dep, In dep missing <->
        In dep REQUIREMENTS_MIN /\ ~ In dep (declared_names text))
  /\ (forall name, In name (declared_names text) <->
        exists line,
          In line (splitlines text)
          /\ strip line <> []
          /\ startswith (lit "#") (strip line) = false
          /\ name = lower (split_head (lit "==") (strip line)))
  /\ (forall tok rest, ~ In EQ tok ->
        split_head (lit "==") (tok ++ lit "==" ++ rest) = tok
        /\ split_head (lit "==") tok = tok).
Proof.
  intros p text missing.
  assert (Hmiss : forall dep, In dep missing <->
            In dep REQUIREMENTS_MIN /\ ~ In dep (declared_names text)).
  { intros dep. unfold missing. rewrite filter_In, negb_true_iff.
    assert (Hsame : In dep REQUIREMENTS_SORTED <-> In dep REQUIREMENTS_MIN).
    { unfold REQUIREMENTS_SORTED, REQUIREMENTS_MIN. cbn [In]. tauto. }
    rewrite Hsame. split; intros [H1 H2]; (split; [assumption|]).
    - intros H. apply str_mem_In in H. congruence.
    - destruct (str_mem dep (declared_names text)) eqn:E; [|reflexivity].
      apply str_mem_In in E. contradiction. }
  split; [|split; [|split; [|split]]].
  - intros H. unfold check_requirements. fold p. rewrite H. reflexivity.
  - intros H. rewrite (check_requirements_present env root H).
    fold p text missing. split; [|split].
    + intros ->. reflexivity.
    + intros Hm. destruct missing; [congruence | reflexivity].
    + intros Hall.
      assert (Hnone : forall dep, ~ In dep missing).
      { intros dep Hd. apply Hmiss in Hd. destruct Hd as [Hin Hnot].
        apply Hnot. apply listed_is_declared; [|apply Hall; assumption].
        pose proof catalog_plain as Hp. rewrite forallb_forall in Hp.
        apply Hp. assumption. }
      revert Hnone. generalize missing. intros [|dep ms] Hnone; [reflexivity|].
      exfalso. apply (Hnone dep). left; reflexivity.
  - exact Hmiss.
  - intros name. apply declared_names_In.
  - intros tok rest H. split; [apply split_head_pinned | apply split_head_plain];
      assumption.
Qed.

(** C2, the claim as worded fails: a manifest that lists all five
    dependencies, two of them pinned as "pandas>=2.0" and "numpy ==1.26",
    gets a WARN that names pandas and numpy, because only the text before
    a literal "==" is taken and the blank before it is kept. *)
Lemma C2_other_pins_warn :
  @check_requirements ascii_tables
    (sample_env manifest_other_pins nb_two_images (1599, 12)%N (4898, 12)%N)
    (lit ".")
  = Ok [ (lit "requirements includes minimal deps", WARN,
          lit "Missing: numpy, pandas") ]
  /\ @declared_names ascii_tables manifest_other_pins
     = [ lit "pandas>=2.0"; lit "numpy "; lit "scikit-learn"; lit "matplotlib";
         lit "seaborn" ].
Proof. split; vm_compute; reflexivity. Qed.

Lemma C2_dependency_coverage_witness :
  @check_requirements ascii_tables
    (sample_env manifest_full nb_two_images (1599, 12)%N (4898, 12)%N) (lit ".")
  = Ok [ (lit "requirements includes minimal deps", PASS, []) ]
  /\ @check_requirements ascii_tables
       (sample_env manifest_partial nb_two_images (1599, 12)%N (4898, 12)%N)
       (lit ".")
     = Ok [ (lit "requirements includes minimal deps", WARN,
             lit "Missing: numpy, seaborn") ].
Proof.
  split.
  - destruct (@C2_dependency_coverage ascii_tables
                (sample_env manifest_full nb_two_images (1599, 12)%N (4898, 12)%N)
                (lit ".")) as [_ [H _]].
    destruct (H eq_refl) as [_ [_ Hall]]. apply Hall.
    intros dep Hin. unfold REQUIREMENTS_MIN in Hin. cbn [In] in Hin.
    destruct Hin as [<- | [<- | [<- | [<- | [<- | []]]]]].
    + exists (lit "Pandas==2.1.0"), (lit "Pandas"), (lit "==2.1.0").
      vm_compute. intuition eauto.
    + exists (lit "NUMPY"), (lit "NUMPY"), []. vm_compute. intuition eauto.
    + exists (lit "  scikit-learn==1.3.2  "), (lit "scikit-learn"), (lit "==1.3.2").
      vm_compute. intuition eauto.
    + exists (lit "matplotlib"), (lit "matplotlib"), []. vm_compute. intuition eauto.
    + exists (lit "Seaborn==0.13"), (lit "Seaborn"), (lit "==0.13").
      vm_compute. intuition eauto.
  - destruct (@C2_dependency_coverage ascii_tables
                (sample_env manifest_partial nb_two_images (1599, 12)%N (4898, 12)%N)
                (lit ".")) as [_ [H _]].
    destruct (H eq_refl) as [_ [Hwarn _]]. apply Hwarn. vm_compute. discriminate.
Defined.

(** C10.  [load_text] returns a text for every path: the UTF-8 reading
    when it succeeds, else the latin-1 reading when that succeeds, else the
    empty text.  Hence an ignore file or a manifest that exists and that
    neither reading can deliver is treated as empty: the evaluator returns
    one WARN that lists every catalog pattern, or every minimal dependency,
    as missing. *)
Theorem C10_load_text_total (T : CaseTables) (env : Env) (root : Path) :
  (forall p, exists s, load_text env p = Ok s)
  /\ (forall p s, read_text env p UTF8 = Ok s -> load_text env p = Ok s)
  /\ (forall p e s,
        read_text env p UTF8 = Raise e -> read_text env p LATIN1 = Ok s ->
        load_text env p = Ok s)
  /\ (forall p e1 e2,
        read_text env p UTF8 = Raise e1 -> read_text env p LATIN1 = Raise e2 ->
        load_text env p = Ok [])
  /\ (forall e1 e2,
        path_exists env (joinpath root (lit ".gitignore")) = true ->
        read_text env (joinpath root (lit ".gitignore")) UTF8 = Raise e1 ->
        read_text env (joinpath root (lit ".gitignore")) LATIN1 = Raise e2 ->
        check_gitignore env root
        = Ok [ (lit "gitignore includes today-only rules", WARN,
                lit "Add patterns: \.ipynb_checkpoints/, venv/, __pycache__/, results/, notebooks/03_.*, notebooks/04_.*, notebooks/05_.*") ])
  /\ (forall e1 e2,
        path_exists env (joinpath root (lit "requirements.txt")) = true ->
        read_text env (joinpath root (lit "requirements.txt")) UTF8 = Raise e1 ->
        read_text env (joinpath root (lit "requirements.txt")) LATIN1 = Raise e2 ->
        check_requirements env root
        = Ok [ (lit "requirements includes minimal deps", WARN,
                lit "Missing: matplotlib, numpy, pandas, scikit-learn, seaborn") ]).
Proof.
  split; [|split; [|split; [|split; [|split]]]].
  - intros p. exists (loaded_text env p). apply load_text_total.
  - intros p s H. rewrite load_text_total. unfold loaded_text. rewrite H. reflexivity.
  - intros p e s H1 H2. rewrite load_text_total. unfold loaded_text.
    rewrite H1, H2. reflexivity.
  - intros p e1 e2 H1 H2. rewrite load_text_total. unfold loaded_text.
    rewrite H1, H2. reflexivity.
  - intros e1 e2 Hex H1 H2. rewrite (check_gitignore_present env root Hex).
    unfold loaded_text. rewrite H1, H2. reflexivity.
  - intros e1 e2 Hex H1 H2. rewrite (check_requirements_present env root Hex).
    unfold loaded_text. rewrite H1, H2. reflexivity.
Qed.

Lemma C10_load_text_total_witness :
  load_text unreadable_env (lit "./.gitignore") = Ok []
  /\ check_gitignore unreadable_env (lit ".")
     = Ok [ (lit "gitignore includes today-only rules", WARN,
             lit "Add patterns: \.ipynb_checkpoints/, venv/, __pycache__/, results/, notebooks/03_.*, notebooks/04_.*, notebooks/05_.*") ]
  /\ @check_requirements ascii_tables unreadable_env (lit ".")
     = Ok [ (lit "requirements includes minimal deps", WARN,
             lit "Missing: matplotlib, numpy, pandas, scikit-learn, seaborn") ].
Proof.
  destruct (@C10_load_text_total ascii_tables unreadable_env (lit "."))
    as [_ [_ [_ [H4 [H5 H6]]]]].
  split; [|split].
  - apply (H4 _ (lit "[Errno 21] Is a directory") (lit "[Errno 21] Is a directory"));
      reflexivity.
  - apply (H5 (lit "[Errno 21] Is a directory") (lit "[Errno 21] Is a directory"));
      reflexivity.
  - apply (H6 (lit "[Errno 21] Is a directory") (lit "[Errno 21] Is a directory"));
      reflexivity.
Defined.

(** ** The report *)

Lemma fold_left_max_bounds (xs : list nat) (x : nat) :
  (x <= fold_left Nat.max xs x
   /\ forall y, In y xs -> y <= fold_left Nat.max xs x)
  /\ (fold_left Nat.max xs x = x \/ In (fold_left Nat.max xs x) xs).
Proof.
  revert x; induction xs as [|z xs IH]; intros x; simpl.
  - split; [split; [lia | tauto] | left; reflexivity].
  - destruct (IH (Nat.max x z)) as [[H1 H2] H3]. split; [split|].
    + lia.
    + intros y [<- | Hy]; [lia | apply H2; assumption].
    + destruct H3 as [H3 | H3]; [|right; right; assumption].
      rewrite H3. destruct (Nat.max_spec x z) as [[_ ->] | [_ ->]]; auto.
Qed.

(** [max] of the lengths of a non-empty sequence: an upper bound that is
    reached. *)
Lemma py_max_lengths {A : Type} (f : A -> nat) (rs : list A) :
  rs <> [] ->
  exists m,
    py_max (map f rs) = Ok m
    /\ (forall r, In r rs -> f r <= m)
    /\ (exists r, In r rs /\ f r = m).
Proof.
  destruct rs as [|r0 rs]; [congruence|]. intros _. cbn [map py_max].
  exists (fold_left Nat.max (map f rs) (f r0)).
  destruct (fold_left_max_bounds (map f rs) (f r0)) as [[H1 H2] H3].
  split; [reflexivity|]. split.
  - intros r [<- | Hr]; [assumption|]. apply H2. apply in_map. assumption.
  - destruct H3 as [H3 | H3].
    + exists r0. split; [left; reflexivity | symmetry; assumption].
    + apply in_map_iff in H3. destruct H3 as [r [E Hr]].
      exists r. split; [right; assumption | assumption].
Qed.

Lemma summarize_loop (wl ws : nat) (rs : list Finding)
    (lines : list str) (f w : nat) :
  fold_left (summarize_step wl ws) rs (lines, f, w)
  = (lines ++ map (report_line wl ws) rs,
     f + count_status FAIL rs, w + count_status WARN rs).
Proof.
  revert lines f w; induction rs as [|[[label status] detail] rs IH];
    intros lines f w.
  - simpl. rewrite app_nil_r, !Nat.add_0_r. reflexivity.
  - cbn [fold_left]. unfold summarize_step at 2.
    destruct status; cbn [status_eqb]; rewrite IH; unfold count_status;
      cbn [filter f_status fst snd status_eqb List.length map];
      rewrite <- app_assoc; f_equal; try (f_equal; lia); lia.
Qed.

Lemma ljust_length (s : str) (w : nat) :
  List.length s <= w -> List.length (ljust s w) = w.
Proof.
  intros H. unfold ljust. rewrite length_app, repeat_length. lia.
Qed.

Lemma summarize_nonempty (env : Env) (rs : list Finding) :
  rs <> [] ->
  exists wl ws,
    summarize env rs
    = Ok (report_header env ++ [LF]
          ++ repeat 45%N (List.length (report_header env)) ++ [LF]
          ++ join [LF] (map (report_line wl ws) rs)
          ++ [LF] ++ lit "Summary: " ++ str_of_nat (count_status FAIL rs)
          ++ lit " FAIL, " ++ str_of_nat (count_status WARN rs)
          ++ lit " WARN" ++ [LF],
          count_status FAIL rs)
    /\ py_max (map (fun r => List.length (f_label r)) rs) = Ok wl
    /\ py_max (map (fun r => List.length (status_text (f_status r))) rs) = Ok ws.
Proof.
  intros Hne.
  destruct (py_max_lengths (fun r => List.length (f_label r)) rs Hne)
    as [wl [Hwl _]].
  destruct (py_max_lengths (fun r => List.length (status_text (f_status r))) rs Hne)
    as [ws [Hws _]].
  exists wl, ws. split; [|split; assumption].
  unfold summarize. rewrite Hwl, Hws. cbn [bind].
  rewrite summarize_loop. cbn [app Nat.add]. unfold report_header.
  rewrite <- !app_assoc. reflexivity.
Qed.

(** C5 (amended).  For every non-empty sequence of findings the report is
    the header, a rule, the lines of the findings joined by line feeds and
    the summary line.  There is one line per finding, in the order of the
    input; a line is the label padded to the longest label, two blanks, the
    severity padded to the longest severity, two blanks and the detail; the
    summary carries the numbers of FAIL and of WARN findings, and the
    failure count returned is the number of FAIL findings. *)
Theorem C5_report_layout (env : Env) (results : list Finding) :
  results <> [] ->
  exists wl ws lines,
    summarize env results
    = Ok (report_header env ++ [LF]
          ++ repeat 45%N (List.length (report_header env)) ++ [LF]
          ++ join [LF] lines
          ++ [LF] ++ lit "Summary: " ++ str_of_nat (count_status FAIL results)
          ++ lit " FAIL, " ++ str_of_nat (count_status WARN results)
          ++ lit " WARN" ++ [LF],
          count_status FAIL results)
    /\ lines = map (report_line wl ws) results
    /\ List.length lines = List.length results
    /\ (forall i r, nth_error results i = Some r ->
          nth_error lines i
          = Some (ljust (f_label r) wl ++ lit "  "
                  ++ ljust (status_text (f_status r)) ws ++ lit "  "
                  ++ f_detail r))
    /\ (forall r, In r results ->
          List.length (f_label r) <= wl
          /\ List.length (ljust (f_label r) wl) = wl
          /\ List.length (status_text (f_status r)) <= ws
          /\ List.length (ljust (status_text (f_status r)) ws) = ws)
    /\ (exists r, In r results /\ List.length (f_label r) = wl)
    /\ (exists r, In r results /\ List.length (status_text (f_status r)) = ws)
    /\ py_max (map (fun r => List.length (f_label r)) results) = Ok wl
    /\ py_max (map (fun r => List.length (status_text (f_status r))) results)
       = Ok ws.
Proof.
  intros Hne.
  destruct (summarize_nonempty env results Hne) as [wl [ws [Hs [Hwl Hws]]]].
  destruct (py_max_lengths (fun r => List.length (f_label r)) results Hne)
    as [wl' [Hwl' [Hl1 Hl2]]].
  destruct (py_max_lengths (fun r => List.length (status_text (f_status r)))
              results Hne) as [ws' [Hws' [Hs1 Hs2]]].
  assert (wl' = wl) by congruence. assert (ws' = ws) by congruence. subst wl' ws'.
  exists wl, ws, (map (report_line wl ws) results).
  split; [exact Hs|]. split; [reflexivity|]. split; [apply length_map|].
  split; [|split; [|split; [|split; [|split]]]].
  - intros i r H. rewrite nth_error_map, H. reflexivity.
  - intros r Hr. pose proof (Hl1 r Hr). pose proof (Hs1 r Hr).
    repeat split; try assumption; apply ljust_length; assumption.
  - exact Hl2.
  - exact Hs2.
  - exact Hwl.
  - exact Hws.
Qed.

(** C5, the claim as worded fails on the empty sequence: [summarize]
    raises instead of returning a report. *)
Lemma C5_empty_sequence_raises :
  summarize unreadable_env [] = Raise (lit "max() arg is an empty sequence").
Proof. reflexivity. Qed.

Lemma C5_report_layout_witness :
  exists report,
    summarize unreadable_env sample_findings = Ok (report, 1)
    /\ str_in (lit "Exists: README.md                    PASS  ") report = true
    /\ str_in (lit "Summary: 1 FAIL, 1 WARN") report = true.
Proof.
  destruct (C5_report_layout unreadable_env sample_findings)
    as [wl [ws [lines [H [Hlines [_ [_ [_ [_ [_ [Hwl Hws]]]]]]]]]]].
  - discriminate.
  - vm_compute in Hwl, Hws.
    injection Hwl as Hwl. injection Hws as Hws. subst wl ws lines.
    eexists. split; [exact H|]. split; reflexivity.
Defined.

(** ** The evaluators return, and the exit status *)

Lemma check_gitignore_total (env : Env) (root : Path) :
  exists r, check_gitignore env root = Ok r.
Proof.
  destruct (path_exists env (joinpath root (lit ".gitignore"))) eqn:E.
  - eexists. apply (check_gitignore_present env root E).
  - unfold check_gitignore. rewrite E. eexists. reflexivity.
Qed.

Lemma load_notebook_total (env : Env) (path : Path) :
  exists loaded, load_notebook env path = Ok loaded.
Proof.
  unfold load_notebook. destruct (nbformat env) as [read|]; [|eexists; reflexivity].
  destruct (read path); eexists; reflexivity.
Qed.

Lemma check_data_shapes_total (env : Env) (root : Path) :
  exists r, check_data_shapes env root = Ok r.
Proof.
  unfold check_data_shapes. destruct (pd env) as [read_csv|]; [|eexists; reflexivity].
  destruct (read_csv (joinpath root (lit "data/winequality-red.csv")) (lit ";"));
    [|eexists; reflexivity].
  destruct (read_csv (joinpath root (lit "data/winequality-white.csv")) (lit ";"));
    eexists; reflexivity.
Qed.

Lemma count_fail_without_warn (rs : list Finding) :
  count_status FAIL (filter (fun r => negb (is_warn r)) rs) = count_status FAIL rs.
Proof.
  unfold count_status, is_warn. induction rs as [|[[label status] detail] rs IH];
    [reflexivity|].
  destruct status; simpl; first [exact IH | f_equal; exact IH].
Qed.

Section MainFacts.

Context {tables : CaseTables}.

Lemma check_requirements_total (env : Env) (root : Path) :
  exists r, check_requirements env root = Ok r.
Proof.
  destruct (path_exists env (joinpath root (lit "requirements.txt"))) eqn:E.
  - eexists. apply (check_requirements_present env root E).
  - unfold check_requirements. rewrite E. eexists. reflexivity.
Qed.

Lemma check_nb01_total (env : Env) (root : Path) :
  exists r, check_nb01 env root = Ok r.
Proof.
  unfold check_nb01.
  destruct (load_notebook_total env
              (joinpath root (lit "notebooks/01_problem_framing.ipynb")))
    as [[[nb|] err] H]; rewrite H; cbn [bind]; eexists; reflexivity.
Qed.

Lemma check_nb02_total (env : Env) (root : Path) :
  exists r, check_nb02 env root = Ok r.
Proof.
  unfold check_nb02.
  destruct (load_notebook_total env
              (joinpath root (lit "notebooks/02_data_understanding.ipynb")))
    as [[[nb|] err] H]; rewrite H; cbn [bind]; eexists; reflexivity.
Qed.

(** [main] gathers the findings of the six evaluators; the seven
    findings of Artifact Existence come first. *)
Lemma all_findings_total (env : Env) (root : Path) :
  exists rest,
    all_findings env root = Ok (check_files_exist env root ++ rest).
Proof.
  unfold all_findings.
  destruct (check_gitignore_total env root) as [r1 ->].
  destruct (check_requirements_total env root) as [r2 ->].
  destruct (check_nb01_total env root) as [r3 ->].
  destruct (check_nb02_total env root) as [r4 ->].
  destruct (check_data_shapes_total env root) as [r5 ->].
  cbn [bind app]. exists (r1 ++ r2 ++ r3 ++ r4 ++ r5).
  rewrite <- !app_assoc. reflexivity.
Qed.

End MainFacts.

Lemma C3_artifact_existence_witness :
  filter is_fail
    (check_files_exist (env_without_white gitignore_full nb_two_images) (lit "."))
  = [ (lit "Exists: data/winequality-white.csv", FAIL,
       lit "Missing data/winequality-white.csv") ]
  /\ In (lit "Exists: README.md", PASS, [])
        (check_files_exist (env_without_white gitignore_full nb_two_images)
           (lit ".")).
Proof.
  destruct (C3_artifact_existence
              (env_without_white gitignore_full nb_two_images) (lit "."))
    as [_ [_ [_ H]]].
  destruct (H (lit "data/winequality-white.csv")) as [Hfail Hpass].
  - unfold REQUIRED_FILES. cbn [In]. tauto.
  - reflexivity.
  - intros rel Hin Hne. unfold REQUIRED_FILES in Hin. cbn [In] in Hin.
    destruct Hin as [<- | [<- | [<- | [<- | [<- | [<- | [<- | []]]]]]]];
      try reflexivity.
    exfalso. apply Hne. reflexivity.
  - split; [exact Hfail|].
    apply (Hpass (lit "README.md")).
    + unfold REQUIRED_FILES. cbn [In]. tauto.
    + discriminate.
Defined.

(** * Further properties of the evaluators *)

(** ** Output presence *)

Lemma has_outputs_in_spec (cs : list Cell) :
  has_outputs_in cs = true <->
  exists cell, In cell cs /\ or_nil (outputs cell) <> [].
Proof.
  induction cs as [|c cs IH]; simpl.
  - split; [discriminate | intros [cell [[] _]]].
  - destruct (or_nil (outputs c)) as [|o os] eqn:E; simpl.
    + rewrite IH. split.
      * intros [cell [Hin H]]. exists cell. auto.
      * intros [cell [[<- | Hin] H]]; [congruence | exists cell; auto].
    + split; [|reflexivity]. intros _. exists c. split; [left; reflexivity|].
      rewrite E. discriminate.
Qed.

(** X1.  [has_outputs] holds exactly when some code cell of the notebook
    carries a non-empty list of outputs; markdown cells and code cells
    whose [outputs] is missing or empty do not count. *)
Theorem has_outputs_iff (nb : Notebook) :
  has_outputs nb = true <->
  exists cell o outs,
    In cell (cells nb) /\ cell_type cell = lit "code"
    /\ outputs cell = Some (o :: outs).
Proof.
  unfold has_outputs, nb_code_cells. rewrite has_outputs_in_spec. split.
  - intros [cell [Hin H]]. apply filter_In in Hin. destruct Hin as [Hin Ht].
    apply str_eqb_eq in Ht.
    destruct (outputs cell) as [[|o outs]|] eqn:E; simpl in H; try congruence.
    exists cell, o, outs. auto.
  - intros [cell [o [outs [Hin [Ht E]]]]]. exists cell. split.
    + apply filter_In. split; [assumption|]. apply str_eqb_eq. assumption.
    + rewrite E. discriminate.
Qed.

(** ** Pattern search over the cells *)

Lemma set_add_In (x y : str) (s : list str) :
  In x (set_add y s) <-> In x s \/ x = y.
Proof.
  unfold set_add. destruct (str_mem y s) eqn:E.
  - split; [auto|]. intros [H | ->]; [assumption | apply str_mem_In; assumption].
  - rewrite in_app_iff. simpl. intuition.
Qed.

Lemma set_add_NoDup (y : str) (s : list str) : NoDup s -> NoDup (set_add y s).
Proof.
  intros H. unfold set_add. destruct (str_mem y s) eqn:E; [assumption|].
  apply NoDup_app; [assumption | repeat constructor; intros [] |].
  intros x Hx [<- | []]. apply str_mem_In in Hx. congruence.
Qed.

Lemma add_matching_In (p : Pattern -> bool) (pats : list Pattern)
    (found : list str) (x : str) :
  In x (fold_left (fun found pat => if p pat then set_add (pat_src pat) found else found)
                  pats found)
  <-> In x found \/ exists pat, In pat pats /\ p pat = true /\ pat_src pat = x.
Proof.
  revert found; induction pats as [|q pats IH]; intros found; simpl.
  - split; [auto | intros [H | [pat [[] _]]]; assumption].
  - rewrite IH. destruct (p q) eqn:E.
    + rewrite set_add_In. split.
      * intros [[H | ->] | [pat [Hin [Hp Hs]]]]; eauto 6.
      * intros [H | [pat [[<- | Hin] [Hp Hs]]]]; eauto 6.
    + split.
      * intros [H | [pat [Hin [Hp Hs]]]]; eauto 6.
      * intros [H | [pat [[<- | Hin] [Hp Hs]]]]; [auto | congruence | eauto 6].
Qed.

Lemma add_matching_NoDup (p : Pattern -> bool) (pats : list Pattern)
    (found : list str) :
  NoDup found ->
  NoDup (fold_left (fun found pat => if p pat then set_add (pat_src pat) found else found)
                   pats found).
Proof.
  revert found; induction pats as [|q pats IH]; intros found H; simpl; [assumption|].
  apply IH. destruct (p q); [apply set_add_NoDup|]; assumption.
Qed.

Section PatternSearchFacts.

Context {tables : CaseTables}.

Lemma find_strings_from (cs : list Cell) (pats : list Pattern)
    (search_in found : list str) (x : str) :
  In x (fold_left
          (fun found cell =>
             if negb (str_mem (cell_type cell) search_in) then found
             else
               let src := or_empty (source cell) in
               fold_left
                 (fun found pat =>
                    if re_search ci_eqb (pat_re pat) src
                    then set_add (pat_src pat) found
                    else found)
                 pats found)
          cs found)
  <-> In x found
      \/ exists pat cell,
           In pat pats /\ In cell cs /\ cell_matches search_in pat cell = true
           /\ pat_src pat = x.
Proof.
  revert found; induction cs as [|c cs IH]; intros found; cbn [fold_left].
  - split; [auto | intros [H | [pat [cell [_ [[] _]]]]]; assumption].
  - rewrite IH. unfold cell_matches.
    destruct (str_mem (cell_type c) search_in) eqn:E; cbn [negb].
    + cbv zeta.
      rewrite (add_matching_In
                 (fun pat => re_search ci_eqb (pat_re pat) (or_empty (source c)))).
      split.
      * intros [[H | [pat [Hin [Hp Hs]]]] | [pat [cell [Hin [Hc [Hm Hs]]]]]].
        -- auto.
        -- right. exists pat, c. rewrite E, Hp. simpl. auto.
        -- right. exists pat, cell. simpl. auto.
      * intros [H | [pat [cell [Hin [[<- | Hc] [Hm Hs]]]]]].
        -- auto.
        -- left. right. exists pat. rewrite E in Hm. simpl in Hm. auto.
        -- right. exists pat, cell. auto.
    + split.
      * intros [H | [pat [cell [Hin [Hc [Hm Hs]]]]]]; [auto|].
        right. exists pat, cell. simpl. auto.
      * intros [H | [pat [cell [Hin [[<- | Hc] [Hm Hs]]]]]]; [auto | |].
        -- rewrite E in Hm. discriminate.
        -- right. exists pat, cell. auto.
Qed.

Lemma find_strings_NoDup_from (cs : list Cell) (pats : list Pattern)
    (search_in found : list str) :
  NoDup found ->
  NoDup (fold_left
           (fun found cell =>
              if negb (str_mem (cell_type cell) search_in) then found
              else
                let src := or_empty (source cell) in
                fold_left
                  (fun found pat =>
                     if re_search ci_eqb (pat_re pat) src
                     then set_add (pat_src pat) found
                     else found)
                  pats found)
           cs found).
Proof.
  revert found; induction cs as [|c cs IH]; intros found H; cbn [fold_left];
    [assumption|].
  apply IH. destruct (negb (str_mem (cell_type c) search_in)); [assumption|].
  cbv zeta.
  apply (add_matching_NoDup
           (fun pat => re_search ci_eqb (pat_re pat) (or_empty (source c)))).
  assumption.
Qed.

Lemma find_strings_in_nb_In (nb : Notebook) (pats : list Pattern)
    (search_in : list str) (x : str) :
  In x (find_strings_in_nb nb pats search_in) <->
  exists pat cell,
    In pat pats /\ In cell (cells nb)
    /\ cell_matches search_in pat cell = true /\ pat_src pat = x.
Proof.
  unfold find_strings_in_nb, nb_all_cells. rewrite find_strings_from.
  split; [intros [[] | H]; exact H | auto].
Qed.

(** X2.  [find_strings_in_nb] returns the set of the patterns that match,
    without regard to letter case, the source of at least one cell whose
    type is searched; a pattern is reported once however many cells match
    it, and cells of other types are never looked at. *)
Theorem find_strings_in_nb_spec (nb : Notebook) (pats : list Pattern)
    (search_in : list str) :
  (forall x, In x (find_strings_in_nb nb pats search_in) <->
     exists pat cell,
       In pat pats /\ pat_src pat = x /\ In cell (cells nb)
       /\ In (cell_type cell) search_in
       /\ re_search ci_eqb (pat_re pat) (or_empty (source cell)) = true)
  /\ NoDup (find_strings_in_nb nb pats search_in).
Proof.
  split.
  - intros x. rewrite find_strings_in_nb_In. unfold cell_matches.
    split; intros [pat [cell H]]; exists pat, cell.
    + destruct H as [H1 [H2 [H3 H4]]]. apply andb_true_iff in H3.
      destruct H3 as [H3 H5]. apply str_mem_In in H3. auto 6.
    + destruct H as [H1 [H2 [H3 [H4 H5]]]]. apply str_mem_In in H4.
      rewrite H4, H5. auto.
  - unfold find_strings_in_nb. apply find_strings_NoDup_from. constructor.
Qed.

End PatternSearchFacts.

(** ** The content findings of the two documents *)

Lemma NoDup_map_eq {A B : Type} (f : A -> B) (l : list A) (a b : A) :
  NoDup (map f l) -> In a l -> In b l -> f a = f b -> a = b.
Proof.
  induction l as [|x l IH]; intros Hnd Ha Hb E; [destruct Ha|].
  cbn [map] in Hnd. inversion Hnd as [|y ys Hx Hnd']; subst.
  destruct Ha as [-> | Ha]; destruct Hb as [-> | Hb].
  - reflexivity.
  - exfalso. apply Hx. rewrite E. apply in_map. assumption.
  - exfalso. apply Hx. rewrite <- E. apply in_map. assumption.
  - apply IH; assumption.
Qed.

Section ContentFacts.

Context {tables : CaseTables}.

(** The patterns reported missing are those that no searched cell
    matches. *)
Lemma not_found_unmatched (nb : Notebook) (pats : list Pattern)
    (search_in : list str) :
  NoDup (map pat_src pats) ->
  not_found pats (find_strings_in_nb nb pats search_in)
  = unmatched_in nb search_in pats.
Proof.
  intros Hnd. unfold not_found, unmatched_in. f_equal.
  apply filter_ext_in. intros m Hm. f_equal.
  destruct (found_in_nb nb search_in m) eqn:E.
  - apply str_mem_In. apply find_strings_in_nb_In.
    unfold found_in_nb in E. apply existsb_exists in E.
    destruct E as [cell [Hc Hmatch]]. exists m, cell. auto.
  - destruct (str_mem (pat_src m) (find_strings_in_nb nb pats search_in)) eqn:E2;
      [|reflexivity].
    apply str_mem_In in E2. apply find_strings_in_nb_In in E2.
    destruct E2 as [pat [cell [Hp [Hc [Hmatch Hs]]]]].
    assert (pat = m) by (apply (NoDup_map_eq pat_src pats); assumption).
    subst pat. unfold found_in_nb in E.
    assert (existsb (cell_matches search_in m) (cells nb) = true)
      by (apply existsb_exists; exists cell; auto).
    congruence.
Qed.

Lemma unmatched_in_nil (nb : Notebook) (search_in : list str) (pats : list Pattern) :
  unmatched_in nb search_in pats = [] <->
  forall pat, In pat pats -> found_in_nb nb search_in pat = true.
Proof.
  unfold unmatched_in. split.
  - intros H pat Hin. apply map_eq_nil in H.
    destruct (found_in_nb nb search_in pat) eqn:E; [reflexivity|].
    assert (Hf : In pat (filter (fun pat => negb (found_in_nb nb search_in pat)) pats))
      by (apply filter_In; rewrite E; auto).
    rewrite H in Hf. destruct Hf.
  - intros H. rewrite <- (map_id pats).
    rewrite (filter_map_none (fun x => x)); [reflexivity|].
    intros pat Hin. rewrite (H pat Hin). reflexivity.
Qed.

Lemma find_strings_nil (nb : Notebook) (pats : list Pattern) (search_in : list str) :
  find_strings_in_nb nb pats search_in = [] <->
  forall pat, In pat pats -> found_in_nb nb search_in pat = false.
Proof.
  split.
  - intros H pat Hin. destruct (found_in_nb nb search_in pat) eqn:E; [|reflexivity].
    unfold found_in_nb in E. apply existsb_exists in E.
    destruct E as [cell [Hc Hm]].
    assert (Hx : In (pat_src pat) (find_strings_in_nb nb pats search_in))
      by (apply find_strings_in_nb_In; exists pat, cell; auto).
    rewrite H in Hx. destruct Hx.
  - intros H. destruct (find_strings_in_nb nb pats search_in) as [|x xs] eqn:E;
      [reflexivity|]. exfalso.
    assert (Hx : In x (find_strings_in_nb nb pats search_in))
      by (rewrite E; left; reflexivity).
    apply find_strings_in_nb_In in Hx.
    destruct Hx as [pat [cell [Hp [Hc [Hm _]]]]].
    assert (found_in_nb nb search_in pat = true)
      by (apply existsb_exists; exists cell; auto).
    rewrite (H pat Hp) in *. discriminate.
Qed.

Lemma check_nb01_when_loaded (env : Env) (root : Path)
    (read : Path -> exc Notebook) (nb : Notebook) :
  nbformat env = Some read ->
  read (joinpath root (lit "notebooks/01_problem_framing.ipynb")) = Ok nb ->
  check_nb01 env root
  = Ok [ nb01_loads;
         nb01_framing (not_found must_text
                         (find_strings_in_nb nb must_text [lit "markdown"; lit "code"]));
         nb01_repro (find_strings_in_nb nb repro_hints [lit "code"]);
         nb01_saved (has_outputs nb) ].
Proof.
  intros Hn Hr. unfold check_nb01, load_notebook. rewrite Hn, Hr.
  cbn [bind try_except].
  unfold nb01_loads, nb01_framing, nb01_repro, nb01_saved.
  generalize (not_found must_text
                (find_strings_in_nb nb must_text [lit "markdown"; lit "code"])).
  generalize (find_strings_in_nb nb repro_hints [lit "code"]).
  generalize (has_outputs nb).
  intros saved found2 missing.
  destruct missing; destruct found2; destruct saved; reflexivity.
Qed.

End ContentFacts.

Lemma all_filter {A : Type} (p : A -> bool) (l : list A) :
  (forall x, In x l -> p x = true) -> filter p l = l.
Proof.
  induction l as [|x l IH]; intros H; [reflexivity|]. cbn [filter].
  rewrite (H x (or_introl eq_refl)). f_equal. apply IH.
  intros y Hy. apply H. right; assumption.
Qed.

(** X3.  Once document 2 is loaded its second finding is PASS exactly when
    each of the four code markers matches the source of some code cell,
    without regard to letter case; otherwise it is WARN and its detail is
    the Python list of the markers that no code cell matches, in catalog
    order; the text of the detail when none of them is matched is given in
    full.  Markdown cells are not searched. *)
Theorem nb02_markers_finding (T : CaseTables) (nb : Notebook) :
  nth_error (check_nb02_loaded nb) 1
  = Some (match unmatched_in nb [lit "code"] must_code with
          | [] => (lit "NB02: Data load + label (0/1) + concat", PASS, [])
          | missing =>
              (lit "NB02: Data load + label (0/1) + concat", WARN,
               lit "Missing patterns: " ++ repr_list missing)
          end)
  /\ (option_map f_status (nth_error (check_nb02_loaded nb) 1) = Some PASS <->
      forall pat, In pat must_code ->
        exists cell, In cell (cells nb) /\ cell_type cell = lit "code"
          /\ re_search ci_eqb (pat_re pat) (or_empty (source cell)) = true)
  /\ ((forall pat cell,
         In pat must_code -> In cell (cells nb) -> cell_type cell = lit "code" ->
         re_search ci_eqb (pat_re pat) (or_empty (source cell)) = false) ->
      nth_error (check_nb02_loaded nb) 1
      = Some (lit "NB02: Data load + label (0/1) + concat", WARN,
              lit "Missing patterns: ['read_csv', 'sep\\s*=\\s*[" ++ [BSL; BSL; DQ]
              ++ lit "\']\\;[" ++ [BSL; BSL; DQ] ++ lit "\']', " ++ [DQ]
              ++ lit "(?:\\['type'\\]|type)\\s*=" ++ [DQ]
              ++ lit ", 'concat\\(']")).
Proof.
  rewrite check_nb02_loaded_findings. cbn [nth_error option_map].
  rewrite not_found_unmatched by (apply str_nodupb_NoDup; reflexivity).
  unfold nb02_markers. split; [|split].
  3: { intros Hnone.
       assert (E : unmatched_in nb [lit "code"] must_code = map pat_src must_code).
       { unfold unmatched_in. f_equal. apply all_filter. intros pat Hin.
         destruct (found_in_nb nb [lit "code"] pat) eqn:Ef; [|reflexivity].
         exfalso. unfold found_in_nb, cell_matches in Ef.
         apply existsb_exists in Ef. destruct Ef as [cell [Hc Hm]].
         apply andb_true_iff in Hm. destruct Hm as [Ht Hm].
         apply str_mem_In in Ht. destruct Ht as [Ht | []].
         rewrite (Hnone pat cell Hin Hc (eq_sym Ht)) in Hm. discriminate. }
       rewrite E. reflexivity. }
  - destruct (unmatched_in nb [lit "code"] must_code); reflexivity.
  - assert (Hfound : forall pat,
              found_in_nb nb [lit "code"] pat = true <->
              exists cell, In cell (cells nb) /\ cell_type cell = lit "code"
                /\ re_search ci_eqb (pat_re pat) (or_empty (source cell)) = true).
    { intros pat. unfold found_in_nb, cell_matches. rewrite existsb_exists.
      split; intros [cell [Hc H]]; exists cell.
      - apply andb_true_iff in H. destruct H as [H1 H2].
        apply str_mem_In in H1. destruct H1 as [<- | []]. auto.
      - destruct H as [H1 H2]. split; [assumption|]. rewrite H1, H2. reflexivity. }
    destruct (unmatched_in nb [lit "code"] must_code) as [|m ms] eqn:E.
    + split; [|reflexivity]. intros _ pat Hin. apply Hfound.
      apply (proj1 (unmatched_in_nil nb [lit "code"] must_code) E). assumption.
    + split; [discriminate|]. intros H. exfalso.
      assert (E0 : unmatched_in nb [lit "code"] must_code = []).
      { apply unmatched_in_nil. intros pat Hin. apply Hfound. apply H. assumption. }
      congruence.
Qed.

Lemma found_in_nb_iff {T : CaseTables} (nb : Notebook) (search_in : list str)
    (pat : Pattern) :
  found_in_nb nb search_in pat = true <->
  exists cell, In cell (cells nb) /\ In (cell_type cell) search_in
    /\ re_search ci_eqb (pat_re pat) (or_empty (source cell)) = true.
Proof.
  unfold found_in_nb, cell_matches. rewrite existsb_exists.
  split; intros [cell [Hc H]]; exists cell.
  - apply andb_true_iff in H. destruct H as [H1 H2].
    apply str_mem_In in H1. auto.
  - destruct H as [H1 H2]. apply str_mem_In in H1. rewrite H1, H2. auto.
Qed.

(** X4.  Once document 1 is loaded, [check_nb01] returns four findings and
    none of them is FAIL.  The framing finding is PASS exactly when each of
    the five topical markers matches some markdown or code cell; the
    reproducibility finding is PASS exactly when one of the two hints
    matches some code cell; the last finding is PASS when a code cell has
    an output and WARN otherwise. *)
Theorem nb01_findings (T : CaseTables) (env : Env) (root : Path)
    (read : Path -> exc Notebook) (nb : Notebook) :
  nbformat env = Some read ->
  read (joinpath root (lit "notebooks/01_problem_framing.ipynb")) = Ok nb ->
  exists framing repro saved,
    check_nb01 env root
    = Ok [ (lit "Notebook 01 loads", PASS, []); framing; repro; saved ]
    /\ (f_status framing = PASS <->
        forall pat, In pat must_text ->
          exists cell, In cell (cells nb)
            /\ In (cell_type cell) [lit "markdown"; lit "code"]
            /\ re_search ci_eqb (pat_re pat) (or_empty (source cell)) = true)
    /\ (f_status repro = PASS <->
        exists pat cell, In pat repro_hints /\ In cell (cells nb)
          /\ cell_type cell = lit "code"
          /\ re_search ci_eqb (pat_re pat) (or_empty (source cell)) = true)
    /\ f_status saved = (if has_outputs nb then PASS else WARN)
    /\ f_status framing <> FAIL /\ f_status repro <> FAIL
    /\ f_status saved <> FAIL.
Proof.
  intros Hn Hr. rewrite (check_nb01_when_loaded env root read nb Hn Hr).
  rewrite not_found_unmatched by (apply str_nodupb_NoDup; reflexivity).
  eexists. eexists. eexists. split; [reflexivity|].
  split; [|split; [|split; [|split; [|split]]]].
  - unfold nb01_framing.
    destruct (unmatched_in nb [lit "markdown"; lit "code"] must_text) as [|m ms] eqn:E.
    + split; [|reflexivity]. intros _ pat Hin. apply found_in_nb_iff.
      apply (proj1 (unmatched_in_nil nb _ must_text) E). assumption.
    + split; [discriminate|]. intros H. exfalso.
      assert (E0 : unmatched_in nb [lit "markdown"; lit "code"] must_text = []).
      { apply unmatched_in_nil. intros pat Hin. apply found_in_nb_iff.
        apply H. assumption. }
      congruence.
  - unfold nb01_repro.
    destruct (find_strings_in_nb nb repro_hints [lit "code"]) as [|x xs] eqn:E.
    + split; [discriminate|]. intros [pat [cell [Hp [Hc [Ht Hm]]]]]. exfalso.
      assert (Hf : found_in_nb nb [lit "code"] pat = true).
      { apply found_in_nb_iff. exists cell. rewrite Ht. cbn [In]. auto. }
      rewrite (proj1 (find_strings_nil nb repro_hints [lit "code"]) E pat Hp) in Hf.
      discriminate.
    + split; [|reflexivity]. intros _.
      assert (Hx : In x (find_strings_in_nb nb repro_hints [lit "code"]))
        by (rewrite E; left; reflexivity).
      apply find_strings_in_nb_In in Hx.
      destruct Hx as [pat [cell [Hp [Hc [Hm _]]]]].
      unfold cell_matches in Hm. apply andb_true_iff in Hm.
      destruct Hm as [Ht Hm]. apply str_mem_In in Ht. destruct Ht as [Ht | []].
      exists pat, cell. auto.
  - unfold nb01_saved. destruct (has_outputs nb); reflexivity.
  - unfold nb01_framing. destruct (unmatched_in _ _ _); discriminate.
  - unfold nb01_repro. destruct (find_strings_in_nb _ _ _); discriminate.
  - unfold nb01_saved. destruct (has_outputs nb); discriminate.
Qed.

Lemma nb01_findings_witness :
  exists framing repro saved,
    @check_nb01 ascii_tables
      (sample_env [] nb_markers (1599, 12)%N (4898, 12)%N) (lit ".")
    = Ok [ (lit "Notebook 01 loads", PASS, []); framing; repro; saved ]
    /\ f_status saved = PASS.
Proof.
  destruct (@nb01_findings ascii_tables
              (sample_env [] nb_markers (1599, 12)%N (4898, 12)%N) (lit ".")
              (fun _ => Ok nb_markers) nb_markers eq_refl eq_refl)
    as [framing [repro [saved [H [_ [_ [Hs _]]]]]]].
  exists framing, repro, saved. split; [exact H|]. rewrite Hs. reflexivity.
Defined.

Lemma nb02_fail_count {T : CaseTables} (nb : Notebook) :
  List.length (check_nb02_loaded nb) = 7
  /\ count_status FAIL (check_nb02_loaded nb)
     = (if trained_in (code_text_of nb) then 1 else 0)
       + (if has_outputs nb then 0 else 1).
Proof.
  rewrite check_nb02_loaded_findings.
  unfold nb02_loads, nb02_markers, nb02_class_balance, nb02_richness,
    nb02_interpretations, nb02_no_training, nb02_saved.
  generalize (not_found must_code (find_strings_in_nb nb must_code [lit "code"])).
  generalize (find_strings_in_nb nb class_vis_hints [lit "code"]).
  generalize (count_image_outputs nb).
  generalize (interp_markdowns_of nb).
  generalize (trained_in (code_text_of nb)).
  generalize (has_outputs nb).
  intros saved trained n img vis missing.
  split; [reflexivity|].
  destruct missing; destruct vis; destruct (img <? 1); destruct (2 <=? img);
    destruct (2 <=? n); destruct trained; destruct saved; reflexivity.
Qed.

(** X5.  On a loaded document 2, [check_nb02] returns seven findings, and
    the number of FAIL among them is one for training code plus one for
    missing outputs: no other test of the document can fail the run. *)
Theorem nb02_failures (T : CaseTables) (nb : Notebook) :
  List.length (check_nb02_loaded nb) = 7
  /\ count_status FAIL (check_nb02_loaded nb)
     = (if trained_in (code_text_of nb) then 1 else 0)
       + (if has_outputs nb then 0 else 1)
  /\ (forall i r, nth_error (check_nb02_loaded nb) i = Some r ->
        f_status r = FAIL -> i = 5 \/ i = 6).
Proof.
  split; [apply nb02_fail_count|]. split; [apply nb02_fail_count|].
  rewrite check_nb02_loaded_findings.
  unfold nb02_loads, nb02_markers, nb02_class_balance, nb02_richness,
    nb02_interpretations, nb02_no_training, nb02_saved.
  generalize (not_found must_code (find_strings_in_nb nb must_code [lit "code"])).
  generalize (find_strings_in_nb nb class_vis_hints [lit "code"]).
  generalize (count_image_outputs nb).
  generalize (interp_markdowns_of nb).
  generalize (trained_in (code_text_of nb)).
  generalize (has_outputs nb).
  intros saved trained n img vis missing.
  intros i r Hi Hf.
  destruct i as [|[|[|[|[|[|[|i]]]]]]]; cbn [nth_error] in Hi;
    try (injection Hi as <-); auto.
  - discriminate Hf.
  - destruct missing; discriminate Hf.
  - destruct vis; destruct img; simpl in Hf; discriminate Hf.
  - destruct img as [|[|img]]; discriminate Hf.
  - destruct n as [|[|n]]; discriminate Hf.
  - destruct i; discriminate Hi.
Qed.

Lemma count_image_outputs_needs_outputs (nb : Notebook) :
  1 <= count_image_outputs nb -> has_outputs nb = true.
Proof.
  rewrite count_image_outputs_spec. unfold code_outputs, has_outputs.
  induction (nb_code_cells nb) as [|c cs IH]; simpl; [lia|].
  destruct (or_nil (outputs c)) as [|o os]; simpl; [exact IH | reflexivity].
Qed.

(** X6.  Once document 2 is loaded, the class-balance finding is PASS
    exactly when one of the five plotting hints matches some code cell and
    the notebook has at least one image output; and whenever that finding
    or the richness finding is PASS, the final "Saved with outputs" finding
    is PASS too, because an image output is an output. *)
Theorem nb02_visual_findings (T : CaseTables) (nb : Notebook) :
  (option_map f_status (nth_error (check_nb02_loaded nb) 2) = Some PASS <->
   (exists pat cell, In pat class_vis_hints /\ In cell (cells nb)
      /\ cell_type cell = lit "code"
      /\ re_search ci_eqb (pat_re pat) (or_empty (source cell)) = true)
   /\ 1 <= count_image_outputs nb)
  /\ (option_map f_status (nth_error (check_nb02_loaded nb) 2) = Some PASS
      \/ option_map f_status (nth_error (check_nb02_loaded nb) 3) = Some PASS ->
      nth_error (check_nb02_loaded nb) 6
      = Some (lit "NB02: Saved with outputs", PASS, [])).
Proof.
  rewrite check_nb02_loaded_findings. cbn [nth_error option_map].
  unfold nb02_class_balance, nb02_richness, nb02_saved.
  assert (Hvis : find_strings_in_nb nb class_vis_hints [lit "code"] <> [] <->
            exists pat cell, In pat class_vis_hints /\ In cell (cells nb)
              /\ cell_type cell = lit "code"
              /\ re_search ci_eqb (pat_re pat) (or_empty (source cell)) = true).
  { split.
    - intros H.
      destruct (find_strings_in_nb nb class_vis_hints [lit "code"]) as [|x xs] eqn:E;
        [congruence|].
      assert (Hx : In x (find_strings_in_nb nb class_vis_hints [lit "code"]))
        by (rewrite E; left; reflexivity).
      apply find_strings_in_nb_In in Hx.
      destruct Hx as [pat [cell [Hp [Hc [Hm _]]]]].
      unfold cell_matches in Hm. apply andb_true_iff in Hm.
      destruct Hm as [Ht Hm]. apply str_mem_In in Ht. destruct Ht as [Ht | []].
      exists pat, cell. auto.
    - intros [pat [cell [Hp [Hc [Ht Hm]]]]] E.
      assert (Hf : found_in_nb nb [lit "code"] pat = true).
      { apply found_in_nb_iff. exists cell. rewrite Ht. cbn [In]. auto. }
      rewrite (proj1 (find_strings_nil nb class_vis_hints [lit "code"]) E pat Hp) in Hf.
      discriminate. }
  split.
  - destruct (find_strings_in_nb nb class_vis_hints [lit "code"]) as [|x xs];
      cbn [orb].
    + split; [discriminate|]. intros [H _]. apply Hvis in H. congruence.
    + destruct (count_image_outputs nb <? 1) eqn:E.
      * apply Nat.ltb_lt in E. split; [discriminate | intros [_ H]; lia].
      * apply Nat.ltb_ge in E. split; [|reflexivity]. intros _.
        split; [apply Hvis; discriminate | assumption].
  - intros H.
    assert (Hc : 1 <= count_image_outputs nb).
    { destruct H as [H | H].
      - destruct (find_strings_in_nb nb class_vis_hints [lit "code"]);
          cbn [orb] in H; [discriminate|].
        destruct (count_image_outputs nb <? 1) eqn:E; [discriminate|].
        apply Nat.ltb_ge in E. assumption.
      - destruct (2 <=? count_image_outputs nb) eqn:E; [|discriminate].
        apply Nat.leb_le in E. lia. }
    rewrite (count_image_outputs_needs_outputs nb Hc). reflexivity.
Qed.

(** ** Documents that cannot be loaded *)

(** X7.  A document that cannot be loaded never makes its evaluator raise:
    [check_nb01] and [check_nb02] return a single FAIL finding whose detail
    is "Cannot open: " followed by the message of the error, and when the
    notebook reader itself is not installed the detail says so. *)
Theorem notebook_unreadable (T : CaseTables) (env : Env) (root : Path) :
  (nbformat env = None ->
   check_nb01 env root
   = Ok [ (lit "Notebook 01 loads", FAIL,
           lit "Cannot open: nbformat not installed (pip install nbformat)") ]
   /\ check_nb02 env root
      = Ok [ (lit "Notebook 02 loads", FAIL,
              lit "Cannot open: nbformat not installed (pip install nbformat)") ])
  /\ (forall read e,
        nbformat env = Some read ->
        read (joinpath root (lit "notebooks/01_problem_framing.ipynb")) = Raise e ->
        check_nb01 env root
        = Ok [ (lit "Notebook 01 loads", FAIL, lit "Cannot open: " ++ e) ])
  /\ (forall read e,
        nbformat env = Some read ->
        read (joinpath root (lit "notebooks/02_data_understanding.ipynb")) = Raise e ->
        check_nb02 env root
        = Ok [ (lit "Notebook 02 loads", FAIL, lit "Cannot open: " ++ e) ]).
Proof.
  split; [|split].
  - intros H. unfold check_nb01, check_nb02, load_notebook. rewrite H.
    split; reflexivity.
  - intros read e Hn Hr. unfold check_nb01, load_notebook. rewrite Hn, Hr.
    reflexivity.
  - intros read e Hn Hr. unfold check_nb02, load_notebook. rewrite Hn, Hr.
    reflexivity.
Qed.

Lemma notebook_unreadable_witness :
  @check_nb02 ascii_tables unreadable_env (lit ".")
  = Ok [ (lit "Notebook 02 loads", FAIL,
          lit "Cannot open: nbformat not installed (pip install nbformat)") ].
Proof.
  destruct (@notebook_unreadable ascii_tables unreadable_env (lit ".")) as [H _].
  destruct (H eq_refl) as [_ H2]. exact H2.
Defined.

(** ** The findings of a run *)

Lemma Ok_inj {A : Type} (a b : A) : Ok a = Ok b -> a = b.
Proof. intros H. injection H as H. exact H. Qed.

Lemma count_status_app (st : Status) (a b : list Finding) :
  count_status st (a ++ b) = count_status st a + count_status st b.
Proof. unfold count_status. rewrite filter_app, length_app. reflexivity. Qed.

Lemma files_clean (env : Env) (root : Path) (l : list str) :
  (count_status FAIL (map (artifact_finding env root) l) =? 0)
  = forallb (fun rel => path_exists env (joinpath root rel)) l.
Proof.
  induction l as [|rel l IH]; [reflexivity|].
  cbn [map forallb]. unfold artifact_finding at 1.
  destruct (path_exists env (joinpath root rel)); cbn [andb].
  - exact IH.
  - reflexivity.
Qed.

Lemma check_gitignore_parts (env : Env) (root : Path) (r : list Finding) :
  check_gitignore env root = Ok r ->
  List.length r = 1
  /\ count_status FAIL r
     = if path_exists env (joinpath root (lit ".gitignore")) then 0 else 1.
Proof.
  destruct (path_exists env (joinpath root (lit ".gitignore"))) eqn:E.
  - rewrite (check_gitignore_present env root E). intros H. apply Ok_inj in H. subst r.
    destruct (filter (unmatched (loaded_text env (joinpath root (lit ".gitignore"))))
                     GITIGNORE_REQUIRED_PATTERNS); split; reflexivity.
  - unfold check_gitignore. rewrite E. intros H. apply Ok_inj in H. subst r.
    split; reflexivity.
Qed.

Lemma check_data_shapes_parts (env : Env) (root : Path) (r : list Finding) :
  check_data_shapes env root = Ok r ->
  List.length r = 1
  /\ count_status FAIL r = if tables_readable env root then 0 else 1.
Proof.
  unfold check_data_shapes, tables_readable.
  destruct (pd env) as [read_csv|].
  - destruct (read_csv (joinpath root (lit "data/winequality-red.csv")) (lit ";"))
      as [red|e1].
    + destruct (read_csv (joinpath root (lit "data/winequality-white.csv")) (lit ";"))
        as [white|e2]; cbn [bind try_except app]; intros H; apply Ok_inj in H; subst r.
      * destruct (_ && _); split; reflexivity.
      * split; reflexivity.
    + cbn [bind try_except app]. intros H; apply Ok_inj in H; subst r. split; reflexivity.
  - intros H; apply Ok_inj in H; subst r. split; reflexivity.
Qed.

Section RunFacts.

Context {tables : CaseTables}.

Lemma check_requirements_parts (env : Env) (root : Path) (r : list Finding) :
  check_requirements env root = Ok r ->
  List.length r = 1
  /\ count_status FAIL r
     = if path_exists env (joinpath root (lit "requirements.txt")) then 0 else 1.
Proof.
  destruct (path_exists env (joinpath root (lit "requirements.txt"))) eqn:E.
  - rewrite (check_requirements_present env root E). intros H. apply Ok_inj in H. subst r.
    destruct (filter
                (fun pkg =>
                   negb (str_mem pkg
                           (declared_names
                              (loaded_text env (joinpath root (lit "requirements.txt"))))))
                REQUIREMENTS_SORTED); split; reflexivity.
  - unfold check_requirements. rewrite E. intros H. apply Ok_inj in H. subst r.
    split; reflexivity.
Qed.

Lemma check_nb01_parts (env : Env) (root : Path) (r : list Finding) :
  check_nb01 env root = Ok r ->
  match notebook_at env (joinpath root (lit "notebooks/01_problem_framing.ipynb")) with
  | Some _ => List.length r = 4 /\ count_status FAIL r = 0
  | None => List.length r = 1 /\ count_status FAIL r = 1
  end.
Proof.
  unfold notebook_at. destruct (nbformat env) as [read|] eqn:Hn.
  - destruct (read (joinpath root (lit "notebooks/01_problem_framing.ipynb")))
      as [nb|e] eqn:Hr.
    + rewrite (check_nb01_when_loaded env root read nb Hn Hr).
      intros E. apply Ok_inj in E. subst r. split; [reflexivity|].
      unfold nb01_framing, nb01_repro, nb01_saved.
      destruct (not_found must_text _); destruct (find_strings_in_nb nb repro_hints _);
        destruct (has_outputs nb); reflexivity.
    + unfold check_nb01, load_notebook. rewrite Hn, Hr.
      intros E; apply Ok_inj in E; subst r. split; reflexivity.
  - unfold check_nb01, load_notebook. rewrite Hn.
    intros E; apply Ok_inj in E; subst r. split; reflexivity.
Qed.

End RunFacts.

Section RunLayout.

Context {tables : CaseTables}.

Lemma check_nb02_parts (env : Env) (root : Path) (r : list Finding) :
  check_nb02 env root = Ok r ->
  match notebook_at env (joinpath root (lit "notebooks/02_data_understanding.ipynb")) with
  | Some nb =>
      List.length r = 7
      /\ count_status FAIL r
         = (if trained_in (code_text_of nb) then 1 else 0)
           + (if has_outputs nb then 0 else 1)
  | None => List.length r = 1 /\ count_status FAIL r = 1
  end.
Proof.
  unfold notebook_at. destruct (nbformat env) as [read|] eqn:Hn.
  - destruct (read (joinpath root (lit "notebooks/02_data_understanding.ipynb")))
      as [nb|e] eqn:Hr.
    + rewrite (check_nb02_when_loaded env root read nb Hn Hr).
      intros E. apply Ok_inj in E. subst r. apply nb02_fail_count.
    + unfold check_nb02, load_notebook. rewrite Hn, Hr.
      intros E; apply Ok_inj in E; subst r. split; reflexivity.
  - unfold check_nb02, load_notebook. rewrite Hn.
    intros E; apply Ok_inj in E; subst r. split; reflexivity.
Qed.

Lemma all_findings_parts (env : Env) (root : Path) :
  exists g d n1 n2 s,
    check_gitignore env root = Ok g
    /\ check_requirements env root = Ok d
    /\ check_nb01 env root = Ok n1
    /\ check_nb02 env root = Ok n2
    /\ check_data_shapes env root = Ok s
    /\ all_findings env root
       = Ok (check_files_exist env root ++ g ++ d ++ n1 ++ n2 ++ s).
Proof.
  unfold all_findings.
  destruct (check_gitignore_total env root) as [g Hg].
  destruct (check_requirements_total env root) as [d Hd].
  destruct (check_nb01_total env root) as [n1 H1].
  destruct (check_nb02_total env root) as [n2 H2].
  destruct (check_data_shapes_total env root) as [s Hs].
  exists g, d, n1, n2, s. rewrite Hg, Hd, H1, H2, Hs. cbn [bind app].
  rewrite <- !app_assoc. auto 7.
Qed.

Lemma main_exit (env : Env) (root : Path) (results : list Finding) :
  all_findings env root = Ok results ->
  exists report,
    main env root
    = Ok (report, if count_status FAIL results =? 0 then 0 else 1).
Proof.
  intros Hall.
  assert (Hne : results <> []).
  { destruct (all_findings_total env root) as [rest Hrest].
    rewrite Hall in Hrest. apply Ok_inj in Hrest. subst results.
    rewrite check_files_exist_map. discriminate. }
  destruct (summarize_nonempty env results Hne) as [wl [ws [Hs _]]].
  unfold main. rewrite Hall. cbn [bind]. rewrite Hs. cbn [bind].
  eexists. apply f_equal. apply f_equal2; [reflexivity|].
  destruct (count_status FAIL results); reflexivity.
Qed.

End RunLayout.

Lemma count_no_fail (rs : list Finding) :
  count_status FAIL rs = 0 <-> forall r, In r rs -> f_status r <> FAIL.
Proof.
  unfold count_status. induction rs as [|r rs IH]; simpl.
  - split; [intros _ r [] | reflexivity].
  - destruct (status_eqb (f_status r) FAIL) eqn:E; simpl.
    + split; [discriminate|]. intros H. exfalso. apply (H r (or_introl eq_refl)).
      destruct (f_status r); try discriminate. reflexivity.
    + rewrite IH. split.
      * intros H x [<- | Hx]; [|apply H; assumption].
        intros Hf. rewrite Hf in E. discriminate.
      * intros H x Hx. apply H. right; assumption.
Qed.

(** C4.  [main] always returns.  Its findings are those of the six
    evaluators, in the order Artifact Existence, Ignore-Rule Coverage,
    Dependency Coverage, document 1, document 2, Tabular Shape; it prints
    a report and exits with status 0 when none of these findings is FAIL,
    and with status 1 otherwise.  The failure count that decides the
    status, on the findings of [main] and on any non-empty sequence of
    findings, is unchanged when the WARN findings are left out. *)
Theorem C4_exit_status (T : CaseTables) (env : Env) (root : Path) :
  exists g d n1 n2 s report code,
    check_gitignore env root = Ok g
    /\ check_requirements env root = Ok d
    /\ check_nb01 env root = Ok n1
    /\ check_nb02 env root = Ok n2
    /\ check_data_shapes env root = Ok s
    /\ all_findings env root
       = Ok (check_files_exist env root ++ g ++ d ++ n1 ++ n2 ++ s)
    /\ main env root = Ok (report, code)
    /\ (code = 0 <->
        count_status FAIL (check_files_exist env root ++ g ++ d ++ n1 ++ n2 ++ s)
        = 0)
    /\ (code = 1 <->
        count_status FAIL (check_files_exist env root ++ g ++ d ++ n1 ++ n2 ++ s)
        <> 0)
    /\ (code = 0 <->
        forall r,
          In r (check_files_exist env root) \/ In r g \/ In r d \/ In r n1
          \/ In r n2 \/ In r s ->
          f_status r <> FAIL)
    /\ count_status FAIL
         (filter (fun r => negb (is_warn r))
                 (check_files_exist env root ++ g ++ d ++ n1 ++ n2 ++ s))
       = count_status FAIL (check_files_exist env root ++ g ++ d ++ n1 ++ n2 ++ s)
    /\ (forall rs : list Finding, rs <> [] ->
          exists rep,
            summarize env rs
            = Ok (rep, count_status FAIL (filter (fun r => negb (is_warn r)) rs))).
Proof.
  destruct (all_findings_parts env root)
    as [g [d [n1 [n2 [s [Hg [Hd [H1 [H2 [Hs Hall]]]]]]]]]].
  destruct (main_exit env root _ Hall) as [report Hmain].
  exists g, d, n1, n2, s, report.
  exists (if count_status FAIL (check_files_exist env root ++ g ++ d ++ n1 ++ n2 ++ s)
             =? 0 then 0 else 1).
  assert (Hzero : count_status FAIL
                    (check_files_exist env root ++ g ++ d ++ n1 ++ n2 ++ s) = 0
                  <-> forall r,
                        In r (check_files_exist env root) \/ In r g \/ In r d
                        \/ In r n1 \/ In r n2 \/ In r s ->
                        f_status r <> FAIL).
  { rewrite count_no_fail. split.
    - intros H r Hr. apply H. rewrite !in_app_iff. tauto.
    - intros H r Hr. apply H. rewrite !in_app_iff in Hr. tauto. }
  repeat (split; [assumption|]).
  split; [|split; [|split; [|split]]].
  - destruct (count_status FAIL _); cbn; split; intros H;
      first [reflexivity | discriminate H].
  - destruct (count_status FAIL _); cbn; split; intros H;
      first [reflexivity | discriminate H | congruence].
  - rewrite <- Hzero.
    destruct (count_status FAIL _); cbn; split; intros H;
      first [reflexivity | discriminate H].
  - apply count_fail_without_warn.
  - intros rs Hrs. destruct (summarize_nonempty env rs Hrs) as [wl' [ws' [Hs' _]]].
    eexists. rewrite count_fail_without_warn. exact Hs'.
Qed.

Lemma C4_exit_status_witness :
  (exists report,
     @main ascii_tables
       (sample_env gitignore_full nb_two_images (1599, 12)%N (4898, 12)%N)
       (lit ".") = Ok (report, 0))
  /\ (exists report,
        @main ascii_tables (env_without_white gitignore_full nb_two_images)
          (lit ".") = Ok (report, 1)).
Proof.
  split.
  - destruct (@C4_exit_status ascii_tables
                (sample_env gitignore_full nb_two_images (1599, 12)%N (4898, 12)%N)
                (lit "."))
      as [g [d [n1 [n2 [s [report [code
           [Hg [Hd [H1 [H2 [Hs [Hall [Hmain [H0 _]]]]]]]]]]]]]]].
    assert (E : code = 0).
    { apply H0. vm_compute in Hg, Hd, H1, H2, Hs.
      apply Ok_inj in Hg, Hd, H1, H2, Hs. subst g d n1 n2 s.
      vm_compute. reflexivity. }
    subst code. exists report. exact Hmain.
  - destruct (@C4_exit_status ascii_tables
                (env_without_white gitignore_full nb_two_images) (lit "."))
      as [g [d [n1 [n2 [s [report [code
           [Hg [Hd [H1 [H2 [Hs [Hall [Hmain [_ [Hone _]]]]]]]]]]]]]]]].
    assert (E : code = 1).
    { apply Hone. vm_compute in Hg, Hd, H1, H2, Hs.
      apply Ok_inj in Hg, Hd, H1, H2, Hs. subst g d n1 n2 s.
      vm_compute. discriminate. }
    subst code. exists report. exact Hmain.
Defined.

(** X8.  [main] gathers the findings in a fixed order: the seven of
    Artifact Existence, one of Ignore-Rule Coverage, one of Dependency
    Coverage, four of document 1 (one when it cannot be loaded), seven of
    document 2 (one when it cannot be loaded) and one of Tabular Shape; a
    report therefore has between 12 and 21 findings. *)
Theorem run_findings_layout (T : CaseTables) (env : Env) (root : Path) :
  exists g d n1 n2 s,
    check_gitignore env root = Ok g
    /\ check_requirements env root = Ok d
    /\ check_nb01 env root = Ok n1
    /\ check_nb02 env root = Ok n2
    /\ check_data_shapes env root = Ok s
    /\ all_findings env root
       = Ok (check_files_exist env root ++ g ++ d ++ n1 ++ n2 ++ s)
    /\ List.length (check_files_exist env root) = 7
    /\ List.length g = 1 /\ List.length d = 1 /\ List.length s = 1
    /\ List.length n1
       = match notebook_at env
                 (joinpath root (lit "notebooks/01_problem_framing.ipynb")) with
         | Some _ => 4
         | None => 1
         end
    /\ List.length n2
       = match notebook_at env
                 (joinpath root (lit "notebooks/02_data_understanding.ipynb")) with
         | Some _ => 7
         | None => 1
         end
    /\ 12 <= List.length (check_files_exist env root ++ g ++ d ++ n1 ++ n2 ++ s)
    /\ List.length (check_files_exist env root ++ g ++ d ++ n1 ++ n2 ++ s) <= 21.
Proof.
  destruct (all_findings_parts env root) as [g [d [n1 [n2 [s [Hg [Hd [H1 [H2 [Hs Hall]]]]]]]]]].
  exists g, d, n1, n2, s.
  destruct (check_gitignore_parts env root g Hg) as [Lg _].
  destruct (check_requirements_parts env root d Hd) as [Ld _].
  destruct (check_data_shapes_parts env root s Hs) as [Ls _].
  pose proof (check_nb01_parts env root n1 H1) as P1.
  pose proof (check_nb02_parts env root n2 H2) as P2.
  assert (Lf : List.length (check_files_exist env root) = 7)
    by (rewrite check_files_exist_map, length_map; reflexivity).
  rewrite !length_app, Lf, Lg, Ld, Ls.
  destruct (notebook_at env (joinpath root (lit "notebooks/01_problem_framing.ipynb")));
    destruct (notebook_at env (joinpath root (lit "notebooks/02_data_understanding.ipynb")));
    destruct P1 as [P1 _]; destruct P2 as [P2 _]; rewrite P1, P2;
    repeat split; try assumption; try reflexivity; cbn; lia.
Qed.

(** X9.  A required artifact that is absent fails the run whatever else
    the repository holds: [main] exits with status 1. *)
Theorem missing_artifact_exit (T : CaseTables) (env : Env) (root : Path) (rel : str) :
  In rel REQUIRED_FILES ->
  path_exists env (joinpath root rel) = false ->
  exists report, main env root = Ok (report, 1).
Proof.
  intros Hin Hno.
  destruct (all_findings_total env root) as [rest Hall].
  destruct (main_exit env root _ Hall) as [report Hmain].
  exists report. rewrite Hmain. f_equal. f_equal.
  rewrite count_status_app.
  assert (Hf : (count_status FAIL (check_files_exist env root) =? 0) = false).
  { rewrite check_files_exist_map, files_clean.
    destruct (forallb (fun rel => path_exists env (joinpath root rel)) REQUIRED_FILES)
      eqn:E; [|reflexivity].
    rewrite forallb_forall in E. rewrite (E rel Hin) in Hno. discriminate. }
  destruct (count_status FAIL (check_files_exist env root)); [discriminate|].
  reflexivity.
Qed.

Lemma missing_artifact_exit_witness :
  exists report,
    @main ascii_tables (env_without_white manifest_full nb_markers) (lit ".")
    = Ok (report, 1).
Proof.
  apply (@missing_artifact_exit ascii_tables
           (env_without_white manifest_full nb_markers) (lit ".")
           (lit "data/winequality-white.csv")).
  - unfold REQUIRED_FILES. cbn [In]. tauto.
  - reflexivity.
Defined.

(** X10.  The exit status is 0 exactly for a clean run: every required
    path exists, both documents load, document 2 has no training code and
    at least one code-cell output, and the tables can be read (or the
    tabular reader is missing).  No other test can fail the run. *)
Theorem clean_run_exit (T : CaseTables) (env : Env) (root : Path) :
  exists report,
    main env root = Ok (report, if run_is_clean env root then 0 else 1).
Proof.
  destruct (all_findings_parts env root) as [g [d [n1 [n2 [s [Hg [Hd [H1 [H2 [Hs Hall]]]]]]]]]].
  destruct (main_exit env root _ Hall) as [report Hmain].
  exists report. rewrite Hmain. f_equal. f_equal.
  destruct (check_gitignore_parts env root g Hg) as [_ Cg].
  destruct (check_requirements_parts env root d Hd) as [_ Cd].
  destruct (check_data_shapes_parts env root s Hs) as [_ Cs].
  pose proof (check_nb01_parts env root n1 H1) as P1.
  pose proof (check_nb02_parts env root n2 H2) as P2.
  pose proof (files_clean env root REQUIRED_FILES) as Cf.
  rewrite <- check_files_exist_map in Cf.
  rewrite !count_status_app, Cg, Cd, Cs. unfold run_is_clean.
  match goal with
  | |- context [forallb ?f REQUIRED_FILES] => set (all_exist := forallb f REQUIRED_FILES)
  end.
  assert (Efb : (count_status FAIL (check_files_exist env root) =? 0) = all_exist)
    by exact Cf.
  rewrite <- Efb.
  destruct (count_status FAIL (check_files_exist env root)) as [|k] eqn:Ek;
    [|reflexivity].
  assert (Hall_exist : forall rel, In rel REQUIRED_FILES ->
            path_exists env (joinpath root rel) = true).
  { apply forallb_forall. symmetry. exact Cf. }
  rewrite (Hall_exist (lit ".gitignore")) by (unfold REQUIRED_FILES; cbn [In]; tauto).
  rewrite (Hall_exist (lit "requirements.txt"))
    by (unfold REQUIRED_FILES; cbn [In]; tauto).
  cbn [Nat.eqb andb Nat.add].
  destruct (notebook_at env (joinpath root (lit "notebooks/01_problem_framing.ipynb")));
    destruct (notebook_at env (joinpath root (lit "notebooks/02_data_understanding.ipynb")))
      as [nb2|];
    destruct P1 as [_ P1]; destruct P2 as [_ P2]; rewrite P1, P2;
    try (destruct (trained_in (code_text_of nb2)); destruct (has_outputs nb2));
    destruct (tables_readable env root); reflexivity.
Qed.

(** ** Ignore rules and manifests under edits *)

Lemma re_search_extend (eqc : char -> char -> bool) (r : regex) (a s b : str) :
  re_search eqc r s = true -> re_search eqc r (a ++ s ++ b) = true.
Proof.
  rewrite !re_search_spec. intros [a' [m [b' [E H]]]].
  exists (a ++ a'), m, (b' ++ b). split; [|assumption].
  subst s. rewrite <- !app_assoc. reflexivity.
Qed.

(** X11.  Text added before or after the content of the ignore file never
    makes a rule go missing: every pattern reported for the longer file
    was already reported for the shorter one, and a PASS stays a PASS. *)
Theorem gitignore_additions_keep_pass (env env' : Env) (root : Path) (a b : str) :
  path_exists env (joinpath root (lit ".gitignore")) = true ->
  path_exists env' (joinpath root (lit ".gitignore")) = true ->
  loaded_text env' (joinpath root (lit ".gitignore"))
  = a ++ loaded_text env (joinpath root (lit ".gitignore")) ++ b ->
  (forall pat,
     In pat (filter (unmatched (loaded_text env' (joinpath root (lit ".gitignore"))))
                    GITIGNORE_REQUIRED_PATTERNS) ->
     In pat (filter (unmatched (loaded_text env (joinpath root (lit ".gitignore"))))
                    GITIGNORE_REQUIRED_PATTERNS))
  /\ (check_gitignore env root
      = Ok [ (lit "gitignore includes today-only rules", PASS, []) ] ->
      check_gitignore env' root
      = Ok [ (lit "gitignore includes today-only rules", PASS, []) ]).
Proof.
  intros He He' Ht.
  assert (Hsub : forall pat,
            In pat (filter (unmatched (loaded_text env' (joinpath root (lit ".gitignore"))))
                           GITIGNORE_REQUIRED_PATTERNS) ->
            In pat (filter (unmatched (loaded_text env (joinpath root (lit ".gitignore"))))
                           GITIGNORE_REQUIRED_PATTERNS)).
  { intros pat H. apply filter_In in H. destruct H as [Hin Hu].
    apply filter_In. split; [assumption|]. unfold unmatched in *.
    destruct (re_search char_eqb (pat_re pat)
                (loaded_text env (joinpath root (lit ".gitignore")))) eqn:E;
      [|reflexivity].
    rewrite Ht, (re_search_extend char_eqb (pat_re pat) a _ b E) in Hu.
    discriminate. }
  split; [exact Hsub|].
  rewrite (check_gitignore_present env root He),
          (check_gitignore_present env' root He').
  intros H. apply Ok_inj in H.
  destruct (filter (unmatched (loaded_text env (joinpath root (lit ".gitignore"))))
                   GITIGNORE_REQUIRED_PATTERNS) as [|m ms] eqn:E; [|discriminate].
  destruct (filter (unmatched (loaded_text env' (joinpath root (lit ".gitignore"))))
                   GITIGNORE_REQUIRED_PATTERNS) as [|m' ms']; [reflexivity|].
  exfalso. apply (Hsub m'). left; reflexivity.
Qed.

Lemma gitignore_additions_keep_pass_witness :
  check_gitignore
    (env_with_text (lit "# local" ++ [LF] ++ gitignore_full ++ [LF] ++ lit "*.log"))
    (lit ".")
  = Ok [ (lit "gitignore includes today-only rules", PASS, []) ].
Proof.
  destruct (gitignore_additions_keep_pass
              (env_with_text gitignore_full)
              (env_with_text (lit "# local" ++ [LF] ++ gitignore_full ++ [LF] ++ lit "*.log"))
              (lit ".") (lit "# local" ++ [LF]) ([LF] ++ lit "*.log")
              eq_refl eq_refl) as [_ H].
  - vm_compute. reflexivity.
  - apply H. vm_compute. reflexivity.
Defined.

(** X12.  A manifest in which every line is blank or a comment declares
    nothing, even if a comment names a dependency: the finding is a WARN
    that lists all five minimal dependencies. *)
Theorem manifest_of_comments (T : CaseTables) (env : Env) (root : Path) :
  path_exists env (joinpath root (lit "requirements.txt")) = true ->
  (forall line,
     In line (splitlines (loaded_text env (joinpath root (lit "requirements.txt")))) ->
     strip line = [] \/ startswith (lit "#") (strip line) = true) ->
  check_requirements env root
  = Ok [ (lit "requirements includes minimal deps", WARN,
          lit "Missing: matplotlib, numpy, pandas, scikit-learn, seaborn") ].
Proof.
  intros He Hlines. rewrite (check_requirements_present env root He).
  assert (E : declared_names
                (loaded_text env (joinpath root (lit "requirements.txt"))) = []).
  { destruct (declared_names _) as [|x xs] eqn:E; [reflexivity|]. exfalso.
    assert (Hx : In x (declared_names
                         (loaded_text env (joinpath root (lit "requirements.txt")))))
      by (rewrite E; left; reflexivity).
    apply declared_names_In in Hx. destruct Hx as [line [Hin [Hne [Hc _]]]].
    destruct (Hlines line Hin) as [H | H]; congruence. }
  rewrite E. reflexivity.
Qed.

Lemma manifest_of_comments_witness :
  @check_requirements ascii_tables (env_with_text manifest_comments) (lit ".")
  = Ok [ (lit "requirements includes minimal deps", WARN,
          lit "Missing: matplotlib, numpy, pandas, scikit-learn, seaborn") ].
Proof.
  apply (@manifest_of_comments ascii_tables (env_with_text manifest_comments) (lit ".")).
  - reflexivity.
  - intros line Hin. vm_compute in Hin.
    destruct Hin as [<- | [<- | [<- | []]]]; vm_compute; auto.
Defined.

(** ** The table of the report *)






(** ** Keywords, and a document without code *)





Lemma find_strings_without_code {T : CaseTables} (nb : Notebook) (pats : list Pattern) :
  nb_code_cells nb = [] -> find_strings_in_nb nb pats [lit "code"] = [].
Proof.
  intros H. apply find_strings_nil. intros pat _.
  unfold found_in_nb, cell_matches.
  destruct (existsb _ (cells nb)) eqn:E; [|reflexivity]. exfalso.
  apply existsb_exists in E. destruct E as [cell [Hc Hm]].
  apply andb_true_iff in Hm. destruct Hm as [Ht _].
  apply str_mem_In in Ht. destruct Ht as [Ht | []].
  assert (Hin : In cell (nb_code_cells nb)).
  { apply filter_In. split; [assumption|]. rewrite <- Ht. apply str_eqb_refl. }
  rewrite H in Hin. destruct Hin.
Qed.

(** X15.  A document 2 none of whose cells has the type "code", the
    empty notebook included, is never charged with training, whatever its
    other cells say, but fails on missing outputs: the marker finding is
    WARN and lists all four markers, the figure and richness findings are
    WARN, the training finding is PASS and the last finding is FAIL; only
    cells of type "markdown" with a keyword and 20 words or more count as
    interpretations. *)
Theorem nb02_without_code (T : CaseTables) (nb : Notebook) :
  (forall cell, In cell (cells nb) -> cell_type cell <> lit "code") ->
  check_nb02_loaded nb
  = [ (lit "Notebook 02 loads", PASS, []);
      (lit "NB02: Data load + label (0/1) + concat", WARN,
       lit "Missing patterns: ['read_csv', 'sep\\s*=\\s*[" ++ [BSL; BSL; DQ]
       ++ lit "\']\\;[" ++ [BSL; BSL; DQ] ++ lit "\']', " ++ [DQ]
       ++ lit "(?:\\['type'\\]|type)\\s*=" ++ [DQ] ++ lit ", 'concat\\(']");
      (lit "NB02: Class balance figure + output", WARN,
       lit "Add a bar/plot of class counts and ensure outputs are saved.");
      (lit "NB02: >=2 feature visuals present", WARN,
       lit "Add at least two feature plots (e.g., boxplots/hist by class).");
      nb02_interpretations
        (List.length
           (filter markdown_note
              (filter (fun cell => str_eqb (cell_type cell) (lit "markdown"))
                      (cells nb))));
      (lit "NB02: No model training appears", PASS, []);
      (lit "NB02: Saved with outputs", FAIL,
       lit "Run all cells and save notebook with outputs so GitHub renders figures.") ].
Proof.
  intros Hnone. pose proof (no_code_cells nb Hnone) as H.
  rewrite check_nb02_loaded_findings.
  rewrite !(find_strings_without_code nb _ H).
  rewrite interp_markdowns_of_spec.
  unfold count_image_outputs, code_text_of, has_outputs. rewrite H.
  cbn [filter List.length fold_left map join has_outputs_in Nat.add].
  rewrite Nat.add_0_r. reflexivity.
Qed.

Lemma nb02_without_code_witness :
  option_map f_status (nth_error (@check_nb02_loaded ascii_tables nb_prose) 5)
  = Some PASS
  /\ option_map f_status (nth_error (@check_nb02_loaded ascii_tables nb_prose) 6)
     = Some FAIL.
Proof.
  rewrite (@nb02_without_code ascii_tables nb_prose).
  - split; reflexivity.
  - intros cell Hin. unfold nb_prose in Hin. cbn [cells In] in Hin.
    destruct Hin as [<- | [<- | []]]; discriminate.
Defined.

(** ** Counting, and cells added to a document *)

Lemma filter_length_bound {A : Type} (p : A -> bool) (l : list A) :
  List.length (filter p l) <= List.length l.
Proof.
  induction l as [|x l IH]; simpl; [lia|]. destruct (p x); simpl; lia.
Qed.

(** X16.  [count_image_outputs] counts output records of cells whose
    type is "code", once each: it never exceeds the number of outputs of
    those cells, it is 0 when no cell is a code cell, a cell of another
    type can be removed from the notebook, with all its outputs, without
    changing the count, and a single output counts once however many image
    types it carries. *)
Theorem count_image_outputs_bound (nb : Notebook) :
  count_image_outputs nb
  <= List.length
       (flat_map (fun cell => or_nil (outputs cell))
          (filter (fun cell => str_eqb (cell_type cell) (lit "code")) (cells nb)))
  /\ ((forall cell, In cell (cells nb) -> cell_type cell <> lit "code") ->
      count_image_outputs nb = 0)
  /\ (forall pre c post,
        cell_type c <> lit "code" ->
        count_image_outputs {| cells := pre ++ c :: post |}
        = count_image_outputs {| cells := pre ++ post |})
  /\ (forall src out,
        count_image_outputs {| cells := [ code_cell src [out] ] |}
        = if is_image_output out then 1 else 0).
Proof.
  split; [|split; [|split]].
  - rewrite count_image_outputs_spec. apply filter_length_bound.
  - intros H. unfold count_image_outputs. rewrite (no_code_cells nb H). reflexivity.
  - intros pre c post Hc. unfold count_image_outputs, nb_code_cells.
    cbn [cells]. rewrite !filter_app. cbn [filter].
    apply str_eqb_neq in Hc. rewrite Hc. reflexivity.
  - intros src out. unfold count_image_outputs, nb_code_cells, code_cell.
    cbn [cells filter cell_type]. rewrite str_eqb_refl.
    cbn [fold_left outputs or_nil]. destruct (is_image_output out); reflexivity.
Qed.

Lemma notes_within_cells {T : CaseTables} (cs : list Cell) :
  List.length
    (filter markdown_note
       (filter (fun cell => str_eqb (cell_type cell) (lit "markdown")) cs))
  + List.length
      (filter code_note
         (filter (fun cell => str_eqb (cell_type cell) (lit "code")) cs))
  <= List.length
       (filter (fun cell => str_eqb (cell_type cell) (lit "markdown")
                            || str_eqb (cell_type cell) (lit "code")) cs).
Proof.
  induction cs as [|c cs IH]; [reflexivity|]. cbn [filter].
  destruct (str_eqb (cell_type c) (lit "markdown")) eqn:Em;
    destruct (str_eqb (cell_type c) (lit "code")) eqn:Ec; cbn [orb filter].
  - apply str_eqb_eq in Em, Ec. rewrite Em in Ec. discriminate.
  - destruct (markdown_note c); cbn [List.length]; lia.
  - destruct (code_note c); cbn [List.length]; lia.
  - exact IH.
Qed.

(** X17.  A cell counts at most once as an interpretation note, however
    often it repeats a keyword and whatever its type: the counter never
    exceeds the number of cells of the notebook whose type is "markdown"
    or "code", so the interpretation finding can be PASS only for a
    document with at least two such cells. *)
Theorem interp_notes_bound (T : CaseTables) (nb : Notebook) :
  interp_markdowns_of nb
  <= List.length
       (filter (fun cell => str_eqb (cell_type cell) (lit "markdown")
                            || str_eqb (cell_type cell) (lit "code")) (cells nb))
  /\ interp_markdowns_of nb <= List.length (cells nb)
  /\ (option_map f_status (nth_error (check_nb02_loaded nb) 4) = Some PASS ->
      2 <= List.length
             (filter (fun cell => str_eqb (cell_type cell) (lit "markdown")
                                  || str_eqb (cell_type cell) (lit "code"))
                     (cells nb))).
Proof.
  assert (Hb : interp_markdowns_of nb
               <= List.length
                    (filter (fun cell => str_eqb (cell_type cell) (lit "markdown")
                                         || str_eqb (cell_type cell) (lit "code"))
                            (cells nb))).
  { rewrite interp_markdowns_of_spec. apply (notes_within_cells (cells nb)). }
  split; [exact Hb|]. split.
  - pose proof (filter_length_bound
                  (fun cell => str_eqb (cell_type cell) (lit "markdown")
                               || str_eqb (cell_type cell) (lit "code"))
                  (cells nb)). lia.
  - rewrite check_nb02_loaded_findings. cbn [nth_error option_map].
    unfold nb02_interpretations.
    destruct (2 <=? interp_markdowns_of nb) eqn:E; [|discriminate].
    apply Nat.leb_le in E. intros _. lia.
Qed.

Lemma code_text_with_cells (pre post : list Cell) (nb : Notebook) :
  exists x y, code_text_of (with_cells pre post nb) = x ++ code_text_of nb ++ y.
Proof.
  unfold code_text_of, with_cells, nb_code_cells. cbn [cells].
  rewrite !filter_app, !map_app.
  destruct (join_app_right [LF]
              (map (fun cell => or_empty (source cell))
                   (filter (fun cell => str_eqb (cell_type cell) (lit "code")) pre))
              (map (fun cell => or_empty (source cell))
                   (filter (fun cell => str_eqb (cell_type cell) (lit "code")) (cells nb))
               ++ map (fun cell => or_empty (source cell))
                      (filter (fun cell => str_eqb (cell_type cell) (lit "code")) post)))
    as [x Hx].
  destruct (join_app_left [LF]
              (map (fun cell => or_empty (source cell))
                   (filter (fun cell => str_eqb (cell_type cell) (lit "code")) (cells nb)))
              (map (fun cell => or_empty (source cell))
                   (filter (fun cell => str_eqb (cell_type cell) (lit "code")) post)))
    as [y Hy].
  exists x, y. rewrite Hx, Hy. reflexivity.
Qed.

(** X18.  Training code cannot be hidden by adding cells: when the scan
    flags a document, it flags every document obtained by putting further
    cells, of any type, before or after its cells, and the finding stays
    FAIL. *)
Theorem training_survives_added_cells (T : CaseTables) (nb : Notebook)
    (pre post : list Cell) :
  trained_in (code_text_of nb) = true ->
  trained_in (code_text_of (with_cells pre post nb)) = true
  /\ option_map f_status (nth_error (check_nb02_loaded (with_cells pre post nb)) 5)
     = Some FAIL.
Proof.
  intros H.
  assert (H' : trained_in (code_text_of (with_cells pre post nb)) = true).
  { destruct (code_text_with_cells pre post nb) as [x [y E]]. rewrite E.
    apply trained_in_spec. apply trained_in_spec in H.
    destruct H as [[ws [Hw Ho]] | [name [Hn Ho]]].
    - left. exists ws. split; [assumption | apply occurs_extend; assumption].
    - right. exists name. split; [assumption | apply occurs_extend; assumption]. }
  split; [exact H'|].
  rewrite check_nb02_loaded_findings. cbn [nth_error option_map].
  rewrite H'. reflexivity.
Qed.

Lemma training_survives_added_cells_witness :
  option_map f_status
    (nth_error
       (@check_nb02_loaded ascii_tables
          (with_cells [ markdown_cell (lit "# Intro") ]
                      [ code_cell (lit "df.head()") [text_output] ]
                      nb_fit_spaced)) 5)
  = Some FAIL.
Proof.
  destruct (@training_survives_added_cells ascii_tables nb_fit_spaced
              [ markdown_cell (lit "# Intro") ]
              [ code_cell (lit "df.head()") [text_output] ]) as [_ H].
  - vm_compute. reflexivity.
  - exact H.
Defined.
